(** * The Telegram back-end of errbot: a shallow embedding and its properties

    Source: [src/errbot/backends/telegram_messenger.py].

    The Python module is embedded as follows.
    - Python [int] is [Z]; an attribute that may hold [None] is an
      [option].  A Python [str] that the module only stores, compares or
      concatenates is a [string]; one whose characters it looks at is the
      list of its code points ([str]).
    - Exceptions are values of [exn]; a pure computation that may raise
      returns a [result].
    - Stateful code lives in the monad [M]: a function from the [World]
      (the collaborators' state, the host key-value store, the attributes
      of [self] and the chronological trace of observable events) to an
      [outcome] and the next world.
    - The collaborators that are not part of the module (the Telegram
      client library and the host runtime [ErrBot]) are the fields of
      [Externals]: arbitrary functions on an abstract state that may
      return or raise. *)

From Stdlib Require Import ZArith Ascii String List Bool Lia.
From stdpp Require Import base option list gmap strings.
Import ListNotations.

Local Open Scope Z_scope.

(** ** Python exceptions *)

(** The exception classes the module can meet.  [KeyboardInterrupt] and
    [SystemExit] derive from [BaseException] only; all the others derive
    from [Exception].  [RoomsNotSupportedError] is the module's own class
    (a [RoomError]); [TelegramError] is the client library's. *)
Inductive exn : Type :=
| KeyboardInterrupt
| SystemExit
| KeyError (key : string)
| ValueError (message : string)
| TypeError (message : string)
| AttributeError (message : string)
| TelegramError (message : string)
| RoomsNotSupportedError (message : string)
| OtherException (class_name : string).

(** [isinstance(e, Exception)]: what [except Exception:] catches. *)
Definition is_Exception (e : exn) : bool :=
  match e with
  | KeyboardInterrupt | SystemExit => false
  | _ => true
  end.

Inductive result (A : Type) : Type :=
| Ok (a : A)
| Err (e : exn).
Arguments Ok {A} a.
Arguments Err {A} e.

(** ** Identity model *)

(** [class TelegramPerson(TelegramIdentifier, Person)]. *)
Record TelegramPerson : Type := mkTelegramPerson {
  person_id : Z;
  first_name : option string;
  last_name : option string;
  username : option string
}.

(** [class TelegramRoom(TelegramIdentifier, Room)]. *)
Record TelegramRoom : Type := mkTelegramRoom {
  room_id : Z;
  title : option string
}.

(** [class TelegramMUCOccupant(TelegramPerson, RoomOccupant)]: the
    attributes of the person it inherits from, and [_room]. *)
Record TelegramMUCOccupant : Type := mkTelegramMUCOccupant {
  occupant_person : TelegramPerson;
  room : TelegramRoom
}.

(** Any object whose class derives from [TelegramIdentifier]. *)
Inductive TelegramIdentifier : Type :=
| Person (p : TelegramPerson)
| Room (r : TelegramRoom)
| MUCOccupant (o : TelegramMUCOccupant).

(** The [id] property (every subclass returns [self._id]). *)
Definition identifier_id (i : TelegramIdentifier) : Z :=
  match i with
  | Person p => person_id p
  | Room r => room_id r
  | MUCOccupant o => person_id (occupant_person o)
  end.

(** [TelegramIdentifier.__eq__]: [self._id == other.id]. *)
Definition TelegramIdentifier_eq (self other : TelegramIdentifier) : bool :=
  identifier_id self =? identifier_id other.

(** [x += y] where [y] is a [str] and [x] is a [str] or [None]:
    [None] has no [+], so the statement raises [TypeError]. *)
Definition py_iadd_str (x : option string) (y : string) : result (option string) :=
  match x with
  | Some s => Ok (Some (s +:+ y))
  | None =>
      Err (TypeError "unsupported operand type(s) for +=: 'NoneType' and 'str'")
  end.

(** [TelegramPerson.fullname]. *)
Definition fullname (self : TelegramPerson) : result (option string) :=
  let fullname := first_name self in
  match last_name self with
  | Some last => py_iadd_str fullname (" " +:+ last)
  | None => Ok fullname
  end.

(** [RoomsNotSupportedError.__init__(self, message=None)]. *)
Definition RoomsNotSupportedError_init (message : option string) : exn :=
  let message :=
    match message with
    | None =>
        "Room operations are not supported on Telegram. " +:+
        "While Telegram itself has groupchat functionality, it does not " +:+
        "expose any APIs to bots to get group membership or otherwise " +:+
        "interact with groupchats."
    | Some m => m
    end in
  RoomsNotSupportedError message.

(** ** Python built-ins on texts *)

(** Where the module looks at the characters of a [str] ([strip],
    [int], [str] of an [int]), the [str] is the list of its code
    points. *)
Definition str : Type := list Z.

(** The code points of a literal of this file, whose characters are
    ASCII. *)
Fixpoint code_points (s : string) : str :=
  match s with
  | EmptyString => []
  | String c rest => Z.of_nat (nat_of_ascii c) :: code_points rest
  end.

(** The interpreter's Unicode database, as far as [str.strip] and [int]
    consult it, for the code points from 128 on: the code points that are
    whitespace, and the code point of the digit zero of every script that
    has decimal digits, the digits of a script being ten consecutive code
    points from its zero up.  Both depend on the version of the database
    the interpreter was built with. *)
Record UnicodeData : Type := mkUnicodeData {
  whitespace : list Z;
  digit_zeros : list Z
}.

Section Texts.
Context (ud : UnicodeData).

(** Whether the database lists [c] as whitespace. *)
Definition unicode_isspace (c : Z) : bool :=
  existsb (Z.eqb c) (whitespace ud).

(** The value of [c] as a decimal digit in the database. *)
Definition unicode_todecimal (c : Z) : option Z :=
  match List.find (fun zero => (zero <=? c) && (c <=? zero + 9))
                  (digit_zeros ud) with
  | Some zero => Some (c - zero)
  | None => None
  end.

(** [c.isspace()], the interpreter's [Py_UNICODE_ISSPACE]: below 128 the
    characters 9 to 13 and 28 to 32, from 128 on what the database
    says. *)
Definition py_isspace (c : Z) : bool :=
  if c <? 128 then (9 <=? c) && (c <=? 13) || (28 <=? c) && (c <=? 32)
  else unicode_isspace c.

(** The interpreter's [Py_UNICODE_TODECIMAL]: the value of a decimal
    digit, [None] for any other character. *)
Definition py_todecimal (c : Z) : option Z :=
  if c <? 128 then
    if (48 <=? c) && (c <=? 57) then Some (c - 48) else None
  else unicode_todecimal c.

(** [s.lstrip()]. *)
Fixpoint py_lstrip (s : str) : str :=
  match s with
  | [] => []
  | c :: rest => if py_isspace c then py_lstrip rest else s
  end.

(** [s.rstrip()]. *)
Fixpoint py_rstrip (s : str) : str :=
  match s with
  | [] => []
  | c :: rest =>
      match py_rstrip rest with
      | [] => if py_isspace c then [] else [c]
      | kept => c :: kept
      end
  end.

(** [s.strip()]. *)
Definition py_strip (s : str) : str := py_rstrip (py_lstrip s).

(** [int(s)] first turns the text into ASCII: a character below 127 is
    kept; any other becomes a blank when it is whitespace, else the ASCII
    digit of its decimal value when it has one, and a question mark
    otherwise. *)
Definition int_ascii (c : Z) : Z :=
  if c <? 127 then c
  else if py_isspace c then 32
  else match py_todecimal c with
       | Some d => 48 + d
       | None => 63
       end.

(** The whitespace of the ASCII text [int] reads: the blank and the
    characters 9 to 13. *)
Definition ascii_isspace (c : Z) : bool :=
  (c =? 32) || (9 <=? c) && (c <=? 13).

(** The value of an ASCII digit, [None] for any other character. *)
Definition ascii_digit (c : Z) : option Z :=
  if (48 <=? c) && (c <=? 57) then Some (c - 48) else None.

(** Leading whitespace is skipped. *)
Fixpoint skip_spaces (s : str) : str :=
  match s with
  | [] => []
  | c :: rest => if ascii_isspace c then skip_spaces rest else s
  end.

(** What may follow a digit, [acc] being the value read so far: a digit;
    one underscore and a digit; or nothing but whitespace up to the
    end. *)
Fixpoint int_digits (acc : Z) (s : str) : option Z :=
  match s with
  | [] => Some acc
  | c :: rest =>
      match ascii_digit c with
      | Some d => int_digits (10 * acc + d) rest
      | None =>
          if c =? 95 then
            match rest with
            | c' :: rest' =>
                match ascii_digit c' with
                | Some d => int_digits (10 * acc + d) rest'
                | None => None
                end
            | [] => None
            end
          else if forallb ascii_isspace s then Some acc
          else None
      end
  end.

(** The digits: the first character is a digit. *)
Definition int_unsigned (s : str) : option Z :=
  match s with
  | [] => None
  | c :: rest =>
      match ascii_digit c with
      | Some d => int_digits d rest
      | None => None
      end
  end.

(** One optional sign, then the digits. *)
Definition int_signed (s : str) : option Z :=
  match s with
  | [] => None
  | c :: rest =>
      if c =? 43 then int_unsigned rest
      else if c =? 45 then Z.opp <$> int_unsigned rest
      else int_unsigned s
  end.

(** [int(s)] for a [str] in base 10, as Python 3.6 and later read it:
    whitespace, one optional sign, decimal digits of any script with at
    most one underscore between two of them, whitespace, and nothing
    else.  [None] stands for [ValueError].  The limit that Python 3.11
    puts on the number of digits (4300 unless configured otherwise, and
    none when configured so) is not part of this model. *)
Definition py_int (s : str) : option Z :=
  int_signed (skip_spaces (map int_ascii s)).

(** [TelegramBackend._is_numeric] (a static method):
    [try: int(input_); return True / except ValueError: return False]. *)
Definition _is_numeric (input_ : str) : bool :=
  match py_int input_ with
  | Some _ => true
  | None => false
  end.
End Texts.

(** ** Provider records (the client library's objects) *)

(** [telegram.user.User]. *)
Record User : Type := mkUser {
  user_id : Z;
  user_first_name : option string;
  user_last_name : option string;
  user_username : option string
}.

(** [telegram.groupchat.GroupChat]. *)
Record GroupChat : Type := mkGroupChat {
  chat_id : Z;
  chat_title : option string
}.

(** The [chat] attribute of a message: the module tells the two classes
    apart with [isinstance(message.chat, telegram.user.User)]. *)
Inductive Chat : Type :=
| ChatUser (u : User)
| ChatGroup (g : GroupChat).

(** [telegram.Message], the attributes the module reads.  [chat] and
    [from_user] hold objects; [text] may hold [None]. *)
Record TgMessage : Type := mkTgMessage {
  msg_text : option string;
  msg_chat : Chat;
  msg_from_user : User
}.

(** [telegram.Update].  [update_message] is [None] for an object without
    a [message] attribute ([hasattr(update, 'message')] is false), and
    [Some value] for an object that has the attribute, where [value] is
    what the attribute holds: a message, or [None]. *)
Record Update : Type := mkUpdate {
  update_id : Z;
  update_message : option (option TgMessage)
}.

(** ** The host's message object *)

(** [errbot.backends.base.Message], the attributes the module touches. *)
Record Message : Type := mkMessage {
  body : string;
  frm : option TelegramIdentifier;
  to : option TelegramIdentifier
}.

Definition set_frm (m : Message) (i : TelegramIdentifier) : Message :=
  {| body := body m; frm := Some i; to := to m |}.

Definition set_to (m : Message) (i : TelegramIdentifier) : Message :=
  {| body := body m; frm := frm m; to := Some i |}.

(** ** Observable events *)

Inductive level : Type := DEBUG | INFO | WARNING | ERROR.

(** An argument of a log record. *)
Inductive logarg : Type :=
| ArgInt (z : Z)
| ArgStr (s : string)
| ArgText (t : str)
| ArgUpdate (u : Update).

(** What the module does to the outside, in the order it does it: log
    records ([LogException] is [log.exception]: level ERROR with the
    exception being handled), writes to the host store, and calls to the
    collaborators (recorded when the call is made). *)
Inductive event : Type :=
| Log (lvl : level) (fmt : string) (args : list logarg)
| LogException (fmt : string) (args : list logarg) (e : exn)
| SetItem (key : string) (value : Z)
| TelegramBot (token : string)
| GetMe
| GetUpdates (offset timeout : Z)
| SendMessage (chat : Z) (text : string)
| BuildMessage (text : string)
| CallbackMessage (m : Message)
| ConnectCallback
| DisconnectCallback
| ResetReconnectionCount
| ErrBotSendMessage (m : Message)
| MdConvert (text : string).

(** ** Collaborators *)

(** The Telegram client library and the host runtime, as functions on a
    state [Env] of their own.  Each may return or raise. *)
Record Externals (Env : Type) : Type := mkExternals {
  telegram_Bot : string -> Env -> result unit * Env;
  telegram_getMe : Env -> result User * Env;
  telegram_getUpdates : Z -> Z -> Env -> result (list Update) * Env;
  telegram_sendMessage : Z -> string -> Env -> result unit * Env;
  build_message : string -> Env -> result Message * Env;
  callback_message : Message -> Env -> result unit * Env;
  connect_callback : Env -> result unit * Env;
  disconnect_callback : Env -> result unit * Env;
  reset_reconnection_count : Env -> result unit * Env;
  ErrBot_send_message : Message -> Env -> result unit * Env;
  md_converter_convert : string -> Env -> result string * Env
}.
Arguments telegram_Bot {Env} _ _ _.
Arguments telegram_getMe {Env} _ _.
Arguments telegram_getUpdates {Env} _ _ _ _.
Arguments telegram_sendMessage {Env} _ _ _ _.
Arguments build_message {Env} _ _ _.
Arguments callback_message {Env} _ _ _.
Arguments connect_callback {Env} _ _.
Arguments disconnect_callback {Env} _ _.
Arguments reset_reconnection_count {Env} _ _.
Arguments ErrBot_send_message {Env} _ _ _.
Arguments md_converter_convert {Env} _ _ _.

(** ** The world and the monad *)

(** [env]: the collaborators' state.  [store]: the host key-value store
    reached through [self[key]].  [token], [telegram], [bot_identifier]:
    attributes of the back-end object ([telegram] holds the token the
    client was built with, [None] before [serve_once]).  [trace]: the
    events so far, oldest first. *)
Record World (Env : Type) : Type := mkWorld {
  env : Env;
  store : gmap string Z;
  token : string;
  telegram : option string;
  bot_identifier : option TelegramPerson;
  trace : list event
}.
Arguments mkWorld {Env} _ _ _ _ _ _.
Arguments env {Env} _.
Arguments store {Env} _.
Arguments token {Env} _.
Arguments telegram {Env} _.
Arguments bot_identifier {Env} _.
Arguments trace {Env} _.

(** How a computation ends: it returns, it raises, or the model's fuel
    ran out while the program was still running. *)
Inductive outcome (A : Type) : Type :=
| Ret (a : A)
| Raise (e : exn)
| OutOfFuel.
Arguments Ret {A} a.
Arguments Raise {A} e.
Arguments OutOfFuel {A}.

Definition M (Env A : Type) : Type := World Env -> outcome A * World Env.

Definition ret {Env A} (a : A) : M Env A := fun w => (Ret a, w).

Definition raise {Env A} (e : exn) : M Env A := fun w => (Raise e, w).

Definition out_of_fuel {Env A} : M Env A := fun w => (OutOfFuel, w).

Definition bind {Env A B} (m : M Env A) (k : A -> M Env B) : M Env B :=
  fun w =>
    match m w with
    | (Ret a, w') => k a w'
    | (Raise e, w') => (Raise e, w')
    | (OutOfFuel, w') => (OutOfFuel, w')
    end.

Declare Scope py_scope.
Delimit Scope py_scope with py.
Notation "x <- m ;; k" := (bind m (fun x => k))
  (at level 100, m at level 99, right associativity) : py_scope.
Notation "m ;; k" := (bind m (fun _ => k))
  (at level 100, right associativity) : py_scope.
Local Open Scope py_scope.

(** Append an event to the trace. *)
Definition emit {Env} (ev : event) : M Env unit :=
  fun w =>
    (Ret tt, mkWorld (env w) (store w) (token w) (telegram w)
                     (bot_identifier w) (trace w ++ [ev])).

(** [log.debug], [log.info], [log.warning], [log.error]. *)
Definition log {Env} (lvl : level) (fmt : string) (args : list logarg)
  : M Env unit :=
  emit (Log lvl fmt args).

(** [log.exception]. *)
Definition log_exception {Env} (fmt : string) (args : list logarg) (e : exn)
  : M Env unit :=
  emit (LogException fmt args e).

(** A call to a collaborator: record it, run it on [env]. *)
Definition invoke {Env A} (ev : event) (f : Env -> result A * Env)
  : M Env A :=
  emit ev ;;
  fun w =>
    match f (env w) with
    | (Ok a, e') =>
        (Ret a, mkWorld e' (store w) (token w) (telegram w)
                        (bot_identifier w) (trace w))
    | (Err x, e') =>
        (Raise x, mkWorld e' (store w) (token w) (telegram w)
                          (bot_identifier w) (trace w))
    end.

(** [self[key]]: [KeyError] when the key is absent. *)
Definition getitem {Env} (key : string) : M Env Z :=
  fun w =>
    match store w !! key with
    | Some v => (Ret v, w)
    | None => (Raise (KeyError key), w)
    end.

(** [self[key] = value]. *)
Definition setitem {Env} (key : string) (value : Z) : M Env unit :=
  emit (SetItem key value) ;;
  fun w =>
    (Ret tt, mkWorld (env w) (<[key := value]> (store w)) (token w)
                     (telegram w) (bot_identifier w) (trace w)).

(** [try: body / except ...: handler]: [handler e] is [None] when no
    [except] clause matches [e]. *)
Definition try_except {Env A} (body : M Env A)
    (handler : exn -> option (M Env A)) : M Env A :=
  fun w =>
    match body w with
    | (Raise e, w') =>
        match handler e with
        | Some h => h w'
        | None => (Raise e, w')
        end
    | r => r
    end.

(** [try: body / finally: final]: [final] runs however [body] ends, and
    an exception it raises replaces the outcome of [body].  When the fuel
    runs out the program has not left [body], so [final] has not run. *)
Definition try_finally {Env A} (body : M Env A) (final : M Env unit)
  : M Env A :=
  fun w =>
    match body w with
    | (OutOfFuel, w') => (OutOfFuel, w')
    | (r, w') =>
        match final w' with
        | (Ret _, w'') => (r, w'')
        | (Raise e, w'') => (Raise e, w'')
        | (OutOfFuel, w'') => (OutOfFuel, w'')
        end
    end.

(** ** The back-end: [class TelegramBackend(ErrBot)] *)

(** What [serve_once] hands back to the host: [True], [False], or [None]
    when the function ends without a [return]. *)
Inductive retval : Type := RTrue | RFalse | RNone.

(** Python truth of a return value.  The host's [serve_forever] stops on a
    true value (a requested shutdown) and reconnects on a false one. *)
Definition truthy (r : retval) : bool :=
  match r with
  | RTrue => true
  | RFalse | RNone => false
  end.

(** The fixed key of the cursor in the host store. *)
Definition offset_key : string := "_telegram_updates_offset".

(** [TelegramPerson(id=u.id, first_name=u.first_name,
    last_name=u.last_name, username=u.username)]. *)
Definition person_of_user (u : User) : TelegramPerson :=
  mkTelegramPerson (user_id u) (user_first_name u) (user_last_name u)
                   (user_username u).

Section Backend.
Context {Env : Type} (ext : Externals Env) (ud : UnicodeData).

(** Reading [self.bot_identifier]. *)
Definition get_bot_identifier : M Env TelegramPerson :=
  fun w =>
    match bot_identifier w with
    | Some me => (Ret me, w)
    | None =>
        (Raise (AttributeError "'TelegramBackend' object has no attribute 'bot_identifier'"), w)
    end.

(** Reading the attribute [attribute] of [self.telegram], which is
    [None] until [serve_once] has built the client. *)
Definition get_telegram (attribute : string) : M Env string :=
  fun w =>
    match telegram w with
    | Some client => (Ret client, w)
    | None =>
        (Raise (AttributeError
                  ("'NoneType' object has no attribute '" +:+ attribute +:+ "'")),
         w)
    end.

(** [self.telegram = telegram.Bot(token=self.token)]. *)
Definition connect_client : M Env unit :=
  fun w =>
    (invoke (TelegramBot (token w)) (telegram_Bot ext (token w)) ;;
     fun w' =>
       (Ret tt, mkWorld (env w') (store w') (token w') (Some (token w'))
                        (bot_identifier w') (trace w'))) w.

(** [self.bot_identifier = TelegramPerson(id=me.id, ...)]. *)
Definition set_bot_identifier (me : User) : M Env unit :=
  fun w =>
    (Ret tt, mkWorld (env w) (store w) (token w) (telegram w)
                     (Some (person_of_user me)) (trace w)).

(** [mess.to.id]. *)
Definition to_id (mess : Message) : M Env Z :=
  match to mess with
  | Some recipient => ret (identifier_id recipient)
  | None => raise (AttributeError "'NoneType' object has no attribute 'id'")
  end.

(** [TelegramBackend._handle_message].  Its argument is what the
    [message] attribute of the update holds; on [None] the first line,
    [message.text], raises [AttributeError]. *)
Definition _handle_message (message : option TgMessage) : M Env unit :=
  match message with
  | None =>
      raise (AttributeError "'NoneType' object has no attribute 'text'")
  | Some message =>
      match msg_text message with
      | None =>
          log WARNING "Unhandled message type (not a text message) ignored" []
      | Some text =>
          message_instance <-
            invoke (BuildMessage text) (build_message ext text) ;;
          message_instance <-
            match msg_chat message with
            | ChatUser _ =>
                let message_instance :=
                  set_frm message_instance
                          (Person (person_of_user (msg_from_user message))) in
                me <- get_bot_identifier ;;
                ret (set_to message_instance (Person me))
            | ChatGroup g =>
                let room := mkTelegramRoom (chat_id g) (chat_title g) in
                let message_instance :=
                  set_frm message_instance
                          (MUCOccupant
                             (mkTelegramMUCOccupant
                                (person_of_user (msg_from_user message)) room)) in
                ret (set_to message_instance (Room room))
            end ;;
          invoke (CallbackMessage message_instance)
                 (callback_message ext message_instance)
      end
  end.

(** [TelegramBackend.send_message].  The log text is built with [%]
    before [log.exception] is called, so [mess.to.id] is read again in
    the handler. *)
Definition send_message (mess : Message) : M Env unit :=
  invoke (ErrBotSendMessage mess) (ErrBot_send_message ext mess) ;;
  body' <- invoke (MdConvert (body mess)) (md_converter_convert ext (body mess)) ;;
  try_except
    (get_telegram "sendMessage" ;;
     chat <- to_id mess ;;
     invoke (SendMessage chat body') (telegram_sendMessage ext chat body'))
    (fun e =>
       if is_Exception e then
         Some (chat <- to_id mess ;;
               log_exception
                 "An exception occurred while trying to send the following message to %s: %s"
                 [ArgInt chat; ArgStr (body mess)] e ;;
               raise e)
       else None).

(** [TelegramBackend.build_identifier]. *)
Definition build_identifier (txtrep : str) : M Env TelegramIdentifier :=
  log DEBUG "building an identifier from %s" [ArgText txtrep] ;;
  let id_ := py_strip ud txtrep in
  if negb (_is_numeric ud id_) then
    raise (ValueError "Telegram identifiers must be numeric")
  else
    match py_int ud id_ with
    | Some id_ =>
        if 0 <? id_ then ret (Person (mkTelegramPerson id_ None None None))
        else ret (Room (mkTelegramRoom id_ None))
    | None => raise (ValueError "invalid literal for int() with base 10")
    end.

(** *** Room operations: every body is [raise RoomsNotSupportedError()] *)

Definition TelegramRoom_join (self : TelegramRoom)
    (username password : option string) : M Env unit :=
  raise (RoomsNotSupportedError_init None).

Definition TelegramRoom_create (self : TelegramRoom) : M Env unit :=
  raise (RoomsNotSupportedError_init None).

Definition TelegramRoom_leave (self : TelegramRoom)
    (reason : option string) : M Env unit :=
  raise (RoomsNotSupportedError_init None).

Definition TelegramRoom_destroy (self : TelegramRoom) : M Env unit :=
  raise (RoomsNotSupportedError_init None).

Definition TelegramRoom_joined (self : TelegramRoom) : M Env unit :=
  raise (RoomsNotSupportedError_init None).

Definition TelegramRoom_exists (self : TelegramRoom) : M Env unit :=
  raise (RoomsNotSupportedError_init None).

Definition TelegramRoom_topic (self : TelegramRoom) : M Env unit :=
  raise (RoomsNotSupportedError_init None).

Definition TelegramRoom_occupants (self : TelegramRoom) : M Env unit :=
  raise (RoomsNotSupportedError_init None).

Definition TelegramRoom_invite (self : TelegramRoom)
    (args : list string) : M Env unit :=
  raise (RoomsNotSupportedError_init None).

Definition query_room (room : string) : M Env unit :=
  raise (RoomsNotSupportedError_init None).

Definition rooms : M Env unit :=
  raise (RoomsNotSupportedError_init None).

(** The calls the host can make on a room or on the room directory,
    with their arguments. *)
Inductive room_operation : Type :=
| OpJoin (self : TelegramRoom) (username password : option string)
| OpCreate (self : TelegramRoom)
| OpLeave (self : TelegramRoom) (reason : option string)
| OpDestroy (self : TelegramRoom)
| OpJoined (self : TelegramRoom)
| OpExists (self : TelegramRoom)
| OpTopic (self : TelegramRoom)
| OpOccupants (self : TelegramRoom)
| OpInvite (self : TelegramRoom) (args : list string)
| OpQueryRoom (room : string)
| OpRooms.

Definition perform (op : room_operation) : M Env unit :=
  match op with
  | OpJoin self username password => TelegramRoom_join self username password
  | OpCreate self => TelegramRoom_create self
  | OpLeave self reason => TelegramRoom_leave self reason
  | OpDestroy self => TelegramRoom_destroy self
  | OpJoined self => TelegramRoom_joined self
  | OpExists self => TelegramRoom_exists self
  | OpTopic self => TelegramRoom_topic self
  | OpOccupants self => TelegramRoom_occupants self
  | OpInvite self args => TelegramRoom_invite self args
  | OpQueryRoom room => query_room room
  | OpRooms => rooms
  end.

(** *** The polling loop *)

(** The body of [for update in self.telegram.getUpdates(...)], over the
    batch that was fetched; it returns the last value of the local
    variable [offset]. *)
Fixpoint for_updates (updates : list Update) (offset : Z) : M Env Z :=
  match updates with
  | [] => ret offset
  | update :: rest =>
      let offset := update_id update + 1 in
      setitem offset_key offset ;;
      log DEBUG "Processing update: %s" [ArgUpdate update] ;;
      match update_message update with
      | None =>
          log WARNING "Unknown update type (no message present)" [] ;;
          for_updates rest offset
      | Some message =>
          try_except (_handle_message message)
            (fun e =>
               if is_Exception e then
                 Some (log_exception
                         "An exception occurred while processing update" [] e)
               else None) ;;
          for_updates rest offset
      end
  end.

(** [while True: ...]: one unit of fuel per iteration.  The loop has no
    [break]; it ends only by an exception. *)
Fixpoint poll (fuel : nat) (offset : Z) : M Env unit :=
  match fuel with
  | O => out_of_fuel
  | S fuel =>
      log DEBUG "Getting updates with offset %s" [ArgInt offset] ;;
      get_telegram "getUpdates" ;;
      updates <- invoke (GetUpdates offset 60)
                        (telegram_getUpdates ext offset 60) ;;
      offset <- for_updates updates offset ;;
      log DEBUG "All updates processed, new offset is %s" [ArgInt offset] ;;
      poll fuel offset
  end.

(** Lines 218 to 240: the [try] statement around the loop and the end of
    the function.  Inside the statement [Some v] is a [return v] that was
    executed and [None] is falling out of it, after which the function
    ends and Python returns [None]. *)
Definition polling (fuel : nat) (offset : Z) : M Env retval :=
  returned <-
    try_finally
      (try_except
         (poll fuel offset ;; ret None)
         (fun e =>
            match e with
            | KeyboardInterrupt =>
                Some (log INFO "Interrupt received, shutting down.." [] ;;
                      ret (Some RTrue))
            | _ =>
                Some (log_exception
                        "Error reading from Telegram updates stream:" [] e ;;
                      ret None)
            end))
      (log DEBUG "Triggering disconnect callback" [] ;;
       invoke DisconnectCallback (disconnect_callback ext)) ;;
  match returned with
  | Some v => ret v
  | None => ret RNone
  end.

(** [TelegramBackend.serve_once]. *)
Definition serve_once (fuel : nat) : M Env retval :=
  log INFO "Initializing connection" [] ;;
  connected <-
    try_except
      (connect_client ;;
       me <- invoke GetMe (telegram_getMe ext) ;;
       ret (Some me))
      (fun e =>
         match e with
         | TelegramError message =>
             Some (log ERROR "Connection failure: %s" [ArgStr message] ;;
                   ret None)
         | _ => None
         end) ;;
  match connected with
  | None => ret RFalse
  | Some me =>
      set_bot_identifier me ;;
      log INFO "Connected" [] ;;
      invoke ResetReconnectionCount (reset_reconnection_count ext) ;;
      invoke ConnectCallback (connect_callback ext) ;;
      offset <-
        try_except (getitem offset_key)
          (fun e =>
             match e with
             | KeyError _ => Some (ret 0)
             | _ => None
             end) ;;
      polling fuel offset
  end.
End Backend.

(** ** Vocabulary of the properties *)

(** *** Numeric texts *)

Inductive sign : Type := NoSign | Plus | Minus.

Definition sign_text (sg : sign) : str :=
  match sg with
  | NoSign => []
  | Plus => [43]
  | Minus => [45]
  end.

Definition signed (sg : sign) (n : Z) : Z :=
  match sg with
  | Minus => - n
  | NoSign | Plus => n
  end.

(** The character of the decimal digit [d]. *)
Definition digit_char (d : nat) : Z := 48 + Z.of_nat d.

Definition digits_text (ds : list nat) : str := map digit_char ds.

(** The number a list of decimal digits denotes, most significant first. *)
Fixpoint decimal_value (ds : list nat) : Z :=
  match ds with
  | [] => 0
  | d :: ds => Z.of_nat d * 10 ^ Z.of_nat (length ds) + decimal_value ds
  end.

Section NumericTexts.
Context (ud : UnicodeData).

Definition all_space (s : str) : bool := forallb (py_isspace ud) s.

(** A blank: one of the characters 9 to 13 and 28 to 32, or a character
    from 128 on that the database lists as whitespace. *)
Definition blank (c : Z) : Prop :=
  9 <= c <= 13 \/ 28 <= c <= 32
  \/ (128 <= c /\ existsb (Z.eqb c) (whitespace ud) = true).

(** [c] is a decimal digit of value [d]: one of "0" to "9", or a
    character from 128 on that is [d] above the zero of a script.  (A
    character that the database would list as whitespace too, which no
    version does, is a blank and not a digit, as for the interpreter.) *)
Definition decimal_digit (c d : Z) : Prop :=
  (48 <= c <= 57 /\ d = c - 48)
  \/ (128 <= c /\ existsb (Z.eqb c) (whitespace ud) = false
      /\ exists zero,
           List.find (fun zero => (zero <=? c) && (c <=? zero + 9))
                     (digit_zeros ud) = Some zero
           /\ d = c - zero).

(** [Digits s n]: [s] is one or more decimal digits, with at most one
    underscore between two of them, and read in base ten they denote
    [n]. *)
Inductive Digits : str -> Z -> Prop :=
| digits_first (c d : Z) :
    decimal_digit c d -> Digits [c] d
| digits_next (s : str) (n c d : Z) :
    Digits s n -> decimal_digit c d -> Digits (s ++ [c]) (10 * n + d)
| digits_group (s : str) (n c d : Z) :
    Digits s n -> decimal_digit c d -> Digits (s ++ [95; c]) (10 * n + d).

(** [IntegerText s n]: [s] is blanks, an optional sign, digits, blanks,
    and the signed digits denote [n]. *)
Inductive IntegerText : str -> Z -> Prop :=
| integer_text (before : str) (sg : sign) (s : str) (n : Z) (after : str) :
    Forall blank before ->
    Forall blank after ->
    Digits s n ->
    IntegerText (before ++ sign_text sg ++ s ++ after) (signed sg n).

(** [NumericText s]: [s] is blanks, an optional sign, one or more
    decimal digits and nothing else, blanks. *)
Inductive NumericText : str -> Prop :=
| numeric_text (before : str) (sg : sign) (ds : str) (after : str) :
    Forall blank before ->
    Forall blank after ->
    ds <> [] ->
    Forall (fun c => exists d, decimal_digit c d) ds ->
    NumericText (before ++ sign_text sg ++ ds ++ after).
End NumericTexts.

(** The identity a numeric id stands for: a person when positive, a room
    otherwise; no other attribute is known. *)
Definition identity_of_id (n : Z) : TelegramIdentifier :=
  if 0 <? n then Person (mkTelegramPerson n None None None)
  else Room (mkTelegramRoom n None).

(** *** Worlds and traces *)

(** [w] with [evs] appended to its trace. *)
Definition logged {Env} (w : World Env) (evs : list event) : World Env :=
  mkWorld (env w) (store w) (token w) (telegram w) (bot_identifier w)
          (trace w ++ evs).

(** [w] after a collaborator moved its state to [e]. *)
Definition with_env {Env} (w : World Env) (e : Env) : World Env :=
  mkWorld e (store w) (token w) (telegram w) (bot_identifier w) (trace w).

(** [w] after [self[key] = value]. *)
Definition stored {Env} (w : World Env) (key : string) (value : Z)
  : World Env :=
  mkWorld (env w) (<[key := value]> (store w)) (token w) (telegram w)
          (bot_identifier w) (trace w).

(** [grows P m]: whatever [m] does, it only appends to the trace, and
    every event it appends satisfies [P]. *)
Definition grows {Env A} (P : event -> Prop) (m : M Env A) : Prop :=
  forall w r w',
    m w = (r, w') -> exists evs, trace w' = trace w ++ evs /\ Forall P evs.

(** The report [serve_once] gives for the exception that ended the loop:
    [True] for an interrupt, [None] for anything else. *)
Definition exit_report (x : exn) : retval :=
  match x with
  | KeyboardInterrupt => RTrue
  | _ => RNone
  end.

(** The record [serve_once] logs for the exception that ended the loop. *)
Definition exit_log (x : exn) : event :=
  match x with
  | KeyboardInterrupt => Log INFO "Interrupt received, shutting down.." []
  | _ => LogException "Error reading from Telegram updates stream:" [] x
  end.

(** An event other than the disconnect notification. *)
Definition quiet (ev : event) : Prop :=
  match ev with
  | DisconnectCallback => False
  | _ => True
  end.

Definition is_disconnect (ev : event) : bool :=
  match ev with
  | DisconnectCallback => true
  | _ => false
  end.

(** How many times the disconnect notification was invoked in a trace. *)
Definition disconnects (evs : list event) : nat :=
  length (List.filter is_disconnect evs).

(** The events of the loop's protocol with the host: the writes of the
    cursor, and the normalizer asking the host for a draft and handing it
    the message. *)
Definition protocol_event (ev : event) : bool :=
  match ev with
  | SetItem _ _ | BuildMessage _ | CallbackMessage _ => true
  | _ => false
  end.

(** The text of an update, when it carries one. *)
Definition usable_text (u : Update) : option string :=
  match update_message u with
  | Some (Some message) => msg_text message
  | _ => None
  end.

(** The warning the module logs for an update without a [message]
    attribute, and for one whose message has no text. *)
Definition discard_warning (u : Update) : string :=
  match update_message u with
  | None => "Unknown update type (no message present)"
  | Some _ => "Unhandled message type (not a text message) ignored"
  end.

(** The sender of a provider message, from the fields of the user who
    wrote it: that person in a direct chat, and in a group chat the
    occupant made of that person and of the room with the chat's id and
    title. *)
Definition sender_of (message : TgMessage) : TelegramIdentifier :=
  let user := msg_from_user message in
  let person :=
    mkTelegramPerson (user_id user) (user_first_name user)
                     (user_last_name user) (user_username user) in
  match msg_chat message with
  | ChatUser _ => Person person
  | ChatGroup g =>
      MUCOccupant
        (mkTelegramMUCOccupant person
           (mkTelegramRoom (chat_id g) (chat_title g)))
  end.

(** The recipient of a provider message: in a direct chat the bot, whose
    identity [me] is known once the connection is made, and in a group
    chat the room with the chat's id and title. *)
Definition addressee (message : TgMessage) (me : option TelegramPerson)
  : option TelegramIdentifier :=
  match msg_chat message with
  | ChatUser _ =>
      match me with
      | Some me => Some (Person me)
      | None => None
      end
  | ChatGroup g => Some (Room (mkTelegramRoom (chat_id g) (chat_title g)))
  end.

(** Whether the loop over a batch goes on to the next update after the
    normalizer ended with [r]: it does unless what was raised is not an
    [Exception]. *)
Definition goes_on (r : outcome unit) : bool :=
  match r with
  | Ret _ => true
  | Raise x => is_Exception x
  | OutOfFuel => false
  end.

Definition returned {A} (r : outcome A) : bool :=
  match r with
  | Ret _ => true
  | _ => false
  end.

(** The cursor after a batch: one more than the sequence id of its last
    update, unchanged when the batch is empty. *)
Definition cursor_after (updates : list Update) (offset : Z) : Z :=
  match last updates with
  | Some u => update_id u + 1
  | None => offset
  end.

Section Protocol.
Context {Env : Type} (ext : Externals Env) (me : option TelegramPerson).

(** [handled e u evs e' r]: what becomes of the update [u] once its cursor
    is written, the collaborators being in state [e] and the bot's
    identity being [me]: [evs] are the calls to the host, in order, [e']
    is the state they leave the collaborators in, and [r] is how the
    normalizer ends.  An update without a usable text reaches the host
    in no way.  For a text the host is asked for a draft; if it gives
    one, and the recipient is known, the host callback is handed the
    message made of the draft's body, the sender and the recipient, and
    its outcome is the normalizer's. *)
Inductive handled (e : Env) (u : Update)
  : list event -> Env -> outcome unit -> Prop :=
| handled_no_attribute :
    update_message u = None ->
    handled e u [] e (Ret tt)
| handled_no_message :
    update_message u = Some None ->
    handled e u [] e
      (Raise (AttributeError "'NoneType' object has no attribute 'text'"))
| handled_no_text (message : TgMessage) :
    update_message u = Some (Some message) ->
    msg_text message = None ->
    handled e u [] e (Ret tt)
| handled_no_draft (message : TgMessage) (text : string) (x : exn) (e1 : Env) :
    update_message u = Some (Some message) ->
    msg_text message = Some text ->
    build_message ext text e = (Err x, e1) ->
    handled e u [BuildMessage text] e1 (Raise x)
| handled_no_identity (message : TgMessage) (text : string) (draft : Message)
    (e1 : Env) :
    update_message u = Some (Some message) ->
    msg_text message = Some text ->
    build_message ext text e = (Ok draft, e1) ->
    addressee message me = None ->
    handled e u [BuildMessage text] e1
      (Raise (AttributeError "'TelegramBackend' object has no attribute 'bot_identifier'"))
| handled_dispatch (message : TgMessage) (text : string) (draft : Message)
    (e1 : Env) (recipient : TelegramIdentifier) (m : Message)
    (r : result unit) (e2 : Env) :
    update_message u = Some (Some message) ->
    msg_text message = Some text ->
    build_message ext text e = (Ok draft, e1) ->
    addressee message me = Some recipient ->
    m = mkMessage (body draft) (Some (sender_of message)) (Some recipient) ->
    callback_message ext m e1 = (r, e2) ->
    handled e u [BuildMessage text; CallbackMessage m] e2
      (match r with
       | Ok _ => Ret tt
       | Err x => Raise x
       end).

(** [ordered e updates evs complete]: [evs] is the protocol of a batch
    with the host, the collaborators being in state [e] when it starts.
    Update by update in arrival order, the cursor [update_id + 1] is
    written under the fixed key, and only then is the update handled.
    [complete] tells whether every update was gone through, or the batch
    was abandoned at an update whose handling raised something that is
    not an [Exception]. *)
Inductive ordered : Env -> list Update -> list event -> bool -> Prop :=
| ordered_done (e : Env) : ordered e [] [] true
| ordered_next (e : Env) (u : Update) (rest : list Update)
    (evs : list event) (e1 : Env) (r : outcome unit) (tail : list event)
    (complete : bool) :
    handled e u evs e1 r ->
    goes_on r = true ->
    ordered e1 rest tail complete ->
    ordered e (u :: rest)
            (SetItem offset_key (update_id u + 1) :: evs ++ tail) complete
| ordered_cut (e : Env) (u : Update) (rest : list Update)
    (evs : list event) (e1 : Env) (r : outcome unit) :
    handled e u evs e1 r ->
    goes_on r = false ->
    ordered e (u :: rest) (SetItem offset_key (update_id u + 1) :: evs) false.
End Protocol.

(** ** A scripted provider and host, to run the module on *)

Module Demo.
(** The replies the provider will give to the successive fetches; once
    they are used up the operator interrupts the process. *)
Definition script : Type := list (result (list Update)).

(** An excerpt of the Unicode database: its whitespace from 128 on, and
    the zeros of the Arabic-Indic, Extended Arabic-Indic, Devanagari,
    Bengali, Thai and Fullwidth digits. *)
Definition unicode : UnicodeData :=
  {| whitespace := [133; 160; 5760; 8192; 8193; 8194; 8195; 8196; 8197; 8198;
                    8199; 8200; 8201; 8202; 8232; 8233; 8239; 8287; 12288];
     digit_zeros := [1632; 1776; 2406; 2534; 3664; 65296] |}.

Definition bot : User := mkUser 1 (Some "Err") (Some "Bot") (Some "errbot").
Definition alice : User := mkUser 7 (Some "Alice") None (Some "alice").
Definition team : GroupChat := mkGroupChat (-100) (Some "team").

Definition externals : Externals script :=
  {| telegram_Bot := fun _ e => (Ok tt, e);
     telegram_getMe := fun e => (Ok bot, e);
     telegram_getUpdates := fun _ _ e =>
       match e with
       | [] => (Err KeyboardInterrupt, e)
       | reply :: e' => (reply, e')
       end;
     telegram_sendMessage := fun chat _ e =>
       if chat =? 0 then (Err (TelegramError "chat not found"), e)
       else (Ok tt, e);
     build_message := fun text e => (Ok (mkMessage text None None), e);
     callback_message := fun m e =>
       if String.eqb (body m) "boom" then (Err (OtherException "RuntimeError"), e)
       else (Ok tt, e);
     connect_callback := fun e => (Ok tt, e);
     disconnect_callback := fun e => (Ok tt, e);
     reset_reconnection_count := fun e => (Ok tt, e);
     ErrBot_send_message := fun _ e => (Ok tt, e);
     md_converter_convert := fun text e => (Ok text, e) |}.

Definition world (sc : script) : World script :=
  mkWorld sc ∅ "TOKEN" (Some "TOKEN") (Some (person_of_user bot)) [].

(** The back-end before [serve_once] has run. *)
Definition fresh (sc : script) : World script :=
  mkWorld sc ∅ "TOKEN" None None [].

(** A batch with the sequence ids 5, 6, 9: a direct text, an update
    without a message, and a group text whose dispatch fails. *)
Definition batch : list Update :=
  [ mkUpdate 5 (Some (Some (mkTgMessage (Some "hello") (ChatUser alice) alice)));
    mkUpdate 6 None;
    mkUpdate 9 (Some (Some (mkTgMessage (Some "boom") (ChatGroup team) alice))) ].
End Demo.

(** ** The rest of the module *)

(** *** Python built-ins, continued *)

(** The decimal digits of [n], most significant first, pushed on [acc];
    [fuel] bounds the number of digits. *)
Fixpoint decimal_digits_from (fuel : nat) (n : Z) (acc : list nat) : list nat :=
  match fuel with
  | O => acc
  | S fuel =>
      let acc := Z.to_nat (n mod 10) :: acc in
      if n <? 10 then acc else decimal_digits_from fuel (n / 10) acc
  end.

(** The decimal digits of a natural number: a number has at most one more
    digit than its binary logarithm. *)
Definition decimal_digits (n : Z) : list nat :=
  decimal_digits_from (S (Z.to_nat (Z.log2 n))) n [].

(** [str(z)] for an [int]. *)
Definition py_str_int (z : Z) : str :=
  if z <? 0 then 45 :: digits_text (decimal_digits (- z))
  else digits_text (decimal_digits z).

(** What [format] and [str] make of a value that is a [str] or [None]. *)
Definition py_str_opt (x : option string) : string :=
  match x with
  | Some s => s
  | None => "None"
  end.

(** Python truth of a value that is an [int] or [None]. *)
Definition py_truth (v : option Z) : bool :=
  match v with
  | Some z => negb (z =? 0)
  | None => false
  end.

(** *** The remaining methods *)

(** [TelegramIdentifier.__unicode__], which is also [__str__]:
    [str(self._id)]. *)
Definition TelegramIdentifier_str (self : TelegramIdentifier) : str :=
  py_str_int (identifier_id self).

(** [TelegramPerson.nick], an alias of [username]. *)
Definition nick (self : TelegramPerson) : option string := username self.

(** [TelegramBotFilter.filter], on the text [record.getMessage()] gives:
    [0] for the one message, and no [return] (so [None]) otherwise. *)
Definition TelegramBotFilter_filter (message : string) : option Z :=
  if String.eqb message "No new updates found." then Some 0 else None.

(** A call to a collaborator that the trace does not record. *)
Definition call {Env A} (f : Env -> result A * Env) : M Env A :=
  fun w =>
    match f (env w) with
    | (Ok a, e') =>
        (Ret a, mkWorld e' (store w) (token w) (telegram w)
                        (bot_identifier w) (trace w))
    | (Err x, e') =>
        (Raise x, mkWorld e' (store w) (token w) (telegram w)
                          (bot_identifier w) (trace w))
    end.

Section Replies.
Context {Env : Type} (ext : Externals Env).

(** [mess.is_direct], a property of the host's message class. *)
Variable is_direct : Message -> bool.

(** [ErrBot.prefix_groupchat_reply], which may rewrite the message it is
    given; it returns the message as it left it. *)
Variable ErrBot_prefix_groupchat_reply :
  Message -> TelegramPerson -> Env -> result Message * Env.

(** [TelegramBackend.build_reply], for a caller that gives the text. *)
Definition build_reply (mess : Message) (text : string) (private : bool)
  : M Env Message :=
  response <- invoke (BuildMessage text) (build_message ext text) ;;
  me <- get_bot_identifier ;;
  let response := set_frm response (Person me) in
  let recipient :=
    if private then frm mess
    else if is_direct mess then frm mess else to mess in
  ret {| body := body response; frm := frm response; to := recipient |}.

(** [TelegramBackend.prefix_groupchat_reply], for an identifier that is a
    person or an occupant (the classes that have [nick]); it returns the
    message after the assignment to [message.body]. *)
Definition prefix_groupchat_reply (message : Message)
    (identifier : TelegramPerson) : M Env Message :=
  message <- call (ErrBot_prefix_groupchat_reply message identifier) ;;
  ret {| body := "@" +:+ py_str_opt (nick identifier) +:+ ": " +:+ body message;
         frm := frm message;
         to := to message |}.

End Replies.

(** *** More vocabulary *)

(** [transition R m]: every run of [m] takes a world to one related to it
    by [R]. *)
Definition transition {Env A} (R : World Env -> World Env -> Prop)
    (m : M Env A) : Prop :=
  forall w r w', m w = (r, w') -> R w w'.

(** Nothing of the back-end object or of the store changed. *)
Definition same_self {Env} (w w' : World Env) : Prop :=
  store w' = store w /\ token w' = token w /\ telegram w' = telegram w
  /\ bot_identifier w' = bot_identifier w.

(** No key of the store other than the cursor's changed, and the token
    is the same. *)
Definition cursor_frame {Env} (w w' : World Env) : Prop :=
  (forall key, key <> offset_key -> store w' !! key = store w !! key)
  /\ token w' = token w.

(** The events of the polling loop: records, cursor writes, fetches, and
    the normalizer's calls to the host. *)
Definition loop_event (ev : event) : Prop :=
  match ev with
  | Log _ _ _ | LogException _ _ _ | BuildMessage _ | CallbackMessage _ => True
  | SetItem key _ => key = offset_key
  | GetUpdates _ timeout => timeout = 60
  | _ => False
  end.

(** The events of the connection phase. *)
Definition startup_event (ev : event) : Prop :=
  match ev with
  | Log _ _ _ | TelegramBot _ | GetMe | ResetReconnectionCount => True
  | _ => False
  end.

Definition is_connect (ev : event) : bool :=
  match ev with
  | ConnectCallback => true
  | _ => false
  end.

(** How many times the connect notification was invoked in a trace. *)
Definition connects (evs : list event) : nat :=
  length (List.filter is_connect evs).

Definition is_send (ev : event) : bool :=
  match ev with
  | SendMessage _ _ => true
  | _ => false
  end.

(** How many transmissions a trace holds. *)
Definition sends (evs : list event) : nat :=
  length (List.filter is_send evs).

Definition is_fetch (ev : event) : bool :=
  match ev with
  | GetUpdates _ _ => true
  | _ => false
  end.

(** [w] after [self.telegram] was assigned the client built with the
    token. *)
Definition with_client {Env} (w : World Env) : World Env :=
  mkWorld (env w) (store w) (token w) (Some (token w)) (bot_identifier w)
          (trace w).

(** [w] after [self.bot_identifier] was assigned. *)
Definition with_identity {Env} (w : World Env) (me : TelegramPerson)
  : World Env :=
  mkWorld (env w) (store w) (token w) (telegram w) (Some me) (trace w).

(** The offset [serve_once] starts from: the stored cursor, or 0 when the
    store has none. *)
Definition start_offset {Env} (w : World Env) : Z :=
  match store w !! offset_key with
  | Some offset => offset
  | None => 0
  end.

(** [isinstance(e, telegram.TelegramError)]. *)
Definition is_TelegramError (e : exn) : bool :=
  match e with
  | TelegramError _ => true
  | _ => false
  end.

(** How the host's message class tells a direct message: its recipient is
    a person. *)
Definition recipient_is_person (m : Message) : bool :=
  match to m with
  | Some (Person _) | Some (MUCOccupant _) => true
  | _ => false
  end.

(** How [serve_once] ends when building the client or asking who the bot
    is raised [x] in world [w]: a [TelegramError] is logged and reported
    as [False], anything else goes through. *)
Definition connection_failed {Env} (x : exn) (w : World Env)
  : outcome retval * World Env :=
  match x with
  | TelegramError message =>
      (Ret RFalse, logged w [Log ERROR "Connection failure: %s" [ArgStr message]])
  | _ => (Raise x, w)
  end.

(** A host like [Demo]'s whose message callback is interrupted by the
    operator on the text "stop". *)
Module Stopping.
Definition externals : Externals Demo.script :=
  {| telegram_Bot := telegram_Bot Demo.externals;
     telegram_getMe := telegram_getMe Demo.externals;
     telegram_getUpdates := telegram_getUpdates Demo.externals;
     telegram_sendMessage := telegram_sendMessage Demo.externals;
     build_message := build_message Demo.externals;
     callback_message := fun m e =>
       if String.eqb (body m) "stop" then (Err KeyboardInterrupt, e)
       else (Ok tt, e);
     connect_callback := connect_callback Demo.externals;
     disconnect_callback := disconnect_callback Demo.externals;
     reset_reconnection_count := reset_reconnection_count Demo.externals;
     ErrBot_send_message := ErrBot_send_message Demo.externals;
     md_converter_convert := md_converter_convert Demo.externals |}.

(** Updates 3, 4, 5; the operator interrupts the dispatch of the second. *)
Definition batch : list Update :=
  [ mkUpdate 3 (Some (Some (mkTgMessage (Some "one") (ChatUser Demo.alice) Demo.alice)));
    mkUpdate 4 (Some (Some (mkTgMessage (Some "stop") (ChatUser Demo.alice) Demo.alice)));
    mkUpdate 5 (Some (Some (mkTgMessage (Some "three") (ChatUser Demo.alice) Demo.alice))) ].
End Stopping.

(** A provider that refuses the token. *)
Module Refusing.
Definition externals : Externals Demo.script :=
  {| telegram_Bot := fun _ e => (Err (TelegramError "Unauthorized"), e);
     telegram_getMe := telegram_getMe Demo.externals;
     telegram_getUpdates := telegram_getUpdates Demo.externals;
     telegram_sendMessage := telegram_sendMessage Demo.externals;
     build_message := build_message Demo.externals;
     callback_message := callback_message Demo.externals;
     connect_callback := connect_callback Demo.externals;
     disconnect_callback := disconnect_callback Demo.externals;
     reset_reconnection_count := reset_reconnection_count Demo.externals;
     ErrBot_send_message := ErrBot_send_message Demo.externals;
     md_converter_convert := md_converter_convert Demo.externals |}.
End Refusing.

(** The recipient the normalizer sets for a provider message, [me] being
    the bot's identity. *)
Definition recipient_of (message : TgMessage) (me : TelegramPerson)
  : TelegramIdentifier :=
  match msg_chat message with
  | ChatUser _ => Person me
  | ChatGroup g => Room (mkTelegramRoom (chat_id g) (chat_title g))
  end.

(** The format of the record [send_message] logs on failure. *)
Definition send_failure_format : string :=
  "An exception occurred while trying to send the following message to %s: %s".

(** A provider that cannot be reached: building the client fails with an
    error of the network layer, not a [TelegramError]. *)
Module Offline.
Definition externals : Externals Demo.script :=
  {| telegram_Bot := fun _ e => (Err (OtherException "ConnectionError"), e);
     telegram_getMe := telegram_getMe Demo.externals;
     telegram_getUpdates := telegram_getUpdates Demo.externals;
     telegram_sendMessage := telegram_sendMessage Demo.externals;
     build_message := build_message Demo.externals;
     callback_message := callback_message Demo.externals;
     connect_callback := connect_callback Demo.externals;
     disconnect_callback := disconnect_callback Demo.externals;
     reset_reconnection_count := reset_reconnection_count Demo.externals;
     ErrBot_send_message := ErrBot_send_message Demo.externals;
     md_converter_convert := md_converter_convert Demo.externals |}.
End Offline.

(** A provider that has nothing to deliver: every fetch answers with an
    empty batch. *)
Module Idle.
Definition externals : Externals Demo.script :=
  {| telegram_Bot := telegram_Bot Demo.externals;
     telegram_getMe := telegram_getMe Demo.externals;
     telegram_getUpdates := fun _ _ e => (Ok [], e);
     telegram_sendMessage := telegram_sendMessage Demo.externals;
     build_message := build_message Demo.externals;
     callback_message := callback_message Demo.externals;
     connect_callback := connect_callback Demo.externals;
     disconnect_callback := disconnect_callback Demo.externals;
     reset_reconnection_count := reset_reconnection_count Demo.externals;
     ErrBot_send_message := ErrBot_send_message Demo.externals;
     md_converter_convert := md_converter_convert Demo.externals |}.
End Idle.


(** * Properties *)

(** ** Identity model *)

(** C9. Take any identity object made with the id [i]: a person, a room
    or an occupant, with any first name, last name, user name, title and
    room; and any identity object made with the id [j] in the same way.
    The first [==] the second exactly when [i = j], whatever the classes
    of the two and whatever their other attributes. *)
Theorem identity_equality_is_by_id (i j : Z)
    (first last nick title first' last' nick' title' : option string)
    (room room' : TelegramRoom) :
  let made_with_i :=
    [ Person (mkTelegramPerson i first last nick);
      Room (mkTelegramRoom i title);
      MUCOccupant
        (mkTelegramMUCOccupant (mkTelegramPerson i first last nick) room) ] in
  let made_with_j :=
    [ Person (mkTelegramPerson j first' last' nick');
      Room (mkTelegramRoom j title');
      MUCOccupant
        (mkTelegramMUCOccupant (mkTelegramPerson j first' last' nick') room') ] in
  Forall (fun a =>
            Forall (fun b => TelegramIdentifier_eq a b = true <-> i = j)
                   made_with_j)
         made_with_i.
Proof.
  repeat constructor; unfold TelegramIdentifier_eq; cbn [identifier_id person_id room_id occupant_person];
    try (apply Z.eqb_eq); try (intros ->; apply Z.eqb_refl).
Qed.

Example person_equals_room_with_same_id :
  TelegramIdentifier_eq
    (Person (mkTelegramPerson 5 (Some "Ann") (Some "Lee") (Some "ann")))
    (Room (mkTelegramRoom 5 (Some "five"))) = true.
Proof. reflexivity. Qed.

Example same_names_other_id :
  TelegramIdentifier_eq
    (Person (mkTelegramPerson 5 (Some "Ann") None None))
    (Person (mkTelegramPerson 6 (Some "Ann") None None)) = false.
Proof. reflexivity. Qed.

(** C10. [fullname] is the first name when there is no last name, the
    first name, a space and the last name when both are present, and a
    [TypeError] when there is a last name (even an empty one) but no
    first name. *)
Theorem fullname_cases (i : Z) (first last : string) (nick first' : option string) :
  fullname (mkTelegramPerson i first' None nick) = Ok first'
  /\ fullname (mkTelegramPerson i (Some first) (Some last) nick)
     = Ok (Some (first +:+ " " +:+ last))
  /\ exists message,
       fullname (mkTelegramPerson i None (Some last) nick)
       = Err (TypeError message).
Proof.
  repeat split. eexists. reflexivity.
Qed.

Example fullname_of_ada :
  fullname (mkTelegramPerson 3 (Some "Ada") (Some "Lovelace") None)
  = Ok (Some "Ada Lovelace").
Proof. reflexivity. Qed.

(** ** Capability stubs *)

(** C6. Every room operation raises [RoomsNotSupportedError] with the
    explanatory message, whatever its arguments and whatever the state,
    and leaves the world as it found it. *)
Theorem room_operations_unsupported {Env : Type} (op : room_operation)
    (w : World Env) :
  perform op w
  = (Raise (RoomsNotSupportedError
              "Room operations are not supported on Telegram. While Telegram itself has groupchat functionality, it does not expose any APIs to bots to get group membership or otherwise interact with groupchats."),
     w).
Proof.
  destruct op; reflexivity.
Qed.

(** ** Identifier parsing *)

Section Characters.
Context (ud : UnicodeData).

(** *** Characters *)

Lemma blank_isspace (c : Z) : blank ud c <-> py_isspace ud c = true.
Proof.
  unfold blank, py_isspace, unicode_isspace.
  destruct (Z.ltb_spec c 128) as [Hlt | Hge].
  - rewrite orb_true_iff, !andb_true_iff, !Z.leb_le.
    split; [intros [H | [H | [H _]]] | intros [H | H]]; lia.
  - split.
    + intros [H | [H | [_ H]]]; [lia | lia | exact H].
    + intros H. right. right. now split.
Qed.

Lemma all_space_blank (s : str) :
  all_space ud s = true <-> Forall (blank ud) s.
Proof.
  unfold all_space. rewrite forallb_forall, List.Forall_forall.
  split; intros H c Hc; apply blank_isspace, H, Hc.
Qed.

Lemma todecimal_range (c d : Z) :
  unicode_todecimal ud c = Some d -> 0 <= d <= 9.
Proof.
  unfold unicode_todecimal.
  destruct (List.find _ (digit_zeros ud)) as [zero|] eqn:E; [| discriminate].
  intros [= <-]. apply List.find_some in E as [_ E].
  apply andb_true_iff in E as [H1 H2]. apply Z.leb_le in H1, H2. lia.
Qed.

Lemma ascii_digit_range (a d : Z) :
  ascii_digit a = Some d <-> 48 <= a <= 57 /\ d = a - 48.
Proof.
  unfold ascii_digit.
  destruct (Z.leb_spec 48 a) as [Hlo | Hlo], (Z.leb_spec a 57) as [Hhi | Hhi];
    cbn [andb]; (split; [intros [= <-] | intros [Hr ->]]);
    try reflexivity; lia.
Qed.

(** What [int] reads for a decimal digit is the ASCII digit of its value,
    and a decimal digit is not whitespace. *)
Lemma decimal_digit_ascii (c d : Z) :
  decimal_digit ud c d ->
  ascii_digit (int_ascii ud c) = Some d /\ py_isspace ud c = false.
Proof.
  unfold decimal_digit, int_ascii, py_isspace, py_todecimal, unicode_isspace,
    unicode_todecimal.
  intros [[Hc ->] | (Hc & Hsp & zero & Hz & ->)].
  - destruct (Z.ltb_spec c 127); [| lia]. destruct (Z.ltb_spec c 128); [| lia].
    split; [apply ascii_digit_range; lia |].
    apply orb_false_iff. rewrite !andb_false_iff, !Z.leb_gt. lia.
  - destruct (Z.ltb_spec c 127); [lia |]. destruct (Z.ltb_spec c 128); [lia |].
    rewrite Hsp, Hz. split; [| reflexivity].
    apply List.find_some in Hz as [_ Hz].
    apply andb_true_iff in Hz as [H1 H2]. apply Z.leb_le in H1, H2.
    apply ascii_digit_range. lia.
Qed.

(** Conversely, [int] reads an ASCII digit only for a decimal digit. *)
Lemma ascii_digit_decimal (c d : Z) :
  ascii_digit (int_ascii ud c) = Some d -> decimal_digit ud c d.
Proof.
  unfold decimal_digit, int_ascii, py_isspace, py_todecimal.
  destruct (Z.ltb_spec c 127) as [Hlt | Hge].
  { intros H. apply ascii_digit_range in H. now left. }
  destruct (Z.ltb_spec c 128) as [Hlt | Hge'].
  { assert (c = 127) as -> by lia. discriminate. }
  destruct (unicode_isspace ud c) eqn:Hsp; [discriminate |].
  destruct (unicode_todecimal ud c) as [d'|] eqn:Hd; [| discriminate].
  pose proof (todecimal_range _ _ Hd) as Hr.
  intros H. apply ascii_digit_range in H as [_ ->].
  right. split; [exact Hge' |]. split; [exact Hsp |].
  unfold unicode_todecimal in Hd.
  destruct (List.find _ (digit_zeros ud)) as [zero|]; [| discriminate].
  injection Hd as <-. exists zero. split; [reflexivity | lia].
Qed.

(** A sign or an underscore is read for itself only. *)
Lemma int_ascii_mark (c k : Z) :
  k = 43 \/ k = 45 \/ k = 95 -> int_ascii ud c = k -> c = k.
Proof.
  unfold int_ascii. intros Hk.
  destruct (Z.ltb_spec c 127); [easy |].
  destruct (py_isspace ud c); [lia |].
  destruct (py_todecimal ud c) as [d|] eqn:Hd; [| lia].
  unfold py_todecimal in Hd. destruct (Z.ltb_spec c 128).
  - assert (c = 127) as -> by lia. discriminate.
  - apply todecimal_range in Hd. lia.
Qed.

(** What [int] skips as whitespace is a blank. *)
Lemma ascii_isspace_blank (c : Z) :
  ascii_isspace (int_ascii ud c) = true -> blank ud c.
Proof.
  unfold ascii_isspace, int_ascii. intros H.
  destruct (Z.ltb_spec c 127) as [Hlt | Hge].
  { apply orb_true_iff in H as [H | H].
    - apply Z.eqb_eq in H. unfold blank. lia.
    - apply andb_true_iff in H as [H1 H2]. apply Z.leb_le in H1, H2.
      unfold blank. lia. }
  destruct (py_isspace ud c) eqn:Hsp; [now apply blank_isspace |].
  destruct (py_todecimal ud c) as [d|] eqn:Hd; [| discriminate].
  unfold py_todecimal in Hd. destruct (Z.ltb_spec c 128).
  - assert (c = 127) as -> by lia. discriminate.
  - apply todecimal_range in Hd.
    apply orb_true_iff in H as [H | H].
    + apply Z.eqb_eq in H. lia.
    + apply andb_true_iff in H as [H1 H2]. apply Z.leb_le in H1, H2. lia.
Qed.

Lemma ascii_digit_not_space (a d : Z) :
  ascii_digit a = Some d ->
  ascii_isspace a = false /\ (a =? 43) = false /\ (a =? 45) = false
  /\ (a =? 95) = false.
Proof.
  intros H. apply ascii_digit_range in H as [H _]. unfold ascii_isspace.
  rewrite orb_false_iff, andb_false_iff, !Z.eqb_neq, !Z.leb_gt. lia.
Qed.

(** *** Stripping removes blanks and nothing else *)

Lemma lstrip_spaces (ws t : str) :
  all_space ud ws = true -> py_lstrip ud (ws ++ t) = py_lstrip ud t.
Proof.
  induction ws as [|c ws IH]; cbn; intros H; [reflexivity |].
  apply andb_true_iff in H as [Hc H]. rewrite Hc. auto.
Qed.

Lemma lstrip_head (c : Z) (t : str) :
  py_isspace ud c = false -> py_lstrip ud (c :: t) = c :: t.
Proof. cbn. now intros ->. Qed.

Lemma lstrip_all_space (ws : str) :
  all_space ud ws = true -> py_lstrip ud ws = [].
Proof.
  intros H. rewrite <- (app_nil_r ws). now rewrite lstrip_spaces.
Qed.

Lemma rstrip_all_space (ws : str) :
  all_space ud ws = true -> py_rstrip ud ws = [].
Proof.
  induction ws as [|c ws IH]; cbn; intros H; [reflexivity |].
  apply andb_true_iff in H as [Hc H]. now rewrite IH, Hc.
Qed.

Lemma rstrip_spaces (t ws : str) :
  all_space ud ws = true -> py_rstrip ud (t ++ ws) = py_rstrip ud t.
Proof.
  intros H. induction t as [|c t IH]; cbn.
  - now apply rstrip_all_space.
  - now rewrite IH.
Qed.

Lemma rstrip_last (t : str) (c : Z) :
  py_isspace ud c = false -> py_rstrip ud (t ++ [c]) = t ++ [c].
Proof.
  intros Hc. induction t as [|a t IH]; cbn.
  - now rewrite Hc.
  - rewrite IH. now destruct t.
Qed.

Lemma lstrip_split (s : str) :
  exists before, all_space ud before = true /\ s = before ++ py_lstrip ud s.
Proof.
  unfold all_space.
  induction s as [|c s (b & Hb & IH)]; cbn.
  - now exists [].
  - destruct (py_isspace ud c) eqn:Hc.
    + exists (c :: b). cbn. rewrite Hc, Hb. split; [reflexivity |].
      now rewrite <- IH.
    + now exists [].
Qed.

Lemma rstrip_split (s : str) :
  exists after, all_space ud after = true /\ s = py_rstrip ud s ++ after.
Proof.
  unfold all_space.
  induction s as [|c s (a & Ha & IH)]; cbn.
  - now exists [].
  - destruct (py_rstrip ud s) as [|k kept] eqn:Hk.
    + cbn in IH. subst a. destruct (py_isspace ud c) eqn:Hc.
      * exists (c :: s). cbn. now rewrite Hc, Ha.
      * exists s. now split.
    + exists a. split; [exact Ha |]. cbn. now rewrite IH at 1.
Qed.

Lemma strip_split (s : str) :
  exists before after,
    all_space ud before = true /\ all_space ud after = true
    /\ s = before ++ py_strip ud s ++ after.
Proof.
  destruct (lstrip_split s) as (b & Hb & Hs).
  destruct (rstrip_split (py_lstrip ud s)) as (a & Ha & Hl).
  exists b, a. repeat split; try assumption.
  unfold py_strip. now rewrite <- Hl.
Qed.

(** Blanks around a text do not survive [strip]. *)
Lemma strip_surrounded (before t after : str) :
  all_space ud before = true -> all_space ud after = true ->
  py_strip ud (before ++ t ++ after) = py_strip ud t.
Proof.
  intros Hb Ha. unfold py_strip. rewrite lstrip_spaces by exact Hb.
  induction t as [|c t IH]; cbn.
  - now rewrite (lstrip_all_space after Ha).
  - destruct (py_isspace ud c); [exact IH |].
    change (c :: t ++ after) with ((c :: t) ++ after).
    now apply rstrip_spaces.
Qed.

(** *** Digits *)

Lemma digits_ends (s : str) (n : Z) :
  Digits ud s n ->
  (exists c d rest, s = c :: rest /\ decimal_digit ud c d)
  /\ (exists front c d, s = front ++ [c] /\ decimal_digit ud c d).
Proof.
  induction 1 as [c d Hd | s n c d _ [(c0 & d0 & rest & -> & H0) _] Hd
                  | s n c d _ [(c0 & d0 & rest & -> & H0) _] Hd].
  - split; [now exists c, d, [] | now exists [], c, d].
  - split; [now exists c0, d0, (rest ++ [c]) | now exists (c0 :: rest), c, d].
  - split; [now exists c0, d0, (rest ++ [95; c]) |].
    exists ((c0 :: rest) ++ [95]), c, d. now rewrite <- app_assoc.
Qed.

(** [int] reads the digits from the left. *)
Lemma digits_unsigned (s : str) (n : Z) (tail : str) :
  Digits ud s n ->
  int_unsigned (map (int_ascii ud) s ++ tail) = int_digits n tail.
Proof.
  intros H. revert tail.
  induction H as [c d Hd | s n c d _ IH Hd | s n c d _ IH Hd]; intros tail.
  - cbn. now destruct (decimal_digit_ascii c d Hd) as [-> _].
  - rewrite map_app, <- app_assoc, IH. cbn.
    now destruct (decimal_digit_ascii c d Hd) as [-> _].
  - rewrite map_app, <- app_assoc, IH.
    cbn [map app int_digits].
    replace (int_ascii ud 95) with 95 by reflexivity.
    destruct (decimal_digit_ascii c d Hd) as [-> _]. reflexivity.
Qed.

Lemma digits_text_digits (ds : list nat) :
  ds <> [] -> Forall (fun d => (d < 10)%nat) ds ->
  Digits ud (digits_text ds) (decimal_value ds).
Proof.
  intros Hne Hds.
  assert (Hdigit : forall d, (d < 10)%nat ->
                     decimal_digit ud (digit_char d) (Z.of_nat d)).
  { intros d Hd. left. unfold digit_char. lia. }
  induction ds as [|d ds IH] using rev_ind; [congruence |].
  apply Forall_app in Hds as [Hds Hd]. apply Forall_inv in Hd.
  assert (Hv : decimal_value (ds ++ [d])
               = 10 * decimal_value ds + Z.of_nat d).
  { clear. induction ds as [|a ds IH]; cbn [app decimal_value length].
    - change (Z.of_nat 0) with 0. lia.
    - rewrite IH, length_app. cbn [length].
      replace (length ds + 1)%nat with (S (length ds)) by lia.
      rewrite Nat2Z.inj_succ, Z.pow_succ_r by lia. ring. }
  unfold digits_text. rewrite map_app, Hv. cbn [map].
  destruct ds as [|a ds].
  - cbn. replace (10 * 0 + Z.of_nat d) with (Z.of_nat d) by lia.
    apply digits_first, Hdigit, Hd.
  - apply digits_next; [| apply Hdigit, Hd].
    apply IH; [discriminate | exact Hds].
Qed.

(** *** What [int] accepts *)

(** The signed digits are what is left of an integer text once it is
    stripped. *)
Lemma strip_signed_digits (before after : str) (sg : sign) (s : str)
    (n : Z) :
  Forall (blank ud) before -> Forall (blank ud) after -> Digits ud s n ->
  py_strip ud (before ++ sign_text sg ++ s ++ after) = sign_text sg ++ s.
Proof.
  intros Hb Ha Hs. apply all_space_blank in Hb, Ha.
  rewrite (app_assoc (sign_text sg)), strip_surrounded by assumption.
  destruct (digits_ends s n Hs)
    as [(c0 & d0 & rest & Hfirst & H0) (front & c & d & Hlast & Hd)].
  apply decimal_digit_ascii in H0 as [_ H0], Hd as [_ Hd].
  unfold py_strip.
  assert (Hl : py_lstrip ud (sign_text sg ++ s) = sign_text sg ++ s).
  { destruct sg; cbn [sign_text app];
      [rewrite Hfirst; now apply lstrip_head | reflexivity | reflexivity]. }
  rewrite Hl, Hlast, app_assoc. now apply rstrip_last.
Qed.

Lemma int_signed_digits (sg : sign) (s : str) (n : Z) :
  Digits ud s n -> py_int ud (sign_text sg ++ s) = Some (signed sg n).
Proof.
  intros Hs. unfold py_int. rewrite map_app.
  pose proof (digits_unsigned s n [] Hs) as Hu. rewrite app_nil_r in Hu.
  cbn [int_digits] in Hu.
  destruct sg; cbn [sign_text map app signed].
  - destruct (digits_ends s n Hs) as [(c0 & d0 & rest & Hfirst & H0) _].
    apply decimal_digit_ascii in H0 as [H0 _].
    apply ascii_digit_not_space in H0 as (Hsp & Hplus & Hminus & _).
    rewrite Hfirst in Hu |- *. cbn [map] in Hu |- *.
    cbn [skip_spaces]. rewrite Hsp. cbn [int_signed].
    now rewrite Hplus, Hminus.
  - replace (int_ascii ud 43) with 43 by reflexivity. cbn. exact Hu.
  - replace (int_ascii ud 45) with 45 by reflexivity. cbn. now rewrite Hu.
Qed.

(** [int] on a stripped text reads the integer texts... *)
Lemma int_strip_complete (txt : str) (n : Z) :
  IntegerText ud txt n -> py_int ud (py_strip ud txt) = Some n.
Proof.
  intros [before sg s m after Hb Ha Hs].
  rewrite (strip_signed_digits before after sg s m Hb Ha Hs).
  now apply int_signed_digits.
Qed.

(** ...and nothing else. *)
Lemma int_digits_sound (s : str) (acc v : Z) (front : str) :
  int_digits acc (map (int_ascii ud) s) = Some v ->
  Digits ud front acc ->
  exists digits trailing,
    front ++ s = digits ++ trailing
    /\ Digits ud digits v /\ Forall (blank ud) trailing.
Proof.
  remember (length s) as k eqn:Hk. revert s Hk acc front.
  induction k as [k IH] using lt_wf_ind.
  intros s Hk acc front Hrun Hfront.
  destruct s as [|c rest]; cbn [map int_digits] in Hrun.
  { injection Hrun as <-. exists front, []. now rewrite app_nil_r. }
  cbn [length] in Hk.
  destruct (ascii_digit (int_ascii ud c)) as [d|] eqn:Hd.
  { apply ascii_digit_decimal in Hd.
    destruct (IH (length rest) ltac:(lia) rest eq_refl _ (front ++ [c]) Hrun)
      as (digits & trailing & E & Hdigits & Htrailing).
    { now apply digits_next. }
    exists digits, trailing. now rewrite <- E, <- app_assoc. }
  destruct (int_ascii ud c =? 95) eqn:Hmark.
  { apply Z.eqb_eq, int_ascii_mark in Hmark; [| auto]. subst c.
    destruct rest as [|c' rest']; [discriminate |]. cbn [map length] in Hrun, Hk.
    destruct (ascii_digit (int_ascii ud c')) as [d|] eqn:Hd'; [| discriminate].
    apply ascii_digit_decimal in Hd'.
    destruct (IH (length rest') ltac:(lia) rest' eq_refl _
                 (front ++ [95; c']) Hrun)
      as (digits & trailing & E & Hdigits & Htrailing).
    { now apply digits_group. }
    exists digits, trailing. now rewrite <- E, <- app_assoc. }
  destruct (forallb ascii_isspace (int_ascii ud c :: map (int_ascii ud) rest))
    eqn:Hsp; [| discriminate].
  injection Hrun as <-. exists front, (c :: rest).
  split; [reflexivity |]. split; [exact Hfront |].
  change (int_ascii ud c :: map (int_ascii ud) rest)
    with (map (int_ascii ud) (c :: rest)) in Hsp.
  rewrite forallb_forall in Hsp. apply List.Forall_forall. intros a Ha.
  apply ascii_isspace_blank, Hsp, in_map, Ha.
Qed.

Lemma int_unsigned_sound (s : str) (v : Z) :
  int_unsigned (map (int_ascii ud) s) = Some v ->
  exists digits trailing,
    s = digits ++ trailing /\ Digits ud digits v /\ Forall (blank ud) trailing.
Proof.
  destruct s as [|c rest]; [discriminate |]. cbn [map int_unsigned].
  destruct (ascii_digit (int_ascii ud c)) as [d|] eqn:Hd; [| discriminate].
  apply ascii_digit_decimal in Hd. intros Hrun.
  apply (int_digits_sound rest d v [c]) in Hrun; [exact Hrun |].
  now apply digits_first.
Qed.

Lemma skip_spaces_split (s : str) :
  exists leading rest,
    s = leading ++ rest /\ Forall (blank ud) leading
    /\ skip_spaces (map (int_ascii ud) s) = map (int_ascii ud) rest
    /\ match rest with
       | [] => True
       | c :: _ => ascii_isspace (int_ascii ud c) = false
       end.
Proof.
  induction s as [|c s (leading & rest & -> & Hl & Hskip & Hrest)].
  - now exists [], [].
  - cbn [map skip_spaces].
    destruct (ascii_isspace (int_ascii ud c)) eqn:Hc.
    + exists (c :: leading), rest. repeat split; try assumption.
      constructor; [now apply ascii_isspace_blank | exact Hl].
    + exists [], (c :: leading ++ rest). now repeat split.
Qed.

Lemma int_sound (txt : str) (n : Z) :
  py_int ud txt = Some n -> IntegerText ud txt n.
Proof.
  unfold py_int.
  destruct (skip_spaces_split txt) as (leading & rest & -> & Hl & -> & _).
  destruct rest as [|c rest]; [discriminate |]. cbn [map int_signed].
  destruct (int_ascii ud c =? 43) eqn:Hplus;
    [| destruct (int_ascii ud c =? 45) eqn:Hminus].
  - apply Z.eqb_eq, int_ascii_mark in Hplus; [| auto]. subst c.
    intros H. apply int_unsigned_sound in H as (s & after & -> & Hs & Ha).
    now apply (integer_text ud leading Plus s n after).
  - apply Z.eqb_eq, int_ascii_mark in Hminus; [| auto]. subst c.
    destruct (int_unsigned (map (int_ascii ud) rest)) as [v|] eqn:Hv;
      [| discriminate].
    intros [= <-].
    apply int_unsigned_sound in Hv as (s & after & -> & Hs & Ha).
    now apply (integer_text ud leading Minus s v after).
  - change (int_ascii ud c :: map (int_ascii ud) rest)
      with (map (int_ascii ud) (c :: rest)).
    intros H. apply int_unsigned_sound in H as (s & after & E & Hs & Ha).
    rewrite E. now apply (integer_text ud leading NoSign s n after).
Qed.

Lemma int_strip_sound (txt : str) (n : Z) :
  py_int ud (py_strip ud txt) = Some n -> IntegerText ud txt n.
Proof.
  intros H. apply int_sound in H.
  destruct (strip_split txt) as (b & a & Hb & Ha & Htxt).
  apply all_space_blank in Hb, Ha.
  rewrite Htxt. destruct H as [before sg s m after Hbefore Hafter Hs].
  replace (b ++ (before ++ sign_text sg ++ s ++ after) ++ a)
    with ((b ++ before) ++ sign_text sg ++ s ++ (after ++ a))
    by now rewrite <- !app_assoc.
  apply integer_text; [| | exact Hs]; now apply Forall_app.
Qed.

(** A numeric text is made of blanks, signs and digits. *)
Lemma numeric_text_characters (txt : str) :
  NumericText ud txt ->
  Forall (fun c => blank ud c \/ c = 43 \/ c = 45
                   \/ exists d, decimal_digit ud c d) txt.
Proof.
  intros [before sg ds after Hb Ha _ Hds].
  repeat (apply Forall_app; split).
  - eapply List.Forall_impl; [| exact Hb]. tauto.
  - destruct sg; repeat constructor; tauto.
  - eapply List.Forall_impl; [| exact Hds]. tauto.
  - eapply List.Forall_impl; [| exact Ha]. tauto.
Qed.
End Characters.

(** ** Identifier parsing, continued *)

Section Parsing.
Context {Env : Type} (ud : UnicodeData).

(** What [build_identifier] does, from what [int] makes of the stripped
    text. *)
Lemma build_identifier_run (txtrep : str) (w : World Env) :
  build_identifier ud txtrep w
  = (match py_int ud (py_strip ud txtrep) with
     | Some n => Ret (identity_of_id n)
     | None => Raise (ValueError "Telegram identifiers must be numeric")
     end,
     logged w [Log DEBUG "building an identifier from %s" [ArgText txtrep]]).
Proof.
  unfold build_identifier, _is_numeric, identity_of_id, bind, log, emit,
    logged, raise, ret.
  cbn beta iota.
  destruct (py_int ud (py_strip ud txtrep)) as [n|]; [| reflexivity].
  cbn. now destruct (0 <? n).
Qed.

(** C3. [build_identifier] strips the blanks around the text and accepts
    it exactly when what is left is an optional sign and decimal digits,
    where one underscore may stand between two digits: such a text of
    positive value gives a person with that id and no other attribute,
    such a text of zero or negative value gives a room with that id and
    no title, and every other text is rejected with [ValueError]. *)
Theorem build_identifier_spec (txtrep : str) (w : World Env) :
  let w' := logged w [Log DEBUG "building an identifier from %s" [ArgText txtrep]] in
  (forall n, IntegerText ud txtrep n -> 0 < n ->
     build_identifier ud txtrep w
     = (Ret (Person (mkTelegramPerson n None None None)), w'))
  /\ (forall n, IntegerText ud txtrep n -> n <= 0 ->
        build_identifier ud txtrep w = (Ret (Room (mkTelegramRoom n None)), w'))
  /\ ((forall n, ~ IntegerText ud txtrep n) ->
      build_identifier ud txtrep w
      = (Raise (ValueError "Telegram identifiers must be numeric"), w')).
Proof.
  cbn zeta. rewrite build_identifier_run. unfold identity_of_id.
  split; [| split].
  - intros n H Hn. apply int_strip_complete in H. rewrite H.
    destruct (Z.ltb_spec 0 n); [reflexivity | lia].
  - intros n H Hn. apply int_strip_complete in H. rewrite H.
    destruct (Z.ltb_spec 0 n); [lia | reflexivity].
  - intros H. destruct (py_int ud (py_strip ud txtrep)) as [n|] eqn:Hn.
    + now apply int_strip_sound, H in Hn.
    + reflexivity.
Qed.
End Parsing.

(** A room id with blanks around it, a person id in Arabic-Indic digits
    grouped by an underscore, and a text that is not a number. *)
Lemma build_identifier_spec_witness :
  build_identifier Demo.unicode (code_points " -42 ") (Demo.world [])
  = (Ret (Room (mkTelegramRoom (-42) None)),
     logged (Demo.world [])
            [Log DEBUG "building an identifier from %s"
               [ArgText (code_points " -42 ")]])
  /\ build_identifier Demo.unicode [1633; 95; 1634; 1635] (Demo.world [])
     = (Ret (Person (mkTelegramPerson 123 None None None)),
        logged (Demo.world [])
               [Log DEBUG "building an identifier from %s"
                  [ArgText [1633; 95; 1634; 1635]]])
  /\ build_identifier Demo.unicode (code_points "12a") (Demo.world [])
     = (Raise (ValueError "Telegram identifiers must be numeric"),
        logged (Demo.world [])
               [Log DEBUG "building an identifier from %s"
                  [ArgText (code_points "12a")]]).
Proof.
  split; [| split].
  - apply (proj1 (proj2 (build_identifier_spec Demo.unicode
                           (code_points " -42 ") (Demo.world []))) (-42));
      [| lia].
    apply (integer_text Demo.unicode [32] Minus [52; 50] 42 [32]).
    + constructor; [unfold blank; lia | constructor].
    + constructor; [unfold blank; lia | constructor].
    + apply (digits_next Demo.unicode [52] 4 50 2);
        [apply digits_first |]; left; lia.
  - apply (proj1 (build_identifier_spec Demo.unicode
                    [1633; 95; 1634; 1635] (Demo.world [])) 123);
      [| lia].
    apply (integer_text Demo.unicode [] NoSign [1633; 95; 1634; 1635] 123 []);
      [constructor | constructor |].
    apply (digits_next Demo.unicode [1633; 95; 1634] 12 1635 3);
      [apply (digits_group Demo.unicode [1633] 1 1634 2);
       [apply digits_first |] |];
      right; (split; [lia |]); (split; [reflexivity |]);
      exists 1632; (split; [reflexivity | lia]).
  - apply (proj2 (proj2 (build_identifier_spec Demo.unicode
                           (code_points "12a") (Demo.world [])))).
    intros n H. apply int_strip_complete in H. vm_compute in H. discriminate.
Defined.

(** The text "1_000" is not strictly numeric, and [build_identifier]
    accepts it all the same: it gives the person 1000. *)
Lemma build_identifier_accepts_underscore :
  build_identifier Demo.unicode (code_points "1_000") (Demo.world [])
  = (Ret (Person (mkTelegramPerson 1000 None None None)),
     logged (Demo.world [])
            [Log DEBUG "building an identifier from %s"
               [ArgText (code_points "1_000")]])
  /\ ~ NumericText Demo.unicode (code_points "1_000").
Proof.
  split; [reflexivity |].
  intros H. apply numeric_text_characters in H.
  change (code_points "1_000") with [49; 95; 48; 48; 48] in H.
  apply Forall_inv_tail, Forall_inv in H.
  destruct H as [H | [H | [H | (d & [H | (H & _)])]]];
    [unfold blank in H | | | |]; lia.
Qed.

Example build_identifier_person :
  fst (build_identifier Demo.unicode (code_points "+7") (Demo.world []))
  = Ret (Person (mkTelegramPerson 7 None None None)).
Proof. reflexivity. Qed.

Example build_identifier_zero_is_room :
  fst (build_identifier Demo.unicode (code_points "0") (Demo.world []))
  = Ret (Room (mkTelegramRoom 0 None)).
Proof. reflexivity. Qed.

(** Fullwidth digits between no-break spaces; a separator that [strip]
    removes and [int] alone would not skip; and texts [int] refuses. *)
Example build_identifier_other_scripts :
  fst (build_identifier Demo.unicode [160; 65299; 65300; 160] (Demo.world []))
  = Ret (Person (mkTelegramPerson 34 None None None))
  /\ fst (build_identifier Demo.unicode [28; 53] (Demo.world []))
     = Ret (Person (mkTelegramPerson 5 None None None))
  /\ _is_numeric Demo.unicode [28; 53] = false
  /\ map (fun s => _is_numeric Demo.unicode (code_points s))
         ["1__0"; "_1"; "1_"; "+ 1"; "1 2"; "+"; "0x10"; "1.5"; "--1"]
     = [false; false; false; false; false; false; false; false; false]
  /\ _is_numeric Demo.unicode [] = false.
Proof. repeat split. Qed.

(** ** The normalizer *)

Section Normalizer.
Context {Env : Type} (ext : Externals Env).

(** The world after a call to a collaborator that answered. *)
Lemma invoke_ok {A} (ev : event) (f : Env -> result A * Env)
    (w : World Env) (a : A) (e : Env) :
  f (env w) = (Ok a, e) ->
  invoke ev f w = (Ret a, with_env (logged w [ev]) e).
Proof.
  intros H. unfold invoke, bind, emit, with_env, logged. cbn. now rewrite H.
Qed.

Lemma invoke_err {A} (ev : event) (f : Env -> result A * Env)
    (w : World Env) (x : exn) (e : Env) :
  f (env w) = (Err x, e) ->
  invoke (A := A) ev f w = (Raise x, with_env (logged w [ev]) e).
Proof.
  intros H. unfold invoke, bind, emit, with_env, logged. cbn. now rewrite H.
Qed.

Lemma logged_logged (w : World Env) (a b : list event) :
  logged (logged w a) b = logged w (a ++ b).
Proof. unfold logged. cbn. now rewrite <- app_assoc. Qed.

Lemma logged_with_env (w : World Env) (a : list event) (e : Env) :
  logged (with_env w e) a = with_env (logged w a) e.
Proof. reflexivity. Qed.

Lemma with_env_with_env (w : World Env) (e e' : Env) :
  with_env (with_env w e) e' = with_env w e'.
Proof. reflexivity. Qed.

(** A message without text is dropped with a warning, and nothing else
    happens. *)
Lemma handle_message_without_text (message : TgMessage) (w : World Env) :
  msg_text message = None ->
  _handle_message ext (Some message) w
  = (Ret tt,
     logged w [Log WARNING "Unhandled message type (not a text message) ignored" []]).
Proof.
  intros H. unfold _handle_message. now rewrite H.
Qed.

(** What the [message] attribute holds is [None]: the first line of the
    normalizer raises. *)
Lemma handle_message_none (w : World Env) :
  _handle_message ext None w
  = (Raise (AttributeError "'NoneType' object has no attribute 'text'"), w).
Proof. reflexivity. Qed.

(** The normalizer once the host has built the draft: the message goes to
    the host callback, unless the recipient is the bot and its identity is
    not known yet. *)
Lemma handle_message_built (message : TgMessage) (text : string)
    (draft : Message) (e : Env) (w : World Env) :
  msg_text message = Some text ->
  build_message ext text (env w) = (Ok draft, e) ->
  _handle_message ext (Some message) w
  = let built := with_env (logged w [BuildMessage text]) e in
    match addressee message (bot_identifier w) with
    | Some recipient =>
        let m := mkMessage (body draft) (Some (sender_of message))
                           (Some recipient) in
        invoke (CallbackMessage m) (callback_message ext m) built
    | None =>
        (Raise (AttributeError "'TelegramBackend' object has no attribute 'bot_identifier'"),
         built)
    end.
Proof.
  intros Htext Hdraft. cbn zeta.
  assert (Hstep : forall k : Message -> M Env unit,
             bind (invoke (BuildMessage text) (build_message ext text)) k w
             = k draft (with_env (logged w [BuildMessage text]) e)).
  { intros k. unfold bind at 1.
    now rewrite (invoke_ok _ (build_message ext text) w draft e Hdraft). }
  unfold _handle_message. rewrite Htext, Hstep.
  unfold addressee, sender_of, person_of_user.
  destruct (msg_chat message) as [u|g]; cbn zeta.
  - unfold bind, get_bot_identifier, ret.
    cbn [bot_identifier with_env logged].
    now destruct (bot_identifier w).
  - reflexivity.
Qed.
End Normalizer.

Section NormalizerProperties.
Context {Env : Type} (ext : Externals Env).

(** C4. For a message with a text, once the host has built the draft, the
    normalizer hands the host callback one message, which has the body of
    the draft, and ends as the callback does.  In a direct chat the sender
    of that message is the person with the id, first name, last name and
    user name of the user who wrote, and its recipient is the bot's own
    identity.  In a group chat the sender is the occupant made of that
    same person and of the room with the chat's id and title, and the
    recipient is that room. *)
Theorem handle_message_identities (message : TgMessage) (text : string)
    (draft : Message) (e : Env) (w : World Env) :
  msg_text message = Some text ->
  build_message ext text (env w) = (Ok draft, e) ->
  let user := msg_from_user message in
  let sender :=
    mkTelegramPerson (user_id user) (user_first_name user)
                     (user_last_name user) (user_username user) in
  let dispatched (m : Message) :=
    let after e' :=
      mkWorld e' (store w) (token w) (telegram w) (bot_identifier w)
              (trace w ++ [BuildMessage text; CallbackMessage m]) in
    match callback_message ext m e with
    | (Ok _, e') => (Ret tt, after e')
    | (Err x, e') => (Raise x, after e')
    end in
  match msg_chat message with
  | ChatUser _ =>
      forall me, bot_identifier w = Some me ->
        _handle_message ext (Some message) w
        = dispatched (mkMessage (body draft) (Some (Person sender))
                                (Some (Person me)))
  | ChatGroup g =>
      let room := mkTelegramRoom (chat_id g) (chat_title g) in
      _handle_message ext (Some message) w
      = dispatched (mkMessage (body draft)
                      (Some (MUCOccupant (mkTelegramMUCOccupant sender room)))
                      (Some (Room room)))
  end.
Proof.
  intros Htext Hdraft user sender dispatched.
  assert (Hcall : forall m,
             invoke (CallbackMessage m) (callback_message ext m)
                    (with_env (logged w [BuildMessage text]) e)
             = dispatched m).
  { intros m. unfold dispatched.
    destruct (callback_message ext m e) as [[[]|x] e'] eqn:Hc.
    - rewrite (invoke_ok _ (callback_message ext m)
                 (with_env (logged w [BuildMessage text]) e) tt e' Hc).
      unfold with_env, logged. cbn. now rewrite <- app_assoc.
    - rewrite (invoke_err _ (callback_message ext m)
                 (with_env (logged w [BuildMessage text]) e) x e' Hc).
      unfold with_env, logged. cbn. now rewrite <- app_assoc. }
  rewrite (handle_message_built ext message text draft e w Htext Hdraft).
  cbn zeta. unfold addressee, sender_of.
  destruct (msg_chat message) as [u|g]; cbn zeta.
  - intros me ->. apply Hcall.
  - apply Hcall.
Qed.
End NormalizerProperties.

(** A direct message and a group message, run on the scripted host. *)
Lemma handle_message_identities_witness :
  (let m := mkMessage "hello"
              (Some (Person (mkTelegramPerson 7 (Some "Alice") None (Some "alice"))))
              (Some (Person (mkTelegramPerson 1 (Some "Err") (Some "Bot")
                                              (Some "errbot")))) in
   _handle_message Demo.externals
     (Some (mkTgMessage (Some "hello") (ChatUser Demo.alice) Demo.alice))
     (Demo.world [])
   = (Ret tt,
      mkWorld [] ∅ "TOKEN" (Some "TOKEN")
        (Some (mkTelegramPerson 1 (Some "Err") (Some "Bot") (Some "errbot")))
        [BuildMessage "hello"; CallbackMessage m]))
  /\ (let room := mkTelegramRoom (-100) (Some "team") in
      let m := mkMessage "boom"
                 (Some (MUCOccupant
                          (mkTelegramMUCOccupant
                             (mkTelegramPerson 7 (Some "Alice") None (Some "alice"))
                             room)))
                 (Some (Room room)) in
      _handle_message Demo.externals
        (Some (mkTgMessage (Some "boom") (ChatGroup Demo.team) Demo.alice))
        (Demo.world [])
      = (Raise (OtherException "RuntimeError"),
         mkWorld [] ∅ "TOKEN" (Some "TOKEN")
           (Some (mkTelegramPerson 1 (Some "Err") (Some "Bot") (Some "errbot")))
           [BuildMessage "boom"; CallbackMessage m])).
Proof.
  split.
  - exact (handle_message_identities Demo.externals
             (mkTgMessage (Some "hello") (ChatUser Demo.alice) Demo.alice)
             "hello" (mkMessage "hello" None None) [] (Demo.world [])
             eq_refl eq_refl (person_of_user Demo.bot) eq_refl).
  - exact (handle_message_identities Demo.externals
             (mkTgMessage (Some "boom") (ChatGroup Demo.team) Demo.alice)
             "boom" (mkMessage "boom" None None) [] (Demo.world [])
             eq_refl eq_refl).
Defined.

(** ** The loop over a batch *)

Section Batch.
Context {Env : Type} (ext : Externals Env).

(** The normalizer, case by case. *)
Lemma handle_message_handled (u : Update) (value : option TgMessage)
    (w : World Env) :
  update_message u = Some value ->
  exists r w' evs,
    _handle_message ext value w = (r, w')
    /\ trace w' = trace w ++ evs
    /\ store w' = store w
    /\ bot_identifier w' = bot_identifier w
    /\ handled ext (bot_identifier w) (env w) u
         (List.filter protocol_event evs) (env w') r.
Proof.
  intros Hu. destruct value as [message|].
  2:{ rewrite handle_message_none. eexists _, w, [].
      split; [reflexivity |]. rewrite app_nil_r.
      repeat split. now apply handled_no_message. }
  destruct (msg_text message) as [text|] eqn:Htext.
  2:{ rewrite (handle_message_without_text ext message w Htext).
      eexists _, _, _. split; [reflexivity |].
      repeat split. cbn. now apply handled_no_text with message. }
  destruct (build_message ext text (env w)) as [[draft|x] e1] eqn:Hb.
  2:{ unfold _handle_message. rewrite Htext. unfold bind at 1.
      rewrite (invoke_err _ (build_message ext text) w x e1 Hb).
      eexists _, _, [BuildMessage text]. split; [reflexivity |].
      repeat split. cbn. now apply handled_no_draft with message. }
  rewrite (handle_message_built ext message text draft e1 w Htext Hb).
  cbn zeta.
  destruct (addressee message (bot_identifier w)) as [recipient|] eqn:Ha.
  2:{ eexists _, _, [BuildMessage text]. split; [reflexivity |].
      repeat split. cbn. now apply handled_no_identity with message draft. }
  set (m := mkMessage (body draft) (Some (sender_of message)) (Some recipient)).
  destruct (callback_message ext m e1) as [r e2] eqn:Hc.
  exists (match r with Ok _ => Ret tt | Err x => Raise x end),
    (with_env (logged w [BuildMessage text; CallbackMessage m]) e2),
    [BuildMessage text; CallbackMessage m].
  split.
  { destruct r as [[]|x].
    - now rewrite (invoke_ok _ (callback_message ext m)
                     (with_env (logged w [BuildMessage text]) e1) tt e2 Hc),
        logged_with_env, logged_logged.
    - now rewrite (invoke_err _ (callback_message ext m)
                     (with_env (logged w [BuildMessage text]) e1) x e2 Hc),
        logged_with_env, logged_logged. }
  repeat split. cbn.
  now apply handled_dispatch with message draft e1 recipient.
Qed.

(** The normalizer always ends, and an exception it raises is an
    [Exception] unless the host raised something else. *)
Lemma handled_raise (me : option TelegramPerson) (e e' : Env) (u : Update)
    (evs : list event) (r : outcome unit) :
  handled ext me e u evs e' r ->
  match r with
  | Ret _ => True
  | Raise x =>
      is_Exception x = true
      \/ (exists text e0 e1, build_message ext text e0 = (Err x, e1))
      \/ (exists m e0 e1, callback_message ext m e0 = (Err x, e1))
  | OutOfFuel => False
  end.
Proof.
  intros [H | H | message H Ht | message text x e1 H Ht Hb
          | message text draft e1 H Ht Hb Ha
          | message text draft e1 recipient m r' e2 H Ht Hb Ha Hm Hc];
    try exact I; try (now left).
  - right. left. now exists text, e, e1.
  - destruct r' as [[]|x]; [exact I |]. right. right. now exists m, e1, e2.
Qed.

(** One turn of the [for] loop. *)
Lemma for_updates_step (u : Update) (rest : list Update) (offset : Z)
    (w : World Env) :
  for_updates ext (u :: rest) offset w
  = let cursor := update_id u + 1 in
    let w1 := logged (stored w offset_key cursor)
                [SetItem offset_key cursor;
                 Log DEBUG "Processing update: %s" [ArgUpdate u]] in
    match update_message u with
    | None =>
        for_updates ext rest cursor
          (logged w1 [Log WARNING "Unknown update type (no message present)" []])
    | Some value =>
        match _handle_message ext value w1 with
        | (Ret _, w2) => for_updates ext rest cursor w2
        | (Raise x, w2) =>
            if is_Exception x then
              for_updates ext rest cursor
                (logged w2 [LogException "An exception occurred while processing update" [] x])
            else (Raise x, w2)
        | (OutOfFuel, w2) => (OutOfFuel, w2)
        end
    end.
Proof.
  cbn [for_updates]. cbn zeta.
  set (cursor := update_id u + 1).
  set (w1 := logged _ _).
  assert (Hw1 : forall k : M Env Z,
             bind (setitem offset_key cursor)
               (fun _ => bind (log DEBUG "Processing update: %s" [ArgUpdate u])
                           (fun _ => k)) w
             = k w1).
  { intros k. unfold bind, setitem, log, emit. cbn.
    f_equal. unfold w1, logged, stored. cbn. now rewrite <- app_assoc. }
  rewrite Hw1.
  destruct (update_message u) as [value|].
  - unfold bind at 1. unfold try_except.
    destruct (_handle_message ext value w1) as [[[]|x|] w2]; try reflexivity.
    destruct (is_Exception x); reflexivity.
  - reflexivity.
Qed.

Lemma cursor_after_cons (u : Update) (rest : list Update) (offset : Z) :
  cursor_after (u :: rest) offset = cursor_after rest (update_id u + 1).
Proof.
  unfold cursor_after. destruct rest as [|u' rest]; [reflexivity |].
  change (last (u :: u' :: rest)) with (last (u' :: rest)).
  destruct (last (u' :: rest)) eqn:E; [reflexivity |].
  now apply last_None in E.
Qed.

(** How a batch ends.  Either every update was processed: the loop
    returns the cursor of the last one, which is also what the store
    holds.  Or the host raised something that is not an [Exception]
    while an update was normalized or dispatched, and the batch was
    abandoned there.  In both cases the protocol with the host was
    followed update by update in arrival order. *)
Lemma for_updates_run (updates : list Update) (offset : Z) (w : World Env) :
  exists r w' evs,
    for_updates ext updates offset w = (r, w')
    /\ trace w' = trace w ++ evs
    /\ ordered ext (bot_identifier w) (env w) updates
         (List.filter protocol_event evs) (returned r)
    /\ match r with
       | Ret z =>
           z = cursor_after updates offset
           /\ store w' !! offset_key
              = match updates with
                | [] => store w !! offset_key
                | _ => Some (cursor_after updates offset)
                end
       | Raise x =>
           is_Exception x = false
           /\ ((exists text e0 e1, build_message ext text e0 = (Err x, e1))
               \/ (exists m e0 e1, callback_message ext m e0 = (Err x, e1)))
       | OutOfFuel => False
       end.
Proof.
  revert offset w.
  induction updates as [|u rest IH]; intros offset w.
  { exists (Ret offset), w, []. repeat split.
    - now rewrite app_nil_r.
    - constructor. }
  rewrite for_updates_step. cbn zeta.
  set (cursor := update_id u + 1).
  set (pre := [SetItem offset_key cursor;
               Log DEBUG "Processing update: %s" [ArgUpdate u]]).
  set (w1 := logged _ pre).
  assert (Hcont : forall (w2 : World Env) (evs2 : list event) (r0 : outcome unit),
             trace w2 = trace w1 ++ evs2 ->
             store w2 !! offset_key = Some cursor ->
             bot_identifier w2 = bot_identifier w ->
             handled ext (bot_identifier w) (env w) u
               (List.filter protocol_event evs2) (env w2) r0 ->
             goes_on r0 = true ->
             exists r w' evs,
               for_updates ext rest cursor w2 = (r, w')
               /\ trace w' = trace w ++ evs
               /\ ordered ext (bot_identifier w) (env w) (u :: rest)
                    (List.filter protocol_event evs) (returned r)
               /\ match r with
                  | Ret z =>
                      z = cursor_after (u :: rest) offset
                      /\ store w' !! offset_key
                         = Some (cursor_after (u :: rest) offset)
                  | Raise x =>
                      is_Exception x = false
                      /\ ((exists text e0 e1,
                              build_message ext text e0 = (Err x, e1))
                          \/ (exists m e0 e1,
                                 callback_message ext m e0 = (Err x, e1)))
                  | OutOfFuel => False
                  end).
  { intros w2 evs2 r0 Htr2 Hs2 Hme Hh Hgo.
    destruct (IH cursor w2) as (r & w' & evs & Hrun & Htr & Hord & Hr).
    exists r, w', (pre ++ evs2 ++ evs).
    split; [exact Hrun |]. split.
    { rewrite Htr, Htr2. unfold w1. cbn [trace logged stored].
      now rewrite <- !app_assoc. }
    split.
    { rewrite Hme in Hord.
      cbn [pre app List.filter protocol_event]. rewrite List.filter_app.
      now apply ordered_next with (env w2) r0. }
    destruct r as [z|x|]; [| exact Hr | exact Hr].
    destruct Hr as [-> Hs]. rewrite cursor_after_cons. fold cursor.
    split; [reflexivity |]. rewrite Hs. now destruct rest. }
  destruct (update_message u) as [value|] eqn:Hu.
  - destruct (handle_message_handled u value w1 Hu)
      as (r0 & w2 & evs0 & -> & Htr0 & Hs0 & Hme0 & Hh).
    change (bot_identifier w1) with (bot_identifier w) in Hme0, Hh.
    change (env w1) with (env w) in Hh.
    assert (Hcursor : store w2 !! offset_key = Some cursor).
    { rewrite Hs0. cbn. apply lookup_insert_eq. }
    pose proof (handled_raise _ _ _ _ _ _ Hh) as Hr0.
    destruct r0 as [[]|x|]; [| | contradiction].
    + now apply (Hcont w2 evs0 (Ret tt)).
    + destruct (is_Exception x) eqn:Hx.
      * apply (Hcont _ (evs0 ++ [LogException "An exception occurred while processing update" [] x])
                 (Raise x)); trivial.
        -- cbn [trace logged]. now rewrite Htr0, <- app_assoc.
        -- rewrite List.filter_app. cbn [List.filter protocol_event].
           now rewrite app_nil_r.
      * exists (Raise x), w2, (pre ++ evs0).
        split; [reflexivity |]. split.
        { rewrite Htr0. unfold w1. cbn [trace logged stored].
          now rewrite <- !app_assoc. }
        split.
        { cbn [pre app List.filter protocol_event returned].
          now apply ordered_cut with (env w2) (Raise x). }
        split; [exact Hx |].
        destruct Hr0 as [H | H]; [congruence | exact H].
  - apply (Hcont _ [Log WARNING "Unknown update type (no message present)" []]
             (Ret tt)); trivial.
    + cbn. apply lookup_insert_eq.
    + now apply handled_no_attribute.
Qed.

(** Updates that are dropped with a warning: one without a [message]
    attribute, and one whose message has no text.  The loop writes the
    cursor, logs the update and the warning, and goes on with the next
    update; no draft is built, the host callback is not invoked, the
    collaborators' state is untouched and nothing is raised. *)
Lemma update_without_text_discarded (u : Update) (rest : list Update)
    (offset : Z) (w : World Env) :
  update_message u = None
  \/ (exists message,
         update_message u = Some (Some message) /\ msg_text message = None) ->
  for_updates ext (u :: rest) offset w
  = for_updates ext rest (update_id u + 1)
      (logged (stored w offset_key (update_id u + 1))
         [SetItem offset_key (update_id u + 1);
          Log DEBUG "Processing update: %s" [ArgUpdate u];
          Log WARNING (discard_warning u) []]).
Proof.
  unfold discard_warning. rewrite for_updates_step. cbn zeta.
  intros [-> | (message & -> & Htext)].
  - now rewrite logged_logged.
  - rewrite (handle_message_without_text ext message _ Htext).
    now rewrite logged_logged.
Qed.

(** C5. An update whose [message] attribute holds [None] has no usable
    text, and it is not dropped with a warning: the attribute is there,
    so the normalizer is called and raises [AttributeError]; the loop
    records that with [log.exception], an error and not a warning, and
    goes on with the next update. *)
Theorem update_with_message_none (i : Z) (rest : list Update) (offset : Z)
    (w : World Env) :
  let u := mkUpdate i (Some None) in
  let x := AttributeError "'NoneType' object has no attribute 'text'" in
  usable_text u = None
  /\ _handle_message ext None w = (Raise x, w)
  /\ for_updates ext (u :: rest) offset w
     = for_updates ext rest (i + 1)
         (logged (stored w offset_key (i + 1))
            [SetItem offset_key (i + 1);
             Log DEBUG "Processing update: %s" [ArgUpdate u];
             LogException "An exception occurred while processing update" [] x]).
Proof.
  cbn zeta. split; [reflexivity |]. split; [reflexivity |].
  rewrite for_updates_step. cbn zeta. cbn [update_message update_id].
  rewrite handle_message_none. cbn [is_Exception].
  now rewrite logged_logged.
Qed.

(** C2. Whatever the batch and whatever the collaborators do, the loop
    deals with the updates one by one in arrival order, and with each of
    them in this order: it writes [update_id + 1] under the fixed key of
    the store, and only then does the normalizer ask the host for a draft
    of the update's text and hand the finished message to the host
    callback.  An update with a text is dispatched in this way whenever
    the host gives the draft and the recipient is known; the loop stops
    short of the end of the batch only when the host raises something
    that is not an [Exception].  The normalizer of an update runs in a
    world whose store already holds that update's cursor. *)
Theorem persist_before_dispatch (updates : list Update) (offset : Z)
    (w : World Env) :
  (exists evs,
      trace (snd (for_updates ext updates offset w)) = trace w ++ evs
      /\ ordered ext (bot_identifier w) (env w) updates
           (List.filter protocol_event evs)
           (returned (fst (for_updates ext updates offset w))))
  /\ (forall u rest value,
        updates = u :: rest ->
        update_message u = Some value ->
        exists w1,
          store w1 !! offset_key = Some (update_id u + 1)
          /\ trace w1 = trace w ++ [SetItem offset_key (update_id u + 1);
                                    Log DEBUG "Processing update: %s" [ArgUpdate u]]
          /\ env w1 = env w
          /\ for_updates ext updates offset w
             = match _handle_message ext value w1 with
               | (Ret _, w2) => for_updates ext rest (update_id u + 1) w2
               | (Raise x, w2) =>
                   if is_Exception x then
                     for_updates ext rest (update_id u + 1)
                       (logged w2 [LogException "An exception occurred while processing update" [] x])
                   else (Raise x, w2)
               | (OutOfFuel, w2) => (OutOfFuel, w2)
               end).
Proof.
  split.
  - destruct (for_updates_run updates offset w)
      as (r & w' & evs & -> & Htr & Hord & _).
    now exists evs.
  - intros u rest value -> Hu.
    exists (logged (stored w offset_key (update_id u + 1))
              [SetItem offset_key (update_id u + 1);
               Log DEBUG "Processing update: %s" [ArgUpdate u]]).
    split; [cbn; apply lookup_insert_eq |].
    split; [reflexivity |]. split; [reflexivity |].
    rewrite for_updates_step. cbn zeta. now rewrite Hu.
Qed.

(** An exception of the normalizer is an [Exception] when the host
    raises nothing else. *)
Lemma handle_message_raises (u : Update) (value : option TgMessage)
    (w w2 : World Env) (x : exn) :
  (forall text e0 x e1,
      build_message ext text e0 = (Err x, e1) -> is_Exception x = true) ->
  (forall m e0 x e1,
      callback_message ext m e0 = (Err x, e1) -> is_Exception x = true) ->
  update_message u = Some value ->
  _handle_message ext value w = (Raise x, w2) ->
  is_Exception x = true.
Proof.
  intros Hb Hc Hu Hrun.
  destruct (handle_message_handled u value w Hu)
    as (r & w' & evs & Heq & _ & _ & _ & Hh).
  rewrite Hrun in Heq. injection Heq as <- _.
  destruct (handled_raise _ _ _ _ _ _ Hh)
    as [H | [(text & e0 & e1 & H) | (m & e0 & e1 & H)]]; eauto.
Qed.

(** C1. When what the host raises while an update is normalized or
    dispatched is an [Exception], every batch is processed to its end:
    the loop returns, and the store then holds under the fixed key the
    sequence id of the last update plus one (for an empty batch, what it
    held before), however many updates failed or were dropped.  An
    exception of one update is caught and logged, and the loop goes on
    with the next update. *)
Theorem cursor_after_batch (updates : list Update) (offset : Z)
    (w : World Env) :
  (forall text e0 x e1,
      build_message ext text e0 = (Err x, e1) -> is_Exception x = true) ->
  (forall m e0 x e1,
      callback_message ext m e0 = (Err x, e1) -> is_Exception x = true) ->
  (exists w',
      for_updates ext updates offset w
      = (Ret (cursor_after updates offset), w')
      /\ store w' !! offset_key
         = match last updates with
           | Some u => Some (update_id u + 1)
           | None => store w !! offset_key
           end)
  /\ (forall u rest value x w1 w2,
        updates = u :: rest ->
        update_message u = Some value ->
        w1 = logged (stored w offset_key (update_id u + 1))
               [SetItem offset_key (update_id u + 1);
                Log DEBUG "Processing update: %s" [ArgUpdate u]] ->
        _handle_message ext value w1 = (Raise x, w2) ->
        for_updates ext updates offset w
        = for_updates ext rest (update_id u + 1)
            (logged w2 [LogException "An exception occurred while processing update" [] x])).
Proof.
  intros Hb Hc. split.
  - destruct (for_updates_run updates offset w)
      as (r & w' & evs & Hrun & _ & _ & Hr).
    destruct r as [z|x|]; [| | contradiction].
    + destruct Hr as [-> Hs]. exists w'. split; [exact Hrun |].
      rewrite Hs. unfold cursor_after.
      destruct updates as [|u rest]; [reflexivity |].
      destruct (last (u :: rest)) eqn:E; [reflexivity |].
      now apply last_None in E.
    + destruct Hr as [Hx [(text & e0 & e1 & H) | (m & e0 & e1 & H)]].
      * apply Hb in H. congruence.
      * apply Hc in H. congruence.
  - intros u rest value x w1 w2 -> Hu -> Hrun.
    rewrite for_updates_step. cbn zeta. rewrite Hu, Hrun.
    now rewrite (handle_message_raises u value _ _ _ Hb Hc Hu Hrun).
Qed.
End Batch.

(** *** The batch 5, 6, 9 on the scripted host *)

Lemma demo_build_message_polite (text : string) (e0 : Demo.script) (x : exn)
    (e1 : Demo.script) :
  build_message Demo.externals text e0 = (Err x, e1) -> is_Exception x = true.
Proof. intros H. discriminate H. Defined.

Lemma demo_callback_message_polite (m : Message) (e0 : Demo.script) (x : exn)
    (e1 : Demo.script) :
  callback_message Demo.externals m e0 = (Err x, e1) -> is_Exception x = true.
Proof.
  cbn. destruct (String.eqb (body m) "boom"); intros H.
  - injection H as <- _. reflexivity.
  - discriminate H.
Defined.

(** An update whose [message] attribute holds [None], between two
    others: an error is logged for it, and no warning. *)
Example message_none_in_a_batch :
  List.filter
    (fun ev => match ev with
               | Log WARNING _ _ | LogException _ _ _ => true
               | _ => false
               end)
    (trace (snd (for_updates Demo.externals
                   [mkUpdate 6 None; mkUpdate 7 (Some None);
                    mkUpdate 8 (Some (Some (mkTgMessage None (ChatUser Demo.alice)
                                                        Demo.alice)))]
                   0 (Demo.world []))))
  = [ Log WARNING "Unknown update type (no message present)" [];
      LogException "An exception occurred while processing update" []
        (AttributeError "'NoneType' object has no attribute 'text'");
      Log WARNING "Unhandled message type (not a text message) ignored" [] ].
Proof. reflexivity. Qed.

Lemma persist_before_dispatch_witness :
  exists evs,
    trace (snd (for_updates Demo.externals Demo.batch 0 (Demo.world [])))
    = [] ++ evs
    /\ ordered Demo.externals (Some (person_of_user Demo.bot)) [] Demo.batch
         (List.filter protocol_event evs) true.
Proof.
  exact (proj1 (persist_before_dispatch Demo.externals Demo.batch 0
                  (Demo.world []))).
Defined.

(** The dispatch of update 9 fails and update 6 is dropped: the cursor is
    10 all the same. *)
Lemma cursor_after_batch_witness :
  exists w',
    for_updates Demo.externals Demo.batch 0 (Demo.world []) = (Ret 10, w')
    /\ store w' !! offset_key = Some 10.
Proof.
  exact (proj1 (cursor_after_batch Demo.externals Demo.batch 0 (Demo.world [])
                  demo_build_message_polite demo_callback_message_polite)).
Defined.

Example batch_5_6_9_trace :
  List.filter protocol_event
    (trace (snd (for_updates Demo.externals Demo.batch 0 (Demo.world []))))
  = [ SetItem offset_key 6;
      BuildMessage "hello";
      CallbackMessage
        (mkMessage "hello"
           (Some (Person (mkTelegramPerson 7 (Some "Alice") None (Some "alice"))))
           (Some (Person (mkTelegramPerson 1 (Some "Err") (Some "Bot")
                                           (Some "errbot")))));
      SetItem offset_key 7;
      SetItem offset_key 10;
      BuildMessage "boom";
      CallbackMessage
        (mkMessage "boom"
           (Some (MUCOccupant
                    (mkTelegramMUCOccupant
                       (mkTelegramPerson 7 (Some "Alice") None (Some "alice"))
                       (mkTelegramRoom (-100) (Some "team")))))
           (Some (Room (mkTelegramRoom (-100) (Some "team"))))) ].
Proof. reflexivity. Qed.

(** On the scripted host a trace that lacks the dispatches is not the
    protocol of the batch. *)
Example batch_5_6_9_needs_dispatch :
  ~ ordered Demo.externals (Some (person_of_user Demo.bot)) [] Demo.batch
      [SetItem offset_key 6; SetItem offset_key 7; SetItem offset_key 10] true.
Proof.
  intros H. inversion H; subst.
  match goal with
  | Hh : handled _ _ _ _ _ _ _ |- _ => inversion Hh; subst
  end; cbn in *; try discriminate;
    repeat match goal with
           | E : Some _ = Some _ |- _ => injection E as E; subst
           end;
    cbn in *; discriminate.
Qed.

(** ** Outbound messages *)

Section Sender.
Context {Env : Type} (ext : Externals Env).

(** C8. Once the host's own [send_message] and the renderer have
    returned, with the client built and a recipient set: when the
    transmission succeeds [send_message] returns and logs nothing; when it
    raises, the same exception reaches the caller, and if it is an
    [Exception] a record with the recipient id and the body of the message
    has been logged before. *)
Theorem send_message_failure_reraised (mess : Message) (w : World Env)
    (recipient : TelegramIdentifier) (client body' : string) (e1 e2 : Env) :
  ErrBot_send_message ext mess (env w) = (Ok tt, e1) ->
  md_converter_convert ext (body mess) e1 = (Ok body', e2) ->
  telegram w = Some client ->
  to mess = Some recipient ->
  let chat := identifier_id recipient in
  let sent := with_env (logged w [ErrBotSendMessage mess;
                                  MdConvert (body mess);
                                  SendMessage chat body']) in
  match telegram_sendMessage ext chat body' e2 with
  | (Ok _, e3) => send_message ext mess w = (Ret tt, sent e3)
  | (Err x, e3) =>
      send_message ext mess w
      = (Raise x,
         if is_Exception x then
           logged (sent e3)
             [LogException
                "An exception occurred while trying to send the following message to %s: %s"
                [ArgInt chat; ArgStr (body mess)] x]
         else sent e3)
  end.
Proof.
  intros Hhost Hmd Hclient Hto chat sent.
  assert (Hrun : send_message ext mess w
                 = try_except
                     (invoke (SendMessage chat body')
                             (telegram_sendMessage ext chat body'))
                     (fun x =>
                        if is_Exception x then
                          Some (bind
                                  (log_exception
                                     "An exception occurred while trying to send the following message to %s: %s"
                                     [ArgInt chat; ArgStr (body mess)] x)
                                  (fun _ => raise x))
                        else None)
                     (with_env (logged w [ErrBotSendMessage mess;
                                          MdConvert (body mess)]) e2)).
  { unfold send_message.
    unfold bind at 1.
    rewrite (invoke_ok _ (ErrBot_send_message ext mess) w tt e1 Hhost).
    unfold bind at 1.
    rewrite (invoke_ok _ (md_converter_convert ext (body mess))
               (with_env (logged w [ErrBotSendMessage mess]) e1) body' e2 Hmd).
    rewrite logged_with_env, logged_logged, with_env_with_env.
    unfold try_except, to_id. rewrite Hto.
    unfold bind, get_telegram, ret. cbn [telegram with_env logged].
    rewrite Hclient. reflexivity. }
  rewrite Hrun. clear Hrun. unfold try_except.
  destruct (telegram_sendMessage ext chat body' e2) as [[[]|x] e3] eqn:Hsend.
  - rewrite (invoke_ok _ _ _ _ e3) by exact Hsend.
    unfold sent. rewrite !logged_with_env, !logged_logged. reflexivity.
  - rewrite (invoke_err _ _ _ _ e3) by exact Hsend.
    destruct (is_Exception x).
    + unfold bind, ret, log_exception, emit, raise, sent, logged, with_env.
      cbn. rewrite <- !app_assoc. reflexivity.
    + unfold sent. rewrite !logged_with_env, !logged_logged. reflexivity.
Qed.
End Sender.

(** The scripted provider refuses chat 0 and accepts chat 7. *)
Lemma send_message_failure_reraised_witness :
  (let mess := mkMessage "lost" None (Some (Room (mkTelegramRoom 0 None))) in
   send_message Demo.externals mess (Demo.world [])
   = (Raise (TelegramError "chat not found"),
      logged (Demo.world [])
        [ErrBotSendMessage mess; MdConvert "lost"; SendMessage 0 "lost";
         LogException
           "An exception occurred while trying to send the following message to %s: %s"
           [ArgInt 0; ArgStr "lost"] (TelegramError "chat not found")]))
  /\ (let mess := mkMessage "pong" None
                    (Some (Person (person_of_user Demo.alice))) in
      send_message Demo.externals mess (Demo.world [])
      = (Ret tt,
         logged (Demo.world [])
           [ErrBotSendMessage mess; MdConvert "pong"; SendMessage 7 "pong"])).
Proof.
  split.
  - exact (send_message_failure_reraised Demo.externals
             (mkMessage "lost" None (Some (Room (mkTelegramRoom 0 None))))
             (Demo.world []) (Room (mkTelegramRoom 0 None)) "TOKEN" "lost" [] []
             eq_refl eq_refl eq_refl eq_refl).
  - exact (send_message_failure_reraised Demo.externals
             (mkMessage "pong" None (Some (Person (person_of_user Demo.alice))))
             (Demo.world []) (Person (person_of_user Demo.alice)) "TOKEN" "pong"
             [] [] eq_refl eq_refl eq_refl eq_refl).
Defined.

(** ** Leaving the polling loop *)

Section TraceGrowth.
Context {Env : Type} (P : event -> Prop).

Lemma grows_ret {A} (a : A) : grows (Env := Env) P (ret a).
Proof.
  intros w r w' H. injection H as <- <-. exists [].
  split; [now rewrite app_nil_r | constructor].
Qed.

Lemma grows_raise {A} (x : exn) : grows (Env := Env) (A := A) P (raise x).
Proof.
  intros w r w' H. injection H as <- <-. exists [].
  split; [now rewrite app_nil_r | constructor].
Qed.

Lemma grows_out_of_fuel {A} : grows (Env := Env) (A := A) P out_of_fuel.
Proof.
  intros w r w' H. injection H as <- <-. exists [].
  split; [now rewrite app_nil_r | constructor].
Qed.

Lemma grows_silent {A} (m : M Env A) :
  (forall w, trace (snd (m w)) = trace w) -> grows P m.
Proof.
  intros Hm w r w' H. exists []. rewrite app_nil_r.
  split; [| constructor]. specialize (Hm w). now rewrite H in Hm.
Qed.

Lemma grows_bind {A B} (m : M Env A) (k : A -> M Env B) :
  grows P m -> (forall a, grows P (k a)) -> grows P (bind m k).
Proof.
  intros Hm Hk w r w' H. unfold bind in H.
  destruct (m w) as [[a|x|] w1] eqn:Hmw;
    destruct (Hm _ _ _ Hmw) as (evs1 & Ht1 & HP1).
  - destruct (Hk a _ _ _ H) as (evs2 & Ht2 & HP2).
    exists (evs1 ++ evs2). split.
    + now rewrite Ht2, Ht1, <- app_assoc.
    + now apply Forall_app.
  - injection H as <- <-. now exists evs1.
  - injection H as <- <-. now exists evs1.
Qed.

Lemma grows_emit (ev : event) : P ev -> grows (Env := Env) P (emit ev).
Proof.
  intros Hev w r w' H. injection H as <- <-. exists [ev].
  split; [reflexivity | now repeat constructor].
Qed.

Lemma grows_invoke {A} (ev : event) (f : Env -> result A * Env) :
  P ev -> grows P (invoke ev f).
Proof.
  intros Hev. unfold invoke. apply grows_bind; [now apply grows_emit |].
  intros _ w r w' H. exists []. rewrite app_nil_r. split; [| constructor].
  destruct (f (env w)) as [[a|x] e]; injection H as <- <-; reflexivity.
Qed.

Lemma grows_try_except {A} (body : M Env A)
    (handler : exn -> option (M Env A)) :
  grows P body ->
  (forall x h, handler x = Some h -> grows P h) ->
  grows P (try_except body handler).
Proof.
  intros Hb Hh w r w' H. unfold try_except in H.
  destruct (body w) as [[a|x|] w1] eqn:Hbw;
    destruct (Hb _ _ _ Hbw) as (evs1 & Ht1 & HP1).
  - injection H as <- <-. now exists evs1.
  - destruct (handler x) as [h|] eqn:Hx.
    + destruct (Hh _ _ Hx _ _ _ H) as (evs2 & Ht2 & HP2).
      exists (evs1 ++ evs2). split.
      * now rewrite Ht2, Ht1, <- app_assoc.
      * now apply Forall_app.
    + injection H as <- <-. now exists evs1.
  - injection H as <- <-. now exists evs1.
Qed.
End TraceGrowth.

Section Polling.
Context {Env : Type} (ext : Externals Env).

Create HintDb quiet.
#[local] Hint Resolve grows_ret grows_raise grows_out_of_fuel grows_bind
  grows_emit grows_invoke : quiet.
#[local] Hint Extern 1 (quiet _) => exact I : quiet.

Lemma quiet_handle_message (message : option TgMessage) :
  grows quiet (_handle_message ext message).
Proof.
  unfold _handle_message, log.
  destruct message as [message|]; [| auto with quiet].
  destruct (msg_text message); [| auto with quiet].
  apply grows_bind; [auto with quiet |]. intros draft.
  apply grows_bind; [| auto with quiet].
  destruct (msg_chat message); [| auto with quiet].
  apply grows_bind; [| auto with quiet].
  apply grows_silent. intros w. unfold get_bot_identifier.
  now destruct (bot_identifier w).
Qed.

Lemma quiet_for_updates (updates : list Update) (offset : Z) :
  grows quiet (for_updates ext updates offset).
Proof.
  revert offset.
  induction updates as [|u rest IH]; intros offset; cbn [for_updates].
  - auto with quiet.
  - apply grows_bind.
    { unfold setitem. apply grows_bind; [auto with quiet |].
      intros _. now apply grows_silent. }
    intros _. apply grows_bind; [unfold log; auto with quiet |].
    intros _. destruct (update_message u) as [message|].
    + apply grows_bind; [| auto].
      apply grows_try_except; [apply quiet_handle_message |].
      intros x h. destruct (is_Exception x); [| discriminate].
      intros [= <-]. unfold log_exception. auto with quiet.
    + apply grows_bind; [unfold log; auto with quiet | auto].
Qed.

Lemma quiet_poll (fuel : nat) (offset : Z) :
  grows quiet (poll ext fuel offset).
Proof.
  revert offset. induction fuel as [|fuel IH]; intros offset; cbn [poll].
  - auto with quiet.
  - apply grows_bind; [unfold log; auto with quiet |]. intros _.
    apply grows_bind.
    { apply grows_silent. intros w. unfold get_telegram.
      now destruct (telegram w). }
    intros _. apply grows_bind; [auto with quiet |]. intros updates.
    apply grows_bind; [apply quiet_for_updates |]. intros offset'.
    apply grows_bind; [unfold log; auto with quiet | auto].
Qed.

Lemma disconnects_app (a b : list event) :
  disconnects (a ++ b) = (disconnects a + disconnects b)%nat.
Proof. unfold disconnects. now rewrite List.filter_app, length_app. Qed.

Lemma disconnects_quiet (evs : list event) :
  Forall quiet evs -> disconnects evs = 0%nat.
Proof.
  unfold disconnects. induction 1 as [|ev evs Hev _ IH]; [reflexivity |].
  cbn [List.filter]. destruct ev; try exact IH. contradiction.
Qed.

(** The loop has no [break]: it cannot end by returning. *)
Lemma bind_ret_inv {A B} (m : M Env A) (k : A -> M Env B)
    (w w' : World Env) (b : B) :
  bind m k w = (Ret b, w') ->
  exists a w1, m w = (Ret a, w1) /\ k a w1 = (Ret b, w').
Proof.
  unfold bind. destruct (m w) as [[a|x|] w1]; intros H;
    [now exists a, w1 | discriminate H | discriminate H].
Qed.

Lemma poll_never_returns (fuel : nat) (offset : Z) (w w' : World Env)
    (a : unit) :
  poll ext fuel offset w <> (Ret a, w').
Proof.
  revert offset w w' a.
  induction fuel as [|fuel IH]; intros offset w w' a; cbn [poll].
  - discriminate.
  - intros H.
    do 5 (apply bind_ret_inv in H as (? & ? & _ & H)).
    now apply IH in H.
Qed.

(** What [serve_once] does once the loop has raised [x]: one record for
    the exception, one for the notification, the notification itself, and
    the report. *)
Lemma polling_after_exit (fuel : nat) (offset : Z) (w w1 : World Env)
    (x : exn) :
  poll ext fuel offset w = (Raise x, w1) ->
  polling ext fuel offset w
  = let w2 := logged w1 [exit_log x;
                         Log DEBUG "Triggering disconnect callback" [];
                         DisconnectCallback] in
    match disconnect_callback ext (env w1) with
    | (Ok _, e2) => (Ret (exit_report x), with_env w2 e2)
    | (Err y, e2) => (Raise y, with_env w2 e2)
    end.
Proof.
  intros H. cbn zeta.
  assert (Hbody : bind (poll ext fuel offset) (fun _ => ret None) w
                  = (Raise x, w1) :> outcome (option retval) * World Env).
  { unfold bind. now rewrite H. }
  assert (Hstmt : exists returned,
             exit_report x = match returned with Some v => v | None => RNone end
             /\ forall handler,
                 handler = (fun e =>
                   match e with
                   | KeyboardInterrupt =>
                       Some (bind (log INFO "Interrupt received, shutting down.." [])
                                  (fun _ => ret (Some RTrue)))
                   | _ =>
                       Some (bind (log_exception
                                     "Error reading from Telegram updates stream:" [] e)
                                  (fun _ => ret None))
                   end) ->
                 try_except (bind (poll ext fuel offset) (fun _ => ret None))
                            handler w
                 = (Ret returned, logged w1 [exit_log x])).
  { exists (match x with KeyboardInterrupt => Some RTrue | _ => None end).
    split; [now destruct x |].
    intros handler ->. unfold try_except. rewrite Hbody.
    destruct x; reflexivity. }
  destruct Hstmt as (returned & Hreport & Hstmt).
  unfold polling. unfold bind at 1. unfold try_finally.
  rewrite (Hstmt _ eq_refl).
  unfold bind at 1. unfold log at 1. unfold emit at 1.
  unfold invoke, bind, emit. cbn [env logged trace store token telegram bot_identifier].
  rewrite Hreport.
  destruct (disconnect_callback ext (env w1)) as [[[]|y] e2];
    unfold with_env, logged; cbn; rewrite <- ?app_assoc; cbn;
    destruct returned; reflexivity.
Qed.

Lemma polling_out_of_fuel (fuel : nat) (offset : Z) (w w1 : World Env) :
  poll ext fuel offset w = (OutOfFuel, w1) ->
  polling ext fuel offset w = (OutOfFuel, w1).
Proof.
  intros H. unfold polling, try_finally, try_except.
  unfold bind at 1. unfold bind at 1. now rewrite H.
Qed.

Lemma poll_fetch_error (fuel : nat) (offset : Z) (w : World Env)
    (client : string) (x : exn) (e : Env) :
  telegram w = Some client ->
  telegram_getUpdates ext offset 60 (env w) = (Err x, e) ->
  poll ext (S fuel) offset w
  = (Raise x,
     with_env (logged w [Log DEBUG "Getting updates with offset %s" [ArgInt offset];
                         GetUpdates offset 60]) e).
Proof.
  intros Hclient Hfetch. cbn [poll].
  change (bind (log DEBUG "Getting updates with offset %s" [ArgInt offset]) ?k w)
    with (k tt (logged w [Log DEBUG "Getting updates with offset %s" [ArgInt offset]])).
  cbn beta. unfold bind at 1. unfold get_telegram at 1.
  cbn [telegram logged]. rewrite Hclient.
  unfold bind at 1.
  rewrite (invoke_err _ (telegram_getUpdates ext offset 60)
             (logged w [Log DEBUG "Getting updates with offset %s" [ArgInt offset]])
             x e Hfetch).
  now rewrite logged_logged.
Qed.

(** C7. Whenever [serve_once] leaves the polling loop, the loop was ended
    by an exception, and the disconnect notification has been invoked
    exactly once since the loop was entered.  If the notification returns,
    the report is [True] when the exception was an interrupt and [None],
    which the host reads as a failure, for every other exception; an
    exception of the notification itself reaches the host instead.  A
    fetch that raises ends the loop with what it raised. *)
Theorem disconnect_once_on_exit (fuel : nat) (offset : Z) (w w' : World Env)
    (r : outcome retval) :
  polling ext fuel offset w = (r, w') ->
  r <> OutOfFuel ->
  disconnects (trace w') = S (disconnects (trace w))
  /\ (exists x w1,
        poll ext fuel offset w = (Raise x, w1)
        /\ match disconnect_callback ext (env w1) with
           | (Ok _, _) => r = Ret (exit_report x)
           | (Err y, _) => r = Raise y
           end)
  /\ (forall x, truthy (exit_report x) = true <-> x = KeyboardInterrupt)
  /\ (forall fuel' client x e,
        telegram w = Some client ->
        telegram_getUpdates ext offset 60 (env w) = (Err x, e) ->
        poll ext (S fuel') offset w
        = (Raise x,
           with_env (logged w [Log DEBUG "Getting updates with offset %s" [ArgInt offset];
                               GetUpdates offset 60]) e)).
Proof.
  intros Hrun Hr.
  destruct (poll ext fuel offset w) as [[a|x|] w1] eqn:Hp.
  - now apply poll_never_returns in Hp.
  - destruct (quiet_poll fuel offset _ _ _ Hp) as (evs & Htr & Hq).
    rewrite (polling_after_exit _ _ _ _ _ Hp) in Hrun. cbn zeta in Hrun.
    split; [| split; [| split]].
    + assert (Hw' : trace w'
                    = trace w ++ evs ++ [exit_log x;
                                         Log DEBUG "Triggering disconnect callback" [];
                                         DisconnectCallback]).
      { destruct (disconnect_callback ext (env w1)) as [[[]|y] e2];
          injection Hrun as _ <-; cbn; rewrite Htr;
          now rewrite <- app_assoc. }
      rewrite Hw', !disconnects_app, (disconnects_quiet _ Hq).
      assert (Hx : disconnects [exit_log x;
                                Log DEBUG "Triggering disconnect callback" [];
                                DisconnectCallback] = 1%nat)
        by now destruct x.
      rewrite Hx. lia.
    + exists x, w1. split; [reflexivity |].
      destruct (disconnect_callback ext (env w1)) as [[[]|y] e2];
        now injection Hrun as <- _.
    + intros y. split; [| now intros ->].
      destruct y; cbn; congruence.
    + intros. now apply poll_fetch_error with (client := client).
  - rewrite (polling_out_of_fuel _ _ _ _ Hp) in Hrun.
    injection Hrun as <- _. congruence.
Qed.
End Polling.

(** The operator interrupts the second fetch; the provider fails the
    second fetch. *)
Lemma disconnect_once_on_exit_witness :
  (let w := Demo.world [Ok Demo.batch] in
   let run := polling Demo.externals 3 0 w in
   fst run = Ret RTrue
   /\ disconnects (trace (snd run)) = S (disconnects (trace w))
   /\ exists x w1,
        poll Demo.externals 3 0 w = (Raise x, w1)
        /\ fst run = Ret (exit_report x))
  /\ (let w := Demo.world [Ok Demo.batch; Err (TelegramError "Timed out")] in
      let run := polling Demo.externals 3 0 w in
      fst run = Ret RNone
      /\ disconnects (trace (snd run)) = S (disconnects (trace w))
      /\ exists x w1,
           poll Demo.externals 3 0 w = (Raise x, w1)
           /\ fst run = Ret (exit_report x)).
Proof.
  split; intros w run;
    (assert (Hrun : fst run = Ret RTrue \/ fst run = Ret RNone)
       by (vm_compute; auto));
    (assert (Hfuel : fst run <> OutOfFuel)
       by (destruct Hrun as [-> | ->]; discriminate));
    pose proof (disconnect_once_on_exit Demo.externals 3 0 w (snd run) (fst run)
                  (surjective_pairing run) Hfuel) as T;
    (split; [vm_compute; reflexivity |]);
    exact (conj (proj1 T) (proj1 (proj2 T))).
Defined.

(** [serve_once] from a fresh back-end: an interrupt is reported as a
    clean shutdown, a failed fetch as a failure; the notification went out
    once, and the cursor of the batch stayed in the store. *)
Example serve_once_interrupted :
  let run := serve_once Demo.externals 5 (Demo.fresh [Ok Demo.batch]) in
  fst run = Ret RTrue
  /\ disconnects (trace (snd run)) = 1%nat
  /\ store (snd run) !! offset_key = Some 10.
Proof. vm_compute. repeat split. Qed.

Example serve_once_fetch_failed :
  let run := serve_once Demo.externals 5
               (Demo.fresh [Ok Demo.batch; Err (TelegramError "Timed out")]) in
  fst run = Ret RNone
  /\ truthy RNone = false
  /\ disconnects (trace (snd run)) = 1%nat
  /\ store (snd run) !! offset_key = Some 10.
Proof. vm_compute. repeat split. Qed.

(** Without an exception the loop is still polling when the fuel is used
    up, and no notification has gone out. *)
Example serve_once_still_polling :
  let run := serve_once Demo.externals 2
               (Demo.fresh [Ok Demo.batch; Ok []; Ok []]) in
  fst run = OutOfFuel /\ disconnects (trace (snd run)) = 0%nat.
Proof. vm_compute. repeat split. Qed.

(** * Further properties *)

(** ** Identifiers as text *)

Section IdentifierText.
Context (ud : UnicodeData).

Lemma decimal_digits_from_value (fuel : nat) (n : Z) (acc : list nat) :
  0 <= n < 10 ^ Z.of_nat (S fuel) ->
  Forall (fun d => (d < 10)%nat) acc ->
  let ds := decimal_digits_from (S fuel) n acc in
  decimal_value ds = n * 10 ^ Z.of_nat (length acc) + decimal_value acc
  /\ Forall (fun d => (d < 10)%nat) ds
  /\ ds <> [].
Proof.
  revert n acc. induction fuel as [|fuel IH]; intros n acc Hn Hacc.
  - cbn [decimal_digits_from].
    assert (n < 10) by (change (10 ^ Z.of_nat 1) with 10 in Hn; lia).
    destruct (Z.ltb_spec n 10); [| lia].
    cbn [decimal_value]. rewrite Z.mod_small, Z2Nat.id by lia.
    repeat split; [| discriminate].
    constructor; [lia | exact Hacc].
  - cbn [decimal_digits_from]. destruct (Z.ltb_spec n 10) as [Hlt | Hge].
    + cbn [decimal_value]. rewrite Z.mod_small, Z2Nat.id by lia.
      repeat split; [| discriminate].
      constructor; [lia | exact Hacc].
    + assert (Hmod : 0 <= n mod 10 < 10) by (apply Z.mod_pos_bound; lia).
      assert (Hdiv : 0 <= n / 10 < 10 ^ Z.of_nat (S fuel)).
      { split; [apply Z.div_pos; lia |].
        apply Z.div_lt_upper_bound; [lia |].
        rewrite <- Z.pow_succ_r by lia. now rewrite <- Nat2Z.inj_succ. }
      assert (Hacc' : Forall (fun d => (d < 10)%nat) (Z.to_nat (n mod 10) :: acc))
        by (constructor; [lia | exact Hacc]).
      destruct (IH (n / 10) _ Hdiv Hacc') as (Hv & Hall & Hne).
      cbn [decimal_digits_from] in Hv, Hall, Hne |- *.
      repeat split; [| exact Hall | exact Hne].
      rewrite Hv. cbn [length decimal_value].
      rewrite Z2Nat.id, Nat2Z.inj_succ, Z.pow_succ_r by lia.
      rewrite (Z.div_mod n 10) at 3 by lia. ring.
Qed.

Lemma decimal_digits_value (n : Z) :
  0 <= n ->
  decimal_value (decimal_digits n) = n
  /\ Forall (fun d => (d < 10)%nat) (decimal_digits n)
  /\ decimal_digits n <> [].
Proof.
  intros Hn. unfold decimal_digits.
  assert (Hb : 0 <= n < 10 ^ Z.of_nat (S (Z.to_nat (Z.log2 n)))).
  { split; [exact Hn |].
    rewrite Nat2Z.inj_succ, Z2Nat.id by apply Z.log2_nonneg.
    destruct (Z.eq_dec n 0) as [-> | Hpos]; [reflexivity |].
    apply Z.lt_le_trans with (2 ^ Z.succ (Z.log2 n)).
    - apply Z.log2_spec. lia.
    - apply Z.pow_le_mono_l. lia. }
  destruct (decimal_digits_from_value _ n [] Hb (List.Forall_nil _)) as (Hv & Hall & Hne).
  repeat split; [| exact Hall | exact Hne].
  rewrite Hv. cbn [length decimal_value]. change (Z.of_nat 0) with 0. lia.
Qed.

(** [str] of an integer is an integer text that denotes it. *)
Lemma str_int_integer (z : Z) : IntegerText ud (py_str_int z) z.
Proof.
  unfold py_str_int. destruct (Z.ltb_spec z 0) as [Hneg | Hpos].
  - destruct (decimal_digits_value (- z)) as (Hv & Hall & Hne); [lia |].
    pose proof (integer_text ud [] Minus _ _ []
                  (List.Forall_nil _) (List.Forall_nil _)
                  (digits_text_digits ud _ Hne Hall)) as H.
    rewrite app_nil_r, Hv in H. cbn in H.
    now rewrite Z.opp_involutive in H.
  - destruct (decimal_digits_value z) as (Hv & Hall & Hne); [lia |].
    pose proof (integer_text ud [] NoSign _ _ []
                  (List.Forall_nil _) (List.Forall_nil _)
                  (digits_text_digits ud _ Hne Hall)) as H.
    rewrite app_nil_r, Hv in H. exact H.
Qed.

Lemma int_str_int (z : Z) : py_int ud (py_strip ud (py_str_int z)) = Some z.
Proof. apply int_strip_complete, str_int_integer. Qed.

Lemma identity_of_id_id (n : Z) : identifier_id (identity_of_id n) = n.
Proof. unfold identity_of_id. now destruct (0 <? n). Qed.
End IdentifierText.

Section IdentifierRoundTrip.
Context {Env : Type} (ud : UnicodeData).

(** X1. Writing an identity with [str] and reading the text back with
    [build_identifier] always succeeds and gives an identity with the same
    id, so one that [==] the original: a person when the id is positive,
    a room otherwise, whatever the class of the original. *)
Theorem build_identifier_of_str (i : TelegramIdentifier) (w : World Env) :
  build_identifier ud (TelegramIdentifier_str i) w
  = (Ret (identity_of_id (identifier_id i)),
     logged w [Log DEBUG "building an identifier from %s"
                 [ArgText (TelegramIdentifier_str i)]])
  /\ TelegramIdentifier_eq (identity_of_id (identifier_id i)) i = true.
Proof.
  split.
  - rewrite build_identifier_run. unfold TelegramIdentifier_str.
    now rewrite int_str_int.
  - unfold TelegramIdentifier_eq. rewrite identity_of_id_id. apply Z.eqb_refl.
Qed.

(** X2. Two identities have the same text exactly when they are equal in
    the sense of [==]: [str] loses nothing of the id and shows nothing
    else. *)
Theorem str_agrees_with_eq (a b : TelegramIdentifier) :
  TelegramIdentifier_str a = TelegramIdentifier_str b
  <-> TelegramIdentifier_eq a b = true.
Proof.
  unfold TelegramIdentifier_str, TelegramIdentifier_eq. rewrite Z.eqb_eq.
  split; [| now intros ->].
  intros H. pose proof (int_str_int ud (identifier_id a)) as Ha.
  rewrite H, int_str_int in Ha. now injection Ha.
Qed.

(** X3. Whatever [build_identifier] returns is a person with a positive
    id or a room with an id that is zero or negative, never an occupant,
    and carries no name, username or title; the text is an integer text
    (blanks, an optional sign, decimal digits with at most one underscore
    between two of them, blanks) that denotes that id; the store, the
    back-end and the collaborators are as before, and the only way it
    fails is the [ValueError] for a text that is not an integer text. *)
Theorem build_identifier_result (txtrep : str) (w w' : World Env)
    (r : outcome TelegramIdentifier) :
  build_identifier ud txtrep w = (r, w') ->
  same_self w w' /\ env w' = env w
  /\ match r with
     | Ret (Person p) =>
         0 < person_id p /\ IntegerText ud txtrep (person_id p)
         /\ first_name p = None /\ last_name p = None /\ username p = None
     | Ret (Room room) =>
         room_id room <= 0 /\ IntegerText ud txtrep (room_id room)
         /\ title room = None
     | Ret (MUCOccupant _) => False
     | Raise x =>
         x = ValueError "Telegram identifiers must be numeric"
         /\ forall n, ~ IntegerText ud txtrep n
     | OutOfFuel => False
     end.
Proof.
  rewrite build_identifier_run. intros H. injection H as <- <-.
  split; [now repeat split |]. split; [reflexivity |].
  destruct (py_int ud (py_strip ud txtrep)) as [n|] eqn:Hn.
  - apply int_strip_sound in Hn. unfold identity_of_id.
    destruct (Z.ltb_spec 0 n); cbn; repeat split; trivial; lia.
  - split; [reflexivity |].
    intros n H. apply int_strip_complete in H. congruence.
Qed.

(** X4. Whitespace around the text makes no difference to the outcome of
    [build_identifier]. *)
Theorem build_identifier_ignores_blanks (before txtrep after : str)
    (w : World Env) :
  all_space ud before = true ->
  all_space ud after = true ->
  fst (build_identifier ud (before ++ txtrep ++ after) w)
  = fst (build_identifier ud txtrep w).
Proof.
  intros Hb Ha. rewrite !build_identifier_run. cbn [fst].
  now rewrite strip_surrounded.
Qed.
End IdentifierRoundTrip.

(** The text "0_042" between a no-break space and a line separator. *)
Lemma build_identifier_result_witness :
  let txtrep := [160; 48; 95; 48; 52; 50; 8232] in
  let run := build_identifier Demo.unicode txtrep (Demo.world []) in
  same_self (Demo.world []) (snd run)
  /\ env (snd run) = env (Demo.world [])
  /\ 0 < 42 /\ IntegerText Demo.unicode txtrep 42
  /\ @None string = None /\ @None string = None /\ @None string = None.
Proof.
  exact (build_identifier_result Demo.unicode [160; 48; 95; 48; 52; 50; 8232]
           (Demo.world [])
           (snd (build_identifier Demo.unicode [160; 48; 95; 48; 52; 50; 8232]
                   (Demo.world [])))
           (Ret (Person (mkTelegramPerson 42 None None None))) eq_refl).
Defined.

(** A blank and an em space before "-5", a tab and a line feed after. *)
Lemma build_identifier_ignores_blanks_witness :
  fst (build_identifier Demo.unicode ([32; 8195] ++ [45; 53] ++ [9; 10])
         (Demo.world []))
  = fst (build_identifier Demo.unicode [45; 53] (Demo.world [])).
Proof.
  exact (build_identifier_ignores_blanks Demo.unicode [32; 8195] [45; 53]
           [9; 10] (Demo.world []) eq_refl eq_refl).
Defined.

(** ** The log filter *)

(** X5. [TelegramBotFilter.filter] answers [0] for the record whose text is
    "No new updates found." and nothing ([None]) for every other record:
    no record ever gets a true answer from it. *)
Theorem filter_never_true (message : string) :
  py_truth (TelegramBotFilter_filter message) = false
  /\ (TelegramBotFilter_filter message = Some 0
      <-> message = "No new updates found.").
Proof.
  unfold TelegramBotFilter_filter.
  destruct (String.eqb_spec message "No new updates found.") as [-> | Hne].
  - now split.
  - split; [reflexivity |]. split; [discriminate | contradiction].
Qed.

(** ** What a run changes *)

Section Transitions.
Context {Env : Type} (R : World Env -> World Env -> Prop).
Hypothesis R_refl : forall w, R w w.
Hypothesis R_trans : forall a b c, R a b -> R b c -> R a c.

Lemma transition_still {A} (m : M Env A) :
  (forall w, snd (m w) = w) -> transition R m.
Proof.
  intros Hm w r w' H. specialize (Hm w). rewrite H in Hm. cbn in Hm.
  subst. apply R_refl.
Qed.

Lemma transition_step {A} (m : M Env A) :
  (forall w, R w (snd (m w))) -> transition R m.
Proof. intros Hm w r w' H. specialize (Hm w). now rewrite H in Hm. Qed.

Lemma transition_bind {A B} (m : M Env A) (k : A -> M Env B) :
  transition R m -> (forall a, transition R (k a)) -> transition R (bind m k).
Proof.
  intros Hm Hk w r w' H. unfold bind in H.
  destruct (m w) as [[a|x|] w1] eqn:Hmw; pose proof (Hm _ _ _ Hmw) as H1.
  - eapply R_trans; [exact H1 |]. eapply Hk, H.
  - now injection H as <- <-.
  - now injection H as <- <-.
Qed.

Lemma transition_try_except {A} (body : M Env A)
    (handler : exn -> option (M Env A)) :
  transition R body ->
  (forall x h, handler x = Some h -> transition R h) ->
  transition R (try_except body handler).
Proof.
  intros Hb Hh w r w' H. unfold try_except in H.
  destruct (body w) as [[a|x|] w1] eqn:Hbw; pose proof (Hb _ _ _ Hbw) as H1.
  - now injection H as <- <-.
  - destruct (handler x) as [h|] eqn:Hx.
    + eapply R_trans; [exact H1 |]. eapply Hh; eassumption.
    + now injection H as <- <-.
  - now injection H as <- <-.
Qed.

Lemma transition_try_finally {A} (body : M Env A) (final : M Env unit) :
  transition R body -> transition R final ->
  transition R (try_finally body final).
Proof.
  intros Hb Hf w r w' H. unfold try_finally in H.
  destruct (body w) as [[a|x|] w1] eqn:Hbw; pose proof (Hb _ _ _ Hbw) as H1.
  - destruct (final w1) as [[[]|y|] w2] eqn:Hfw;
      pose proof (Hf _ _ _ Hfw) as H2; injection H as <- <-;
      eapply R_trans; eassumption.
  - destruct (final w1) as [[[]|y|] w2] eqn:Hfw;
      pose proof (Hf _ _ _ Hfw) as H2; injection H as <- <-;
      eapply R_trans; eassumption.
  - now injection H as <- <-.
Qed.
End Transitions.

Section Frames.
Context {Env : Type} (ext : Externals Env).

Lemma same_self_refl (w : World Env) : same_self w w.
Proof. now repeat split. Qed.

Lemma same_self_trans (a b c : World Env) :
  same_self a b -> same_self b c -> same_self a c.
Proof.
  intros (H1 & H2 & H3 & H4) (H5 & H6 & H7 & H8).
  repeat split; congruence.
Qed.

Lemma cursor_frame_refl (w : World Env) : cursor_frame w w.
Proof. now split. Qed.

Lemma cursor_frame_trans (a b c : World Env) :
  cursor_frame a b -> cursor_frame b c -> cursor_frame a c.
Proof.
  intros (H1 & H2) (H3 & H4). split; [| congruence].
  intros key Hkey. now rewrite H3, H1.
Qed.

Lemma same_self_frame (a b : World Env) : same_self a b -> cursor_frame a b.
Proof. intros (H1 & H2 & _). split; [| exact H2]. intros key _. now rewrite H1. Qed.

Lemma same_self_invoke {A} (ev : event) (f : Env -> result A * Env) :
  transition same_self (invoke ev f).
Proof.
  apply transition_step. intros w. unfold invoke, bind, emit. cbn.
  destruct (f (env w)) as [[a|x] e]; now repeat split.
Qed.

Lemma same_self_call {A} (f : Env -> result A * Env) :
  transition same_self (call f).
Proof.
  apply transition_step. intros w. unfold call.
  destruct (f (env w)) as [[a|x] e]; now repeat split.
Qed.

Lemma same_self_emit (ev : event) : transition (Env := Env) same_self (emit ev).
Proof. apply transition_step. intros w. now repeat split. Qed.

Lemma same_self_get_bot_identifier :
  transition (Env := Env) same_self get_bot_identifier.
Proof.
  apply transition_still; [apply same_self_refl |].
  intros w. unfold get_bot_identifier. now destruct (bot_identifier w).
Qed.

Lemma same_self_get_telegram (attribute : string) :
  transition (Env := Env) same_self (get_telegram attribute).
Proof.
  apply transition_still; [apply same_self_refl |].
  intros w. unfold get_telegram. now destruct (telegram w).
Qed.

Lemma same_self_ret {A} (a : A) : transition (Env := Env) same_self (ret a).
Proof. apply transition_still; [apply same_self_refl | reflexivity]. Qed.

Lemma same_self_raise {A} (x : exn) :
  transition (Env := Env) (A := A) same_self (raise x).
Proof. apply transition_still; [apply same_self_refl | reflexivity]. Qed.
End Frames.

Section RunFrames.
Context {Env : Type} (ext : Externals Env).

Lemma transition_weaken {A} (R R' : World Env -> World Env -> Prop)
    (m : M Env A) :
  (forall a b, R a b -> R' a b) -> transition R m -> transition R' m.
Proof. intros HR Hm w r w' H. eapply HR, Hm, H. Qed.

Ltac same_self_steps :=
  repeat first
    [ apply same_self_invoke
    | apply same_self_call
    | apply same_self_emit
    | apply same_self_get_bot_identifier
    | apply same_self_get_telegram
    | apply same_self_ret
    | apply same_self_raise
    | apply (transition_bind same_self same_self_trans)
    | apply (transition_try_except same_self same_self_trans)
    | intro ].

Lemma same_self_handle_message (message : option TgMessage) :
  transition same_self (_handle_message ext message).
Proof.
  unfold _handle_message, log.
  destruct message as [message|]; [| same_self_steps].
  destruct (msg_text message); [| same_self_steps].
  apply (transition_bind same_self same_self_trans); [same_self_steps |].
  intros draft.
  apply (transition_bind same_self same_self_trans); [| same_self_steps].
  destruct (msg_chat message); same_self_steps.
Qed.

Lemma same_self_to_id (mess : Message) :
  transition (Env := Env) same_self (to_id mess).
Proof. unfold to_id. destruct (to mess); same_self_steps. Qed.

(** X6. [send_message] changes nothing of the store nor of the back-end
    object (token, client, bot identity), however it ends. *)
Theorem send_message_keeps_state (mess : Message) (w w' : World Env)
    (r : outcome unit) :
  send_message ext mess w = (r, w') -> same_self w w'.
Proof.
  revert w r w'. change (transition same_self (send_message ext mess)).
  unfold send_message, log_exception.
  apply (transition_bind same_self same_self_trans); [same_self_steps |].
  intros _.
  apply (transition_bind same_self same_self_trans); [same_self_steps |].
  intros body'.
  apply (transition_try_except same_self same_self_trans).
  - apply (transition_bind same_self same_self_trans); [same_self_steps |].
    intros _.
    apply (transition_bind same_self same_self_trans);
      [apply same_self_to_id | same_self_steps].
  - intros x h. destruct (is_Exception x); [| discriminate].
    intros [= <-].
    apply (transition_bind same_self same_self_trans);
      [apply same_self_to_id | same_self_steps].
Qed.

Lemma cursor_frame_setitem (value : Z) :
  transition (Env := Env) cursor_frame (setitem offset_key value).
Proof.
  apply transition_step. intros w. split; [| reflexivity].
  intros key Hkey. cbn. now apply lookup_insert_ne.
Qed.

Ltac cursor_frame_steps :=
  repeat first
    [ apply cursor_frame_setitem
    | apply (transition_weaken same_self cursor_frame _ same_self_frame);
      first [ apply same_self_invoke | apply same_self_emit
            | apply same_self_get_telegram | apply same_self_ret
            | apply same_self_raise | apply same_self_handle_message ]
    | apply (transition_bind cursor_frame cursor_frame_trans)
    | apply (transition_try_except cursor_frame cursor_frame_trans)
    | apply (transition_try_finally cursor_frame cursor_frame_trans)
    | intro ].

Lemma cursor_frame_for_updates (updates : list Update) (offset : Z) :
  transition cursor_frame (for_updates ext updates offset).
Proof.
  revert offset.
  induction updates as [|u rest IH]; intros offset; cbn [for_updates].
  - cursor_frame_steps.
  - apply (transition_bind cursor_frame cursor_frame_trans);
      [apply cursor_frame_setitem |].
    intros _. unfold log, log_exception.
    apply (transition_bind cursor_frame cursor_frame_trans);
      [cursor_frame_steps |].
    intros _. destruct (update_message u) as [message|].
    + apply (transition_bind cursor_frame cursor_frame_trans); [| auto].
      apply (transition_try_except cursor_frame cursor_frame_trans);
        [cursor_frame_steps |].
      intros x h. destruct (is_Exception x); [| discriminate].
      intros [= <-]. cursor_frame_steps.
    + apply (transition_bind cursor_frame cursor_frame_trans);
        [cursor_frame_steps | auto].
Qed.

Lemma cursor_frame_poll (fuel : nat) (offset : Z) :
  transition cursor_frame (poll ext fuel offset).
Proof.
  revert offset. induction fuel as [|fuel IH]; intros offset; cbn [poll].
  - apply transition_still; [apply cursor_frame_refl | reflexivity].
  - unfold log.
    apply (transition_bind cursor_frame cursor_frame_trans);
      [cursor_frame_steps |]. intros _.
    apply (transition_bind cursor_frame cursor_frame_trans);
      [cursor_frame_steps |]. intros _.
    apply (transition_bind cursor_frame cursor_frame_trans);
      [cursor_frame_steps |]. intros updates.
    apply (transition_bind cursor_frame cursor_frame_trans);
      [apply cursor_frame_for_updates |]. intros offset'.
    apply (transition_bind cursor_frame cursor_frame_trans);
      [cursor_frame_steps | auto].
Qed.

Lemma cursor_frame_polling (fuel : nat) (offset : Z) :
  transition cursor_frame (polling ext fuel offset).
Proof.
  unfold polling, log, log_exception.
  apply (transition_bind cursor_frame cursor_frame_trans).
  - apply (transition_try_finally cursor_frame cursor_frame_trans);
      [| cursor_frame_steps].
    apply (transition_try_except cursor_frame cursor_frame_trans).
    + apply (transition_bind cursor_frame cursor_frame_trans);
        [apply cursor_frame_poll | cursor_frame_steps].
    + intros x h Hh. destruct x; injection Hh as <-; cursor_frame_steps.
  - intros [v|]; cursor_frame_steps.
Qed.

(** X7. A run of [serve_once], however it ends and whatever the provider
    and the host do, writes no key of the store other than the cursor's,
    and leaves the token as it was. *)
Theorem serve_once_writes_only_cursor (fuel : nat) (w w' : World Env)
    (r : outcome retval) :
  serve_once ext fuel w = (r, w') -> cursor_frame w w'.
Proof.
  revert w r w'. change (transition cursor_frame (serve_once ext fuel)).
  unfold serve_once, log.
  apply (transition_bind cursor_frame cursor_frame_trans);
    [cursor_frame_steps |]. intros _.
  apply (transition_bind cursor_frame cursor_frame_trans).
  - apply (transition_try_except cursor_frame cursor_frame_trans).
    + apply (transition_bind cursor_frame cursor_frame_trans);
        [| cursor_frame_steps].
      apply transition_step. intros w. unfold connect_client, bind, invoke, emit.
      cbn. destruct (telegram_Bot ext (token w) (env w)) as [[[]|x] e];
        now split.
    + intros x h Hh. destruct x; try discriminate Hh.
      injection Hh as <-. cursor_frame_steps.
  - intros [me|]; [| cursor_frame_steps].
    apply (transition_bind cursor_frame cursor_frame_trans).
    { apply transition_step. intros w. now split. }
    intros _.
    apply (transition_bind cursor_frame cursor_frame_trans);
      [cursor_frame_steps |]. intros _.
    apply (transition_bind cursor_frame cursor_frame_trans);
      [cursor_frame_steps |]. intros _.
    apply (transition_bind cursor_frame cursor_frame_trans);
      [cursor_frame_steps |]. intros _.
    apply (transition_bind cursor_frame cursor_frame_trans);
      [| intros offset; apply cursor_frame_polling].
    apply (transition_try_except cursor_frame cursor_frame_trans).
    + apply transition_still; [apply cursor_frame_refl |].
      intros w. unfold getitem. now destruct (store w !! offset_key).
    + intros x h Hh. destruct x; try discriminate Hh.
      injection Hh as <-. cursor_frame_steps.
Qed.
End RunFrames.

(** ** The connection phase *)

Section Connection.
Context {Env : Type} (ext : Externals Env).

(** [serve_once] up to the loop, case by case on what the provider and the
    host answer. *)
Lemma serve_once_run (fuel : nat) (w : World Env) :
  serve_once ext fuel w
  = match telegram_Bot ext (token w) (env w) with
    | (Err x, e) =>
        connection_failed x
          (mkWorld e (store w) (token w) (telegram w) (bot_identifier w)
             (trace w ++ [Log INFO "Initializing connection" [];
                          TelegramBot (token w)]))
    | (Ok _, e) =>
        match telegram_getMe ext e with
        | (Err x, e1) =>
            connection_failed x
              (mkWorld e1 (store w) (token w) (Some (token w))
                 (bot_identifier w)
                 (trace w ++ [Log INFO "Initializing connection" [];
                              TelegramBot (token w); GetMe]))
        | (Ok me, e1) =>
            let connected :=
              [Log INFO "Initializing connection" []; TelegramBot (token w);
               GetMe; Log INFO "Connected" []; ResetReconnectionCount] in
            match reset_reconnection_count ext e1 with
            | (Err x, e2) =>
                (Raise x,
                 mkWorld e2 (store w) (token w) (Some (token w))
                   (Some (person_of_user me)) (trace w ++ connected))
            | (Ok _, e2) =>
                match connect_callback ext e2 with
                | (Err x, e3) =>
                    (Raise x,
                     mkWorld e3 (store w) (token w) (Some (token w))
                       (Some (person_of_user me))
                       (trace w ++ connected ++ [ConnectCallback]))
                | (Ok _, e3) =>
                    polling ext fuel (start_offset w)
                      (mkWorld e3 (store w) (token w) (Some (token w))
                         (Some (person_of_user me))
                         (trace w ++ connected ++ [ConnectCallback]))
                end
            end
        end
    end.
Proof.
  unfold serve_once. cbn zeta.
  unfold bind at 1. unfold log at 1. unfold emit at 1.
  unfold bind at 1. unfold try_except at 1. unfold bind at 1.
  unfold connect_client at 1. unfold bind at 1. unfold invoke at 1.
  unfold bind at 1. unfold emit at 1.
  cbn [env store token telegram bot_identifier trace].
  destruct (telegram_Bot ext (token w) (env w)) as [[[]|x] e].
  2:{ cbv beta iota. unfold connection_failed, logged, bind, log, emit, ret.
      cbn [env store token telegram bot_identifier trace].
      rewrite <- !app_assoc. destruct x; reflexivity. }
  cbn [env store token telegram bot_identifier trace].
  unfold bind at 1. unfold invoke at 1. unfold bind at 1. unfold emit at 1.
  cbn [env store token telegram bot_identifier trace].
  destruct (telegram_getMe ext e) as [[me|x] e1].
  2:{ cbv beta iota. unfold connection_failed, logged, bind, log, emit, ret.
      cbn [env store token telegram bot_identifier trace].
      rewrite <- !app_assoc. destruct x; reflexivity. }
  unfold ret at 1. cbv beta iota.
  unfold bind at 1. unfold set_bot_identifier at 1.
  cbn [env store token telegram bot_identifier trace].
  unfold bind at 1. unfold log at 1. unfold emit at 1.
  cbn [env store token telegram bot_identifier trace].
  unfold bind at 1. unfold invoke at 1. unfold bind at 1. unfold emit at 1.
  cbn [env store token telegram bot_identifier trace].
  destruct (reset_reconnection_count ext e1) as [[[]|x] e2].
  2:{ cbv beta iota. rewrite <- !app_assoc. reflexivity. }
  cbv beta iota.
  unfold bind at 1. unfold invoke at 1. unfold bind at 1. unfold emit at 1.
  cbn [env store token telegram bot_identifier trace].
  destruct (connect_callback ext e2) as [[[]|x] e3].
  2:{ cbv beta iota. rewrite <- !app_assoc. reflexivity. }
  cbv beta iota.
  unfold bind at 1. unfold try_except at 1. unfold getitem at 1.
  cbn [env store token telegram bot_identifier trace].
  unfold start_offset.
  destruct (store w !! offset_key) as [offset|];
    unfold ret; cbv beta iota; rewrite <- !app_assoc; reflexivity.
Qed.
End Connection.

(** ** What the loop does *)

Section LoopEvents.
Context {Env : Type} (ext : Externals Env).

Ltac loop_steps :=
  repeat first
    [ apply grows_invoke; first [exact I | reflexivity]
    | apply grows_emit; first [exact I | reflexivity]
    | apply grows_ret
    | apply grows_raise
    | apply grows_out_of_fuel
    | apply grows_bind
    | intro ].

Lemma loop_handle_message (message : option TgMessage) :
  grows loop_event (_handle_message ext message).
Proof.
  unfold _handle_message, log.
  destruct message as [message|]; [| loop_steps].
  destruct (msg_text message); [| loop_steps].
  apply grows_bind; [loop_steps |]. intros draft.
  apply grows_bind; [| loop_steps].
  destruct (msg_chat message); [| loop_steps].
  apply grows_bind; [| loop_steps].
  apply grows_silent. intros w. unfold get_bot_identifier.
  now destruct (bot_identifier w).
Qed.

Lemma loop_for_updates (updates : list Update) (offset : Z) :
  grows loop_event (for_updates ext updates offset).
Proof.
  revert offset.
  induction updates as [|u rest IH]; intros offset; cbn [for_updates].
  - loop_steps.
  - apply grows_bind.
    { unfold setitem. apply grows_bind; [loop_steps |].
      intros _. now apply grows_silent. }
    intros _. unfold log, log_exception.
    apply grows_bind; [loop_steps |].
    intros _. destruct (update_message u) as [message|].
    + apply grows_bind; [| auto].
      apply grows_try_except; [apply loop_handle_message |].
      intros x h. destruct (is_Exception x); [| discriminate].
      intros [= <-]. loop_steps.
    + apply grows_bind; [loop_steps | auto].
Qed.

Lemma loop_poll (fuel : nat) (offset : Z) :
  grows loop_event (poll ext fuel offset).
Proof.
  revert offset. induction fuel as [|fuel IH]; intros offset; cbn [poll].
  - loop_steps.
  - unfold log. apply grows_bind; [loop_steps |]. intros _.
    apply grows_bind.
    { apply grows_silent. intros w. unfold get_telegram.
      now destruct (telegram w). }
    intros _. apply grows_bind; [loop_steps |]. intros updates.
    apply grows_bind; [apply loop_for_updates |]. intros offset'.
    apply grows_bind; [loop_steps | auto].
Qed.

(** X8. The polling loop never ends by returning, and whatever it does is
    a log record, a write of the cursor under the fixed key, a fetch with
    the timeout 60, or the normalizer building a draft and handing a
    message to the host: it never transmits, never touches another key,
    and never invokes the connect or disconnect notification. *)
Theorem poll_only_polls (fuel : nat) (offset : Z) (w w' : World Env)
    (r : outcome unit) :
  poll ext fuel offset w = (r, w') ->
  returned r = false
  /\ exists evs, trace w' = trace w ++ evs /\ Forall loop_event evs.
Proof.
  intros H. split.
  - destruct r as [[]| |]; [| reflexivity | reflexivity].
    now apply poll_never_returns in H.
  - eapply loop_poll, H.
Qed.

Lemma loop_event_counts (evs : list event) :
  Forall loop_event evs ->
  connects evs = 0%nat /\ disconnects evs = 0%nat /\ sends evs = 0%nat.
Proof.
  unfold connects, disconnects, sends.
  induction 1 as [|ev evs Hev _ IH]; [now repeat split |].
  destruct ev; try contradiction; exact IH.
Qed.
End LoopEvents.

(** ** The life cycle of a run *)

Section Lifecycle.
Context {Env : Type} (ext : Externals Env).

Lemma connects_app (a b : list event) :
  connects (a ++ b) = (connects a + connects b)%nat.
Proof. unfold connects. now rewrite List.filter_app, length_app. Qed.

Lemma disconnects_append (a b : list event) :
  disconnects (a ++ b) = (disconnects a + disconnects b)%nat.
Proof. unfold disconnects. now rewrite List.filter_app, length_app. Qed.

(** The events of [serve_once] from the moment it enters the loop. *)
Lemma polling_events (fuel : nat) (offset : Z) (w w' : World Env)
    (r : outcome retval) :
  polling ext fuel offset w = (r, w') ->
  exists evs,
    trace w' = trace w ++ evs
    /\ connects evs = 0%nat
    /\ (disconnects evs <= 1)%nat
    /\ r <> Ret RFalse.
Proof.
  intros Hrun.
  destruct (poll ext fuel offset w) as [[a|x|] w1] eqn:Hp.
  - now apply poll_never_returns in Hp.
  - destruct (loop_poll ext fuel offset _ _ _ Hp) as (evs & Htr & Hloop).
    destruct (loop_event_counts evs Hloop) as (Hc & Hd & _).
    rewrite (polling_after_exit _ _ _ _ _ _ Hp) in Hrun. cbn zeta in Hrun.
    exists (evs ++ [exit_log x; Log DEBUG "Triggering disconnect callback" [];
                    DisconnectCallback]).
    assert (Hx : connects [exit_log x;
                           Log DEBUG "Triggering disconnect callback" [];
                           DisconnectCallback] = 0%nat
                 /\ disconnects [exit_log x;
                                 Log DEBUG "Triggering disconnect callback" [];
                                 DisconnectCallback] = 1%nat
                 /\ exit_report x <> RFalse)
      by (destruct x; repeat split; discriminate).
    destruct Hx as (Hxc & Hxd & Hxr).
    rewrite connects_app, disconnects_append, Hc, Hd, Hxc, Hxd.
    destruct (disconnect_callback ext (env w1)) as [[[]|y] e2];
      injection Hrun as <- <-; cbn [trace with_env logged];
      rewrite Htr, <- app_assoc; repeat split; try lia; congruence.
  - destruct (loop_poll ext fuel offset _ _ _ Hp) as (evs & Htr & Hloop).
    destruct (loop_event_counts evs Hloop) as (Hc & Hd & _).
    rewrite (polling_out_of_fuel _ _ _ _ _ Hp) in Hrun.
    injection Hrun as <- <-. exists evs.
    repeat split; try assumption; [lia | discriminate].
Qed.

(** X9. In every run of [serve_once], whatever the provider and the host
    do: the connect notification is invoked at most once, the disconnect
    notification at most once and only if the connect notification was;
    and when the run reports [False] it consisted of connection events
    alone (no notification, no fetch, no dispatch, no cursor write). *)
Theorem serve_once_lifecycle (fuel : nat) (w w' : World Env)
    (r : outcome retval) :
  serve_once ext fuel w = (r, w') ->
  exists evs,
    trace w' = trace w ++ evs
    /\ (disconnects evs <= connects evs)%nat
    /\ (connects evs <= 1)%nat
    /\ (r = Ret RFalse -> Forall startup_event evs).
Proof.
  rewrite serve_once_run. intros Hrun.
  assert (Hfail : forall x w0 evs0,
             connection_failed x w0 = (r, w') ->
             trace w0 = trace w ++ evs0 ->
             connects evs0 = 0%nat -> disconnects evs0 = 0%nat ->
             Forall startup_event evs0 ->
             exists evs,
               trace w' = trace w ++ evs
               /\ (disconnects evs <= connects evs)%nat
               /\ (connects evs <= 1)%nat
               /\ (r = Ret RFalse -> Forall startup_event evs)).
  { intros x w0 evs0 Hf Htr Hc Hd Hs. unfold connection_failed in Hf.
    destruct x;
      try (injection Hf as <- <-; exists evs0;
           repeat split; [exact Htr | lia | lia | discriminate]).
    injection Hf as <- <-.
    exists (evs0 ++ [Log ERROR "Connection failure: %s" [ArgStr message]]).
    cbn [trace logged]. rewrite Htr, <- app_assoc.
    rewrite connects_app, disconnects_append, Hc, Hd.
    repeat split; [cbn; lia | cbn; lia |].
    intros _. apply Forall_app. split; [exact Hs | now repeat constructor]. }
  destruct (telegram_Bot ext (token w) (env w)) as [[[]|x] e].
  2:{ eapply Hfail; [exact Hrun | reflexivity | reflexivity | reflexivity |].
      now repeat constructor. }
  destruct (telegram_getMe ext e) as [[me|x] e1].
  2:{ eapply Hfail; [exact Hrun | reflexivity | reflexivity | reflexivity |].
      now repeat constructor. }
  cbn zeta in Hrun.
  destruct (reset_reconnection_count ext e1) as [[[]|x] e2].
  2:{ injection Hrun as <- <-. eexists. split; [reflexivity |].
      repeat split; [cbn; lia | cbn; lia | discriminate]. }
  destruct (connect_callback ext e2) as [[[]|x] e3].
  2:{ injection Hrun as <- <-. eexists. split; [reflexivity |].
      repeat split; [cbn; lia | cbn; lia | discriminate]. }
  apply polling_events in Hrun as (evs & Htr & Hc & Hd & Hr).
  cbn [trace] in Htr.
  exists (([Log INFO "Initializing connection" []; TelegramBot (token w);
            GetMe; Log INFO "Connected" []; ResetReconnectionCount]
           ++ [ConnectCallback]) ++ evs).
  split; [rewrite Htr, <- !app_assoc; reflexivity |].
  rewrite connects_app, disconnects_append, Hc.
  repeat split; [cbn; lia | cbn; lia | contradiction].
Qed.

(** X10. When building the client, or asking the provider who the bot is,
    raises a [TelegramError], [serve_once] logs the error's message and
    returns [False]: no notification is invoked, nothing is fetched, and
    the store and the bot identity are untouched (the client stays
    assigned when only the second call failed). *)
Theorem connection_refused (fuel : nat) (w : World Env) (message : string)
    (e : Env) :
  (telegram_Bot ext (token w) (env w) = (Err (TelegramError message), e) ->
   serve_once ext fuel w
   = (Ret RFalse,
      mkWorld e (store w) (token w) (telegram w) (bot_identifier w)
        (trace w ++ [Log INFO "Initializing connection" [];
                     TelegramBot (token w);
                     Log ERROR "Connection failure: %s" [ArgStr message]])))
  /\ (forall e0,
        telegram_Bot ext (token w) (env w) = (Ok tt, e0) ->
        telegram_getMe ext e0 = (Err (TelegramError message), e) ->
        serve_once ext fuel w
        = (Ret RFalse,
           mkWorld e (store w) (token w) (Some (token w)) (bot_identifier w)
             (trace w ++ [Log INFO "Initializing connection" [];
                          TelegramBot (token w); GetMe;
                          Log ERROR "Connection failure: %s" [ArgStr message]]))).
Proof.
  split.
  - intros H. rewrite serve_once_run, H. unfold connection_failed, logged.
    cbn [env store token telegram bot_identifier trace].
    now rewrite <- app_assoc.
  - intros e0 H0 H. rewrite serve_once_run, H0, H.
    unfold connection_failed, logged.
    cbn [env store token telegram bot_identifier trace].
    now rewrite <- app_assoc.
Qed.

(** X11. An exception of the connection phase that is not a
    [TelegramError] is neither caught nor logged: it reaches the host, and
    no notification has been invoked. *)
Theorem connection_error_propagates (fuel : nat) (w : World Env) (x : exn)
    (e : Env) :
  is_TelegramError x = false ->
  (telegram_Bot ext (token w) (env w) = (Err x, e) ->
   serve_once ext fuel w
   = (Raise x,
      mkWorld e (store w) (token w) (telegram w) (bot_identifier w)
        (trace w ++ [Log INFO "Initializing connection" [];
                     TelegramBot (token w)])))
  /\ (forall e0,
        telegram_Bot ext (token w) (env w) = (Ok tt, e0) ->
        telegram_getMe ext e0 = (Err x, e) ->
        serve_once ext fuel w
        = (Raise x,
           mkWorld e (store w) (token w) (Some (token w)) (bot_identifier w)
             (trace w ++ [Log INFO "Initializing connection" [];
                          TelegramBot (token w); GetMe]))).
Proof.
  intros Hx. split.
  - intros H. rewrite serve_once_run, H.
    destruct x; try reflexivity. discriminate Hx.
  - intros e0 H0 H. rewrite serve_once_run, H0, H.
    destruct x; try reflexivity. discriminate Hx.
Qed.

(** X12. After a connection that succeeded, [serve_once] holds the client,
    has stored as the bot's identity the person built from the provider's
    answer, has reset the reconnection count and invoked the connect
    notification once, in this order, and it enters the loop at the cursor
    the store holds, or at 0 when the store holds none. *)
Theorem connection_made (fuel : nat) (w : World Env) (me : User)
    (e0 e1 e2 e3 : Env) :
  telegram_Bot ext (token w) (env w) = (Ok tt, e0) ->
  telegram_getMe ext e0 = (Ok me, e1) ->
  reset_reconnection_count ext e1 = (Ok tt, e2) ->
  connect_callback ext e2 = (Ok tt, e3) ->
  serve_once ext fuel w
  = polling ext fuel
      (match store w !! offset_key with
       | Some offset => offset
       | None => 0
       end)
      (mkWorld e3 (store w) (token w) (Some (token w))
         (Some (mkTelegramPerson (user_id me) (user_first_name me)
                  (user_last_name me) (user_username me)))
         (trace w ++ [Log INFO "Initializing connection" [];
                      TelegramBot (token w); GetMe; Log INFO "Connected" [];
                      ResetReconnectionCount; ConnectCallback])).
Proof.
  intros H0 H1 H2 H3. now rewrite serve_once_run, H0, H1, H2, H3.
Qed.
End Lifecycle.

(** ** Batches and fetches *)

Section Fetches.
Context {Env : Type} (ext : Externals Env).

(** X13. When handling an update raises something that is not an
    [Exception] (an interrupt), the batch is abandoned there: the exception
    leaves the loop over the batch, no later update of the batch is
    processed, and the store holds the cursor of the interrupted update,
    which will therefore not be fetched again. *)
Theorem batch_abandoned_on_interrupt (u : Update) (rest : list Update)
    (offset : Z) (w w2 : World Env) (message : option TgMessage) (x : exn) :
  update_message u = Some message ->
  _handle_message ext message
    (logged (stored w offset_key (update_id u + 1))
       [SetItem offset_key (update_id u + 1);
        Log DEBUG "Processing update: %s" [ArgUpdate u]])
  = (Raise x, w2) ->
  is_Exception x = false ->
  for_updates ext (u :: rest) offset w = (Raise x, w2)
  /\ store w2 !! offset_key = Some (update_id u + 1).
Proof.
  intros Hu Hrun Hx. split.
  - rewrite for_updates_step. cbn zeta. now rewrite Hu, Hrun, Hx.
  - destruct (same_self_handle_message ext message _ _ _ Hrun) as (Hs & _).
    rewrite Hs. cbn. apply lookup_insert_eq.
Qed.

(** X14. When a fetch answers with a batch and the host raises nothing but
    [Exception]s, the loop goes round: the next fetch asks from the cursor
    of the last update of the batch, which is also what the store holds;
    after an empty batch it asks from the same offset again and the store
    is as it was. *)
Theorem poll_next_fetch (fuel : nat) (offset : Z) (w : World Env)
    (client : string) (updates : list Update) (e : Env) :
  (forall text e0 x e1,
      build_message ext text e0 = (Err x, e1) -> is_Exception x = true) ->
  (forall m e0 x e1,
      callback_message ext m e0 = (Err x, e1) -> is_Exception x = true) ->
  telegram w = Some client ->
  telegram_getUpdates ext offset 60 (env w) = (Ok updates, e) ->
  exists w2,
    poll ext (S fuel) offset w = poll ext fuel (cursor_after updates offset) w2
    /\ store w2 !! offset_key
       = match updates with
         | [] => store w !! offset_key
         | _ => Some (cursor_after updates offset)
         end.
Proof.
  intros Hb Hc Hclient Hfetch. cbn [poll].
  change (bind (log DEBUG "Getting updates with offset %s" [ArgInt offset]) ?k w)
    with (k tt (logged w [Log DEBUG "Getting updates with offset %s" [ArgInt offset]])).
  cbn beta. unfold bind at 1. unfold get_telegram at 1.
  cbn [telegram logged]. rewrite Hclient.
  unfold bind at 1.
  rewrite (invoke_ok _ (telegram_getUpdates ext offset 60)
             (logged w [Log DEBUG "Getting updates with offset %s" [ArgInt offset]])
             updates e Hfetch).
  set (w1 := with_env _ e).
  destruct (for_updates_run ext updates offset w1)
    as (r & w2 & evs & Hrun & _ & _ & Hr).
  unfold bind at 1. rewrite Hrun.
  destruct r as [z|x|]; [| | contradiction].
  - destruct Hr as [-> Hs].
    exists (logged w2 [Log DEBUG "All updates processed, new offset is %s"
                         [ArgInt (cursor_after updates offset)]]).
    split; [reflexivity |]. cbn [store logged]. exact Hs.
  - destruct Hr as [Hx [(text & e0 & e1 & H) | (m & e0 & e1 & H)]].
    + apply Hb in H. congruence.
    + apply Hc in H. congruence.
Qed.
End Fetches.

(** ** Sending and replying *)

Section Sending.
Context {Env : Type} (ext : Externals Env).

(** [send_message], case by case on what the host, the renderer and the
    provider answer. *)
Lemma send_message_run (mess : Message) (w : World Env) :
  let world e evs :=
    mkWorld e (store w) (token w) (telegram w) (bot_identifier w)
            (trace w ++ evs) in
  send_message ext mess w
  = match ErrBot_send_message ext mess (env w) with
    | (Err x, e1) => (Raise x, world e1 [ErrBotSendMessage mess])
    | (Ok _, e1) =>
        match md_converter_convert ext (body mess) e1 with
        | (Err x, e2) =>
            (Raise x, world e2 [ErrBotSendMessage mess; MdConvert (body mess)])
        | (Ok body', e2) =>
            match to mess with
            | None =>
                (Raise (AttributeError "'NoneType' object has no attribute 'id'"),
                 world e2 [ErrBotSendMessage mess; MdConvert (body mess)])
            | Some recipient =>
                let chat := identifier_id recipient in
                match telegram w with
                | None =>
                    (Raise (AttributeError "'NoneType' object has no attribute 'sendMessage'"),
                     world e2
                       [ErrBotSendMessage mess; MdConvert (body mess);
                        LogException send_failure_format
                          [ArgInt chat; ArgStr (body mess)]
                          (AttributeError "'NoneType' object has no attribute 'sendMessage'")])
                | Some _ =>
                    match telegram_sendMessage ext chat body' e2 with
                    | (Ok _, e3) =>
                        (Ret tt,
                         world e3 [ErrBotSendMessage mess; MdConvert (body mess);
                                   SendMessage chat body'])
                    | (Err x, e3) =>
                        (Raise x,
                         world e3
                           ([ErrBotSendMessage mess; MdConvert (body mess);
                             SendMessage chat body']
                            ++ if is_Exception x then
                                 [LogException send_failure_format
                                    [ArgInt chat; ArgStr (body mess)] x]
                               else []))
                    end
                end
            end
        end
    end.
Proof.
  cbn zeta. unfold send_message, send_failure_format.
  unfold bind at 1. unfold invoke at 1. unfold bind at 1. unfold emit at 1.
  cbn [env store token telegram bot_identifier trace].
  destruct (ErrBot_send_message ext mess (env w)) as [[[]|x] e1];
    [| reflexivity].
  unfold bind at 1. unfold invoke at 1. unfold bind at 1. unfold emit at 1.
  cbn [env store token telegram bot_identifier trace].
  destruct (md_converter_convert ext (body mess) e1) as [[body'|x] e2];
    [| cbv beta iota; now rewrite <- app_assoc].
  cbv beta iota. unfold try_except, to_id, get_telegram.
  unfold bind at 1. cbn [env store token telegram bot_identifier trace].
  destruct (to mess) as [recipient|], (telegram w) as [client|];
    unfold bind, raise, ret, log_exception, emit, invoke, bind, emit;
    cbn [env store token telegram bot_identifier trace is_Exception];
    rewrite <- ?app_assoc; try reflexivity.
  destruct (telegram_sendMessage ext (identifier_id recipient) body' e2)
    as [[[]|x] e3]; cbv beta iota; [reflexivity |].
  destruct (is_Exception x);
    cbn [env store token telegram bot_identifier trace];
    rewrite <- ?app_assoc, ?app_nil_r; reflexivity.
Qed.
End Sending.

Section SendingProperties.
Context {Env : Type} (ext : Externals Env).

Lemma sends_app (a b : list event) :
  sends (a ++ b) = (sends a + sends b)%nat.
Proof. unfold sends. now rewrite List.filter_app, length_app. Qed.

(** X15. [send_message] never transmits twice, and it returns normally only
    after exactly one transmission, to the id of the recipient, of the
    text the renderer returned for the body of the message, the renderer
    having been called once the host's own [send_message] had returned. *)
Theorem send_message_at_most_once (mess : Message) (w w' : World Env)
    (r : outcome unit) :
  send_message ext mess w = (r, w') ->
  exists evs,
    trace w' = trace w ++ evs
    /\ (sends evs <= 1)%nat
    /\ match r with
       | Ret _ =>
           exists recipient body' e1 e2,
             to mess = Some recipient
             /\ ErrBot_send_message ext mess (env w) = (Ok tt, e1)
             /\ md_converter_convert ext (body mess) e1 = (Ok body', e2)
             /\ List.filter is_send evs
                = [SendMessage (identifier_id recipient) body']
       | Raise _ => True
       | OutOfFuel => False
       end.
Proof.
  rewrite send_message_run. cbn zeta. intros H.
  destruct (ErrBot_send_message ext mess (env w)) as [[[]|x] e1] eqn:Hhost.
  2:{ injection H as <- <-. eexists. split; [reflexivity |]. cbn. split; [lia | exact I]. }
  destruct (md_converter_convert ext (body mess) e1) as [[body'|x] e2] eqn:Hmd.
  2:{ injection H as <- <-. eexists. split; [reflexivity |]. cbn. split; [lia | exact I]. }
  destruct (to mess) as [recipient|].
  2:{ injection H as <- <-. eexists. split; [reflexivity |]. cbn. split; [lia | exact I]. }
  destruct (telegram w) as [client|].
  2:{ injection H as <- <-. eexists. split; [reflexivity |]. cbn. split; [lia | exact I]. }
  cbn zeta in H.
  destruct (telegram_sendMessage ext (identifier_id recipient) body' e2)
    as [[[]|x] e3]; injection H as <- <-.
  - eexists. split; [reflexivity |]. cbn. split; [lia |].
    now exists recipient, body', e1, e2.
  - destruct (is_Exception x); eexists; (split; [reflexivity |]);
      cbn; (split; [lia | exact I]).
Qed.

(** X16. A message without a recipient is never transmitted: once the
    host's own [send_message] and the renderer have returned,
    [send_message] raises [AttributeError], and that failure is not
    logged, because the log text itself needs the recipient. *)
Theorem send_message_without_recipient (mess : Message) (w : World Env)
    (body' : string) (e1 e2 : Env) :
  to mess = None ->
  ErrBot_send_message ext mess (env w) = (Ok tt, e1) ->
  md_converter_convert ext (body mess) e1 = (Ok body', e2) ->
  send_message ext mess w
  = (Raise (AttributeError "'NoneType' object has no attribute 'id'"),
     with_env (logged w [ErrBotSendMessage mess; MdConvert (body mess)]) e2).
Proof.
  intros Hto Hhost Hmd. rewrite send_message_run. cbn zeta.
  now rewrite Hhost, Hmd, Hto.
Qed.

(** X17. Before [serve_once] has built the client, [send_message] transmits
    nothing: it raises [AttributeError], after logging the failure with
    the recipient id and the body. *)
Theorem send_message_before_connection (mess : Message) (w : World Env)
    (recipient : TelegramIdentifier) (body' : string) (e1 e2 : Env) :
  telegram w = None ->
  to mess = Some recipient ->
  ErrBot_send_message ext mess (env w) = (Ok tt, e1) ->
  md_converter_convert ext (body mess) e1 = (Ok body', e2) ->
  send_message ext mess w
  = (Raise (AttributeError "'NoneType' object has no attribute 'sendMessage'"),
     with_env
       (logged w
          [ErrBotSendMessage mess; MdConvert (body mess);
           LogException
             "An exception occurred while trying to send the following message to %s: %s"
             [ArgInt (identifier_id recipient); ArgStr (body mess)]
             (AttributeError "'NoneType' object has no attribute 'sendMessage'")])
       e2).
Proof.
  intros Hclient Hto Hhost Hmd. rewrite send_message_run. cbn zeta.
  rewrite Hhost, Hmd, Hto. unfold with_env, logged.
  cbn [env store token telegram bot_identifier trace].
  now rewrite Hclient.
Qed.
End SendingProperties.

Section Replying.
Context {Env : Type} (ext : Externals Env).

(** X18. The reply to a message as the normalizer builds it comes from the
    bot and carries the body of the host's draft.  It goes to the user who
    wrote when the reply is private or the host calls the message direct,
    and otherwise to the recipient of the message: the group for a group
    chat. *)
Theorem reply_goes_back (is_direct : Message -> bool) (message : TgMessage)
    (me : TelegramPerson) (content text : string) (private : bool)
    (draft : Message) (e : Env) (w : World Env) :
  build_message ext text (env w) = (Ok draft, e) ->
  bot_identifier w = Some me ->
  let inbound := mkMessage content (Some (sender_of message))
                           (Some (recipient_of message me)) in
  exists reply,
    build_reply ext is_direct inbound text private w
    = (Ret reply, with_env (logged w [BuildMessage text]) e)
    /\ body reply = body draft
    /\ frm reply = Some (Person me)
    /\ identifier_id <$> to reply
       = Some (if private || is_direct inbound
               then user_id (msg_from_user message)
               else match msg_chat message with
                    | ChatUser _ => person_id me
                    | ChatGroup g => chat_id g
                    end).
Proof.
  intros Hdraft Hme inbound.
  unfold build_reply. unfold bind at 1.
  rewrite (invoke_ok _ (build_message ext text) w draft e Hdraft).
  unfold bind, get_bot_identifier, ret.
  cbn [bot_identifier with_env logged]. rewrite Hme.
  eexists. split; [reflexivity |]. cbn [body frm to set_frm].
  split; [reflexivity |]. split; [reflexivity |].
  destruct private, (is_direct inbound); cbn [orb];
    unfold inbound, sender_of, recipient_of; cbn [to frm];
    destruct (msg_chat message) as [u|g]; reflexivity.
Qed.
End Replying.

Section Prefixing.
Context {Env : Type}.
Variable ErrBot_prefix_groupchat_reply :
  Message -> TelegramPerson -> Env -> result Message * Env.

(** X19. [prefix_groupchat_reply] puts "@", the user name of the person, a
    colon and a blank in front of the body the host left, and changes
    nothing else of the message; for a person without a user name the
    prefix reads "@None: ".  An exception of the host goes through. *)
Theorem prefix_groupchat_reply_body (message : Message)
    (identifier : TelegramPerson) (w : World Env) :
  match ErrBot_prefix_groupchat_reply message identifier (env w) with
  | (Ok patched, e) =>
      prefix_groupchat_reply ErrBot_prefix_groupchat_reply message identifier w
      = (Ret (mkMessage
                (match username identifier with
                 | Some name => "@" +:+ name +:+ ": " +:+ body patched
                 | None => "@None: " +:+ body patched
                 end)
                (frm patched) (to patched)),
         with_env w e)
  | (Err x, e) =>
      prefix_groupchat_reply ErrBot_prefix_groupchat_reply message identifier w
      = (Raise x, with_env w e)
  end.
Proof.
  unfold prefix_groupchat_reply, bind, call, nick, py_str_opt, ret, with_env.
  destruct (ErrBot_prefix_groupchat_reply message identifier (env w))
    as [[patched|x] e]; [| reflexivity].
  now destruct (username identifier).
Qed.
End Prefixing.

(** ** Equality of identities *)

(** X20. [==] is an equivalence on identity objects of all classes: every
    identity equals itself, the order of the operands does not matter, and
    two identities equal to a third are equal. *)
Theorem identity_eq_equivalence (a b c : TelegramIdentifier) :
  TelegramIdentifier_eq a a = true
  /\ TelegramIdentifier_eq a b = TelegramIdentifier_eq b a
  /\ (TelegramIdentifier_eq a b = true ->
      TelegramIdentifier_eq b c = true ->
      TelegramIdentifier_eq a c = true).
Proof.
  unfold TelegramIdentifier_eq. split; [apply Z.eqb_refl |].
  split; [apply Z.eqb_sym |].
  rewrite !Z.eqb_eq. congruence.
Qed.

(** ** Idle polling *)

Section IdlePolling.
Context {Env : Type} (ext : Externals Env).

(** X21. While the provider answers every fetch from this offset with an
    empty batch, the loop does not end on its own, however long it runs:
    it keeps asking from the same offset, and it writes nothing to the
    store. *)
Theorem idle_polling_goes_on (fuel : nat) (offset : Z) (w : World Env)
    (client : string) :
  (forall e, exists e', telegram_getUpdates ext offset 60 e = (Ok [], e')) ->
  telegram w = Some client ->
  exists w',
    poll ext fuel offset w = (OutOfFuel, w')
    /\ store w' = store w
    /\ exists evs,
         trace w' = trace w ++ evs
         /\ List.filter is_fetch evs = repeat (GetUpdates offset 60) fuel.
Proof.
  intros Hidle. revert w.
  induction fuel as [|fuel IH]; intros w Hclient.
  - exists w. split; [reflexivity |]. split; [reflexivity |].
    exists []. now rewrite app_nil_r.
  - destruct (Hidle (env w)) as (e & Hfetch). cbn [poll].
    change (bind (log DEBUG "Getting updates with offset %s" [ArgInt offset]) ?k w)
      with (k tt (logged w [Log DEBUG "Getting updates with offset %s" [ArgInt offset]])).
    cbn beta. unfold bind at 1. unfold get_telegram at 1.
    cbn [telegram logged]. rewrite Hclient.
    unfold bind at 1.
    rewrite (invoke_ok _ (telegram_getUpdates ext offset 60)
               (logged w [Log DEBUG "Getting updates with offset %s" [ArgInt offset]])
               [] e Hfetch).
    cbn [for_updates]. unfold bind at 1. unfold ret at 1.
    change (bind (log DEBUG "All updates processed, new offset is %s" [ArgInt offset]) ?k ?w0)
      with (k tt (logged w0 [Log DEBUG "All updates processed, new offset is %s" [ArgInt offset]])).
    cbn beta.
    match goal with
    | |- context [poll ext fuel offset ?w0] =>
        destruct (IH w0 Hclient) as (w' & Hrun & Hstore & evs & Htr & Hfetches)
    end.
    exists w'. split; [exact Hrun |]. split; [exact Hstore |].
    exists ([Log DEBUG "Getting updates with offset %s" [ArgInt offset];
             GetUpdates offset 60;
             Log DEBUG "All updates processed, new offset is %s" [ArgInt offset]]
            ++ evs).
    split.
    + rewrite Htr. cbn [trace logged with_env]. now rewrite <- !app_assoc.
    + cbn [app List.filter is_fetch repeat]. now rewrite Hfetches.
Qed.
End IdlePolling.

(** ** The further properties on the scripted hosts *)

Lemma send_message_keeps_state_witness :
  let w := Demo.world [] in
  same_self w
    (snd (send_message Demo.externals
            (mkMessage "lost" None (Some (Room (mkTelegramRoom 0 None)))) w)).
Proof.
  intros w.
  exact (send_message_keeps_state Demo.externals _ w _ _ (surjective_pairing _)).
Defined.

Lemma serve_once_writes_only_cursor_witness :
  let w := mkWorld [Ok Demo.batch] {["plugin_setting" := 3]} "TOKEN" None None [] in
  cursor_frame w (snd (serve_once Demo.externals 3 w)).
Proof.
  intros w.
  exact (serve_once_writes_only_cursor Demo.externals 3 w _ _
           (surjective_pairing _)).
Defined.

Lemma poll_only_polls_witness :
  let w := Demo.world [Ok Demo.batch] in
  let run := poll Demo.externals 3 0 w in
  returned (fst run) = false
  /\ exists evs, trace (snd run) = trace w ++ evs /\ Forall loop_event evs.
Proof.
  intros w run.
  exact (poll_only_polls Demo.externals 3 0 w _ _ (surjective_pairing run)).
Defined.

Lemma serve_once_lifecycle_witness :
  let w := Demo.fresh [Ok Demo.batch] in
  let run := serve_once Demo.externals 3 w in
  exists evs,
    trace (snd run) = trace w ++ evs
    /\ (disconnects evs <= connects evs)%nat
    /\ (connects evs <= 1)%nat
    /\ (fst run = Ret RFalse -> Forall startup_event evs).
Proof.
  intros w run.
  exact (serve_once_lifecycle Demo.externals 3 w _ _ (surjective_pairing run)).
Defined.

Lemma connection_refused_witness :
  serve_once Refusing.externals 3 (Demo.fresh [])
  = (Ret RFalse,
     mkWorld [] ∅ "TOKEN" None None
       [Log INFO "Initializing connection" []; TelegramBot "TOKEN";
        Log ERROR "Connection failure: %s" [ArgStr "Unauthorized"]]).
Proof.
  exact (proj1 (connection_refused Refusing.externals 3 (Demo.fresh [])
                  "Unauthorized" []) eq_refl).
Defined.

Lemma connection_error_propagates_witness :
  serve_once Offline.externals 3 (Demo.fresh [])
  = (Raise (OtherException "ConnectionError"),
     mkWorld [] ∅ "TOKEN" None None
       [Log INFO "Initializing connection" []; TelegramBot "TOKEN"]).
Proof.
  exact (proj1 (connection_error_propagates Offline.externals 3 (Demo.fresh [])
                  (OtherException "ConnectionError") [] eq_refl) eq_refl).
Defined.

Lemma connection_made_witness :
  serve_once Demo.externals 3 (Demo.fresh [Ok Demo.batch])
  = polling Demo.externals 3 0
      (mkWorld [Ok Demo.batch] ∅ "TOKEN" (Some "TOKEN")
         (Some (mkTelegramPerson 1 (Some "Err") (Some "Bot") (Some "errbot")))
         [Log INFO "Initializing connection" []; TelegramBot "TOKEN"; GetMe;
          Log INFO "Connected" []; ResetReconnectionCount; ConnectCallback]).
Proof.
  exact (connection_made Demo.externals 3 (Demo.fresh [Ok Demo.batch]) Demo.bot
           [Ok Demo.batch] [Ok Demo.batch] [Ok Demo.batch] [Ok Demo.batch]
           eq_refl eq_refl eq_refl eq_refl).
Defined.

(** The operator interrupts the dispatch of update 4: update 5 is left
    alone and the store holds 5. *)
Lemma batch_abandoned_on_interrupt_witness :
  let w := Demo.world [] in
  fst (for_updates Stopping.externals Stopping.batch 0 w) = Raise KeyboardInterrupt
  /\ store (snd (for_updates Stopping.externals Stopping.batch 0 w)) !! offset_key
     = Some 5
  /\ exists w1 w2,
       for_updates Stopping.externals
         [mkUpdate 4 (Some (Some (mkTgMessage (Some "stop") (ChatUser Demo.alice) Demo.alice)));
          mkUpdate 5 (Some (Some (mkTgMessage (Some "three") (ChatUser Demo.alice) Demo.alice)))]
         4 w1
       = (Raise KeyboardInterrupt, w2)
       /\ store w2 !! offset_key = Some (4 + 1).
Proof.
  intros w. split; [vm_compute; reflexivity |].
  split; [vm_compute; reflexivity |].
  exists w. eexists.
  exact (batch_abandoned_on_interrupt Stopping.externals
           (mkUpdate 4 (Some (Some (mkTgMessage (Some "stop") (ChatUser Demo.alice) Demo.alice))))
           [mkUpdate 5 (Some (Some (mkTgMessage (Some "three") (ChatUser Demo.alice) Demo.alice)))]
           4 w _ (Some (mkTgMessage (Some "stop") (ChatUser Demo.alice) Demo.alice))
           KeyboardInterrupt eq_refl
           ltac:(vm_compute; reflexivity) eq_refl).
Defined.

Lemma poll_next_fetch_witness :
  let w := Demo.world [Ok Demo.batch] in
  exists w2,
    poll Demo.externals 2 0 w = poll Demo.externals 1 10 w2
    /\ store w2 !! offset_key = Some 10.
Proof.
  intros w.
  exact (poll_next_fetch Demo.externals 1 0 w "TOKEN" Demo.batch []
           demo_build_message_polite demo_callback_message_polite
           eq_refl eq_refl).
Defined.

Lemma send_message_at_most_once_witness :
  let w := Demo.world [] in
  let mess := mkMessage "pong" None (Some (Person (person_of_user Demo.alice))) in
  let run := send_message Demo.externals mess w in
  exists evs,
    trace (snd run) = trace w ++ evs
    /\ (sends evs <= 1)%nat
    /\ match fst run with
       | Ret _ =>
           exists recipient body' e1 e2,
             to mess = Some recipient
             /\ ErrBot_send_message Demo.externals mess (env w) = (Ok tt, e1)
             /\ md_converter_convert Demo.externals (body mess) e1 = (Ok body', e2)
             /\ List.filter is_send evs
                = [SendMessage (identifier_id recipient) body']
       | Raise _ => True
       | OutOfFuel => False
       end.
Proof.
  intros w mess run.
  exact (send_message_at_most_once Demo.externals mess w _ _
           (surjective_pairing run)).
Defined.

Lemma send_message_without_recipient_witness :
  send_message Demo.externals (mkMessage "nobody" None None) (Demo.world [])
  = (Raise (AttributeError "'NoneType' object has no attribute 'id'"),
     logged (Demo.world [])
       [ErrBotSendMessage (mkMessage "nobody" None None); MdConvert "nobody"]).
Proof.
  exact (send_message_without_recipient Demo.externals
           (mkMessage "nobody" None None) (Demo.world []) "nobody" [] []
           eq_refl eq_refl eq_refl).
Defined.

Lemma send_message_before_connection_witness :
  let mess := mkMessage "early" None (Some (Person (person_of_user Demo.alice))) in
  send_message Demo.externals mess (Demo.fresh [])
  = (Raise (AttributeError "'NoneType' object has no attribute 'sendMessage'"),
     logged (Demo.fresh [])
       [ErrBotSendMessage mess; MdConvert "early";
        LogException
          "An exception occurred while trying to send the following message to %s: %s"
          [ArgInt 7; ArgStr "early"]
          (AttributeError "'NoneType' object has no attribute 'sendMessage'")]).
Proof.
  intros mess.
  exact (send_message_before_connection Demo.externals mess (Demo.fresh [])
           (Person (person_of_user Demo.alice)) "early" [] []
           eq_refl eq_refl eq_refl eq_refl).
Defined.

(** A public and a private reply to a message posted in the group. *)
Lemma reply_goes_back_witness :
  let message := mkTgMessage (Some "ping") (ChatGroup Demo.team) Demo.alice in
  let inbound := mkMessage "ping" (Some (sender_of message))
                   (Some (recipient_of message (person_of_user Demo.bot))) in
  (exists reply,
      build_reply Demo.externals recipient_is_person inbound "pong" false
        (Demo.world [])
      = (Ret reply, logged (Demo.world []) [BuildMessage "pong"])
      /\ body reply = "pong"
      /\ frm reply = Some (Person (person_of_user Demo.bot))
      /\ identifier_id <$> to reply = Some (-100))
  /\ (exists reply,
         build_reply Demo.externals recipient_is_person inbound "pong" true
           (Demo.world [])
         = (Ret reply, logged (Demo.world []) [BuildMessage "pong"])
         /\ body reply = "pong"
         /\ frm reply = Some (Person (person_of_user Demo.bot))
         /\ identifier_id <$> to reply = Some 7).
Proof.
  intros message inbound. split.
  - exact (reply_goes_back Demo.externals recipient_is_person message
             (person_of_user Demo.bot)
             "ping" "pong" false (mkMessage "pong" None None) [] (Demo.world [])
             eq_refl eq_refl).
  - exact (reply_goes_back Demo.externals recipient_is_person message
             (person_of_user Demo.bot)
             "ping" "pong" true (mkMessage "pong" None None) [] (Demo.world [])
             eq_refl eq_refl).
Defined.

Lemma idle_polling_goes_on_witness :
  let w := Demo.world [] in
  exists w',
    poll Idle.externals 4 0 w = (OutOfFuel, w')
    /\ store w' = store w
    /\ exists evs,
         trace w' = trace w ++ evs
         /\ List.filter is_fetch evs = repeat (GetUpdates 0 60) 4.
Proof.
  intros w.
  exact (idle_polling_goes_on Idle.externals 4 0 w "TOKEN"
           (fun e => ex_intro _ e eq_refl) eq_refl).
Defined.
